(** * Amana marketing dashboard: aggregation and chart geometry

    A shallow embedding of the aggregation code of the four dashboard views
    (device, weekly, region, demographic) and of the two chart components
    (line chart, bubble map), followed by the properties that the
    specification states about them.

    Numbers.  A JavaScript number is modelled by [num]: a finite value is an
    exact rational, and the three special values NaN, +Infinity and -Infinity
    are kept, because the guards of the code ([|| 0], [|| 1], [=== ]) are
    about them.  Rounding, overflow and the sign of zero are not modelled:
    the statements below either apply the operations of the code in the
    order of the code, or carry the hypotheses under which no intermediate
    result of the code leaves the finite range. *)

From Stdlib Require Import List String Ascii Bool ZArith QArith Lia Lqa Permutation.
From Stdlib Require Import DecimalString Qabs Qround.
Import ListNotations.

Set Implicit Arguments.

(* ================================================================== *)
(** ** JavaScript numbers *)

Module JsNum.

Inductive num : Type :=
| Fin (q : Q)
| PInf
| NInf
| NaN.

Definition of_Z (z : Z) : num := Fin (inject_Z z).
Definition of_nat (n : nat) : num := of_Z (Z.of_nat n).

Definition is_finite (x : num) : Prop :=
  match x with Fin _ => True | _ => False end.

(** Sign of a number, [Eq] for zero and for NaN. *)
Definition nsign (x : num) : comparison :=
  match x with
  | Fin q => (q ?= 0)%Q
  | PInf => Gt
  | NInf => Lt
  | NaN => Eq
  end.

Definition cmul (a b : comparison) : comparison :=
  match a, b with
  | Eq, _ | _, Eq => Eq
  | Gt, Gt | Lt, Lt => Gt
  | _, _ => Lt
  end.

(** The infinity of a given sign; a zero sign stands for an undefined
    form (0/0, Infinity * 0) and gives NaN. *)
Definition inf_of_sign (c : comparison) : num :=
  match c with Gt => PInf | Lt => NInf | Eq => NaN end.

Definition nneg (x : num) : num :=
  match x with
  | Fin q => Fin (- q)
  | PInf => NInf
  | NInf => PInf
  | NaN => NaN
  end.

(** [x + y] *)
Definition nadd (x y : num) : num :=
  match x, y with
  | NaN, _ | _, NaN => NaN
  | Fin a, Fin b => Fin (a + b)
  | PInf, NInf | NInf, PInf => NaN
  | PInf, _ | _, PInf => PInf
  | NInf, _ | _, NInf => NInf
  end.

(** [x - y] *)
Definition nsub (x y : num) : num :=
  match x, y with
  | Fin a, Fin b => Fin (a - b)
  | _, _ => nadd x (nneg y)
  end.

(** [x * y] *)
Definition nmul (x y : num) : num :=
  match x, y with
  | NaN, _ | _, NaN => NaN
  | Fin a, Fin b => Fin (a * b)
  | _, _ => inf_of_sign (cmul (nsign x) (nsign y))
  end.

(** [x / y]: a finite value divided by zero is an infinity of the sign of
    the dividend, and 0/0 is NaN. *)
Definition ndiv (x y : num) : num :=
  match x, y with
  | NaN, _ | _, NaN => NaN
  | Fin a, Fin b =>
      if Qeq_bool b 0 then inf_of_sign (a ?= 0)%Q else Fin (a / b)
  | Fin _, _ => Fin 0
  | _, Fin b =>
      inf_of_sign (cmul (nsign x) (if Qeq_bool b 0 then Gt else (b ?= 0)%Q))
  | _, _ => NaN
  end.

(** [x === y] on numbers: NaN is equal to nothing. *)
Definition strict_eq (x y : num) : bool :=
  match x, y with
  | Fin a, Fin b => Qeq_bool a b
  | PInf, PInf | NInf, NInf => true
  | _, _ => false
  end.

(** [x < y]: false as soon as one side is NaN. *)
Definition nlt (x y : num) : bool :=
  match x, y with
  | NaN, _ | _, NaN => false
  | Fin a, Fin b => match (a ?= b)%Q with Lt => true | _ => false end
  | PInf, _ | _, NInf => false
  | NInf, _ | _, PInf => true
  end.

(** [x > y] *)
Definition ngt (x y : num) : bool := nlt y x.

(** ToBoolean on a number: 0 and NaN are falsy. *)
Definition truthy (x : num) : bool :=
  match x with
  | Fin q => negb (Qeq_bool q 0)
  | NaN => false
  | _ => true
  end.

(** [x || d] *)
Definition num_or (x d : num) : num := if truthy x then x else d.

Definition nmax (x y : num) : num :=
  match x, y with
  | NaN, _ | _, NaN => NaN
  | _, _ => if nlt x y then y else x
  end.

Definition nmin (x y : num) : num :=
  match x, y with
  | NaN, _ | _, NaN => NaN
  | _, _ => if nlt y x then y else x
  end.

(** [Math.max(...xs)] and [Math.min(...xs)]: -Infinity and +Infinity on no
    argument, NaN as soon as one argument is NaN. *)
Definition math_max (xs : list num) : num := fold_left nmax xs NInf.
Definition math_min (xs : list num) : num := fold_left nmin xs PInf.

(** [xs.reduce((sum, x) => sum + x, 0)] *)
Definition nsum (xs : list num) : num := fold_left nadd xs (Fin 0).

(** Equality of values: finite values are compared as rationals. *)
Definition num_eqv (x y : num) : Prop :=
  match x, y with
  | Fin a, Fin b => (a == b)%Q
  | PInf, PInf | NInf, NInf | NaN, NaN => True
  | _, _ => False
  end.

(** [lo <= x <= hi] for a finite [x]. *)
Definition between (lo hi : Q) (x : num) : Prop :=
  match x with
  | Fin q => (lo <= q)%Q /\ (q <= hi)%Q
  | _ => False
  end.

(** *** Number to string

    [String(x)], as a template literal applies it.  Integers and the special
    values print as JavaScript prints them (below 1e21); a fraction prints its
    decimal expansion, cut after [frac_digits] digits. *)

Definition show_Z (z : Z) : string := NilZero.string_of_int (Z.to_int z).

Definition frac_digits : nat := 17.

Definition digit_char (d : Z) : ascii := ascii_of_nat (48 + Z.to_nat d).

(** The digits of [r / d] after the point, [0 <= r < d]. *)
Fixpoint frac_expansion (fuel : nat) (r d : Z) : string :=
  match fuel with
  | O => EmptyString
  | S fuel' =>
      if (r =? 0)%Z then EmptyString
      else String (digit_char (r * 10 / d)) (frac_expansion fuel' ((r * 10) mod d) d)
  end.

Definition show_Q (q : Q) : string :=
  let q' := Qred q in
  let n := Qnum q' in
  let d := Zpos (Qden q') in
  if (d =? 1)%Z then show_Z n
  else
    let a := Z.abs n in
    ((if (n <? 0)%Z then "-" else "") ++ show_Z (a / d) ++ "."
       ++ frac_expansion frac_digits (a mod d) d)%string.

Definition show_num (x : num) : string :=
  match x with
  | Fin q => show_Q q
  | PInf => "Infinity"
  | NInf => "-Infinity"
  | NaN => "NaN"
  end.

End JsNum.

Import JsNum.

Open Scope string_scope.

(* ================================================================== *)
(** ** JavaScript containers *)

(** [Map<string, V>]: an association list in insertion order.  [set] on a
    key that is present replaces the value where it stands, so the order of
    [entries] is the order in which the keys were first set. *)
Module JsMap.

Definition t (V : Type) : Type := list (string * V).

Definition empty {V : Type} : t V := [].

Fixpoint get {V : Type} (m : t V) (k : string) : option V :=
  match m with
  | [] => None
  | (k', v) :: m' => if String.eqb k' k then Some v else get m' k
  end.

Definition has {V : Type} (m : t V) (k : string) : bool :=
  match get m k with Some _ => true | None => false end.

Fixpoint set {V : Type} (m : t V) (k : string) (v : V) : t V :=
  match m with
  | [] => [(k, v)]
  | (k', v') :: m' =>
      if String.eqb k' k then (k', v) :: m' else (k', v') :: set m' k v
  end.

Definition entries {V : Type} (m : t V) : list (string * V) := m.
Definition keys {V : Type} (m : t V) : list string := map fst m.
Definition values {V : Type} (m : t V) : list V := map snd m.

(** [new Map(pairs)] *)
Definition of_entries {V : Type} (pairs : list (string * V)) : t V :=
  fold_left (fun m kv => set m (fst kv) (snd kv)) pairs empty.

End JsMap.

(** A plain object [{}] used as a dictionary whose values are objects.  Its
    own properties are kept in creation order.  A read [obj[k]] also sees the
    properties inherited from [Object.prototype], all of which are truthy
    (functions, and the prototype itself under [__proto__]). *)
Module JsObject.

Definition objectPrototypeProps : list string :=
  [ "constructor"; "__defineGetter__"; "__defineSetter__"; "hasOwnProperty";
    "__lookupGetter__"; "__lookupSetter__"; "isPrototypeOf";
    "propertyIsEnumerable"; "toString"; "valueOf"; "__proto__";
    "toLocaleString" ].

Definition inherited (k : string) : bool :=
  existsb (String.eqb k) objectPrototypeProps.

Definition t (V : Type) : Type := JsMap.t V.

Definition hasOwn {V : Type} (o : t V) (k : string) : bool := JsMap.has o k.

(** Truthiness of [obj[k]]. *)
Definition truthy_at {V : Type} (o : t V) (k : string) : bool :=
  hasOwn o k || inherited k.

(** [Object.keys(obj)], for keys that are not array indices. *)
Definition keys {V : Type} (o : t V) : list string := JsMap.keys o.

End JsObject.

(** Arrays. *)
Module JsArray.

(** [xs.forEach(x => ...)] over a state that the callback updates. *)
Definition forEach {A S : Type} (xs : list A) (body : S -> A -> S) (s : S) : S :=
  fold_left body xs s.

(** [x] is placed after [y], which stood after it, only when the
    comparator says [cmp(x, y) > 0]. *)
Fixpoint insert_by {A : Type} (cmp : A -> A -> num) (x : A) (l : list A) : list A :=
  match l with
  | [] => [x]
  | y :: l' => if ngt (cmp x y) (Fin 0) then y :: insert_by cmp x l' else x :: l
  end.

(** [xs.sort(cmp)]: the sort is stable, so for a consistent comparator the
    result is the one of stable insertion.  A comparator that answers NaN on
    some pair is not consistent; the order is then left to the engine, and
    this is one such order (NaN is not above 0).  The array is sorted in
    place: the result is also the new content of [xs]. *)
Definition sort {A : Type} (cmp : A -> A -> num) (xs : list A) : list A :=
  fold_right (insert_by cmp) [] xs.

(** [xs.find(p)] *)
Definition find {A : Type} (p : A -> bool) (xs : list A) : option A := List.find p xs.

(** The indices [0 .. n-1] paired with the elements, as [map((x, index) => ...)]
    sees them. *)
Definition indexed {A : Type} (xs : list A) : list (nat * A) :=
  combine (seq 0 (List.length xs)) xs.

End JsArray.

(** Completion of a call: a value, or a thrown error. *)
Inductive JsError : Type := TypeError.

Inductive completion (A : Type) : Type :=
| Normal (a : A)
| Throw (e : JsError).

Arguments Normal {A} a.
Arguments Throw {A} e.

Definition bind {A B : Type} (c : completion A) (k : A -> completion B) : completion B :=
  match c with
  | Normal a => k a
  | Throw e => Throw e
  end.

Notation "x <- c ;; k" := (bind c (fun x => k))
  (at level 61, c at next level, right associativity).

(** [xs.forEach] with a callback that may throw: the first throw ends the loop. *)
Fixpoint forEachM {A S : Type} (xs : list A) (body : S -> A -> completion S) (s : S)
  : completion S :=
  match xs with
  | [] => Normal s
  | x :: xs' => s' <- body s x ;; forEachM xs' body s'
  end.

(** [x.toFixed(f)] for [|x| < 1e21]: the nearest decimal with [f] digits
    after the point, the larger one on a tie; the special values print their
    names.  The decimal is the one nearest to the rational that [x] holds. *)
Module JsFormat.

Fixpoint zeros (n : nat) : string :=
  match n with O => "" | S n' => String "0" (zeros n') end.

Definition pad_left (n : nat) (s : string) : string :=
  zeros (n - String.length s)%nat ++ s.

Definition toFixed (f : nat) (x : num) : string :=
  match x with
  | NaN => "NaN"
  | PInf => "Infinity"
  | NInf => "-Infinity"
  | Fin q =>
      let a := Qabs q in
      let n := Qfloor (a * inject_Z (10 ^ Z.of_nat f) + (1 # 2)) in
      let digits := pad_left (S f) (show_Z n) in
      let cut := (String.length digits - f)%nat in
      (if Qlt_le_dec q 0 then "-" else "")
        ++ substring 0 cut digits
        ++ (if (f =? 0)%nat then "" else "." ++ substring cut f digits)
  end.

End JsFormat.

(* ================================================================== *)
(** ** Device view ([app/device-view/page.tsx]) *)

Module DeviceView.

Module DeviceData.
Record t : Type := mk
  { device : string;
    impressions : num;
    clicks : num;
    conversions : num;
    spend : num;
    revenue : num;
    ctr : num;
    conversion_rate : num;
    percentage_of_traffic : num }.
End DeviceData.

(** A breakdown list that is absent from the fetched document is [None]. *)
Module Campaign.
Record t : Type := mk
  { campaign_id : string;
    campaign_name : string;
    device_performance : option (list DeviceData.t);
    spend : num;
    revenue : num }.
End Campaign.

Record MarketingData : Type := { campaigns : list Campaign.t }.

(** The value type of [deviceMap]. *)
Module Stats.
Record t : Type := mk
  { impressions : num;
    clicks : num;
    conversions : num;
    spend : num;
    revenue : num;
    traffic : num }.
End Stats.

(** [{ device, ...stats }] *)
Module Row.
Record t : Type := mk
  { device : string;
    impressions : num;
    clicks : num;
    conversions : num;
    spend : num;
    revenue : num;
    traffic : num }.
End Row.

(** The callback of the inner [forEach]: locate or create the bucket of the
    record's device, then add the record to it.  [existing] is the object
    held by the map, so the additions update the map where the key stands. *)
Definition addDevice (deviceMap : JsMap.t Stats.t) (device : DeviceData.t)
  : JsMap.t Stats.t :=
  let key := DeviceData.device device in
  let deviceMap :=
    if negb (JsMap.has deviceMap key)
    then JsMap.set deviceMap key (Stats.mk (Fin 0) (Fin 0) (Fin 0) (Fin 0) (Fin 0) (Fin 0))
    else deviceMap in
  match JsMap.get deviceMap key with
  | Some existing =>
      JsMap.set deviceMap key
        (Stats.mk
           (nadd (Stats.impressions existing) (DeviceData.impressions device))
           (nadd (Stats.clicks existing) (DeviceData.clicks device))
           (nadd (Stats.conversions existing) (DeviceData.conversions device))
           (nadd (Stats.spend existing) (DeviceData.spend device))
           (nadd (Stats.revenue existing) (DeviceData.revenue device))
           (nadd (Stats.traffic existing) (DeviceData.percentage_of_traffic device)))
  | None => deviceMap
  end.

Definition aggregatedDeviceData (data : option MarketingData) : list Row.t :=
  match data with
  | None => []
  | Some d =>
      if (List.length (campaigns d) =? 0)%nat then []
      else
        let deviceMap :=
          JsArray.forEach (campaigns d)
            (fun deviceMap campaign =>
               match Campaign.device_performance campaign with
               | None => deviceMap
               | Some perf => JsArray.forEach perf addDevice deviceMap
               end)
            JsMap.empty in
        map (fun '(device, stats) =>
               Row.mk device (Stats.impressions stats) (Stats.clicks stats)
                 (Stats.conversions stats) (Stats.spend stats) (Stats.revenue stats)
                 (Stats.traffic stats))
          (JsMap.entries deviceMap)
  end.

(** [data?.campaigns?.length ? aggregatedDeviceData() : []] *)
Definition deviceData (data : option MarketingData) : list Row.t :=
  match data with
  | None => []
  | Some d =>
      if (List.length (campaigns d) =? 0)%nat then [] else aggregatedDeviceData data
  end.

(** [deviceData.find(d => d.device === name) || { impressions: 0, ... }] *)
Definition findDevice (name : string) (rows : list Row.t) : Stats.t :=
  match JsArray.find (fun d => Row.device d =? name) rows with
  | Some d =>
      Stats.mk (Row.impressions d) (Row.clicks d) (Row.conversions d) (Row.spend d)
        (Row.revenue d) (Row.traffic d)
  | None => Stats.mk (Fin 0) (Fin 0) (Fin 0) (Fin 0) (Fin 0) (Fin 0)
  end.

Definition mobileData (data : option MarketingData) : Stats.t :=
  findDevice "Mobile" (deviceData data).
Definition desktopData (data : option MarketingData) : Stats.t :=
  findDevice "Desktop" (deviceData data).

(** [d.spend > 0 ? d.revenue / d.spend : 0], the ratio of the summary cards. *)
Definition deviceROAS (d : Stats.t) : num :=
  if ngt (Stats.spend d) (Fin 0) then ndiv (Stats.revenue d) (Stats.spend d) else Fin 0.

Definition mobileROAS (data : option MarketingData) : num := deviceROAS (mobileData data).
Definition desktopROAS (data : option MarketingData) : num := deviceROAS (desktopData data).

(** The [roas] cell of a campaign's row in the per-device tables:
    [(perf.revenue / perf.spend).toFixed(2)], for the campaign's first record
    of the device; a campaign without one gives no row. *)
Definition campaignRoas (name : string) (campaign : Campaign.t) : option num :=
  match Campaign.device_performance campaign with
  | None => None
  | Some perf =>
      match JsArray.find (fun d => DeviceData.device d =? name) perf with
      | Some p => Some (ndiv (DeviceData.revenue p) (DeviceData.spend p))
      | None => None
      end
  end.

Definition campaignRoasCell (name : string) (campaign : Campaign.t) : option string :=
  option_map (JsFormat.toFixed 2) (campaignRoas name campaign).

End DeviceView.

(* ================================================================== *)
(** ** Weekly view *)

Module WeeklyView.

Module WeeklyData.
Record t : Type := mk
  { week_start : string;
    week_end : string;
    impressions : num;
    clicks : num;
    conversions : num;
    spend : num;
    revenue : num }.
End WeeklyData.

Module Campaign.
Record t : Type := mk
  { campaign_id : string;
    campaign_name : string;
    weekly_performance : option (list WeeklyData.t) }.
End Campaign.

Record MarketingData : Type := { campaigns : list Campaign.t }.

(** The value type of [weeklyMap], which is also the type of the rows. *)
Module Week.
Record t : Type := mk
  { spend : num;
    revenue : num;
    impressions : num;
    clicks : num;
    conversions : num;
    weekStart : string;
    weekEnd : string }.
End Week.

Definition addWeek (weeklyMap : JsMap.t Week.t) (week : WeeklyData.t) : JsMap.t Week.t :=
  let key := WeeklyData.week_start week in
  let weeklyMap :=
    if negb (JsMap.has weeklyMap key)
    then JsMap.set weeklyMap key
           (Week.mk (Fin 0) (Fin 0) (Fin 0) (Fin 0) (Fin 0)
              (WeeklyData.week_start week) (WeeklyData.week_end week))
    else weeklyMap in
  match JsMap.get weeklyMap key with
  | Some existing =>
      JsMap.set weeklyMap key
        (Week.mk
           (nadd (Week.spend existing) (WeeklyData.spend week))
           (nadd (Week.revenue existing) (WeeklyData.revenue week))
           (nadd (Week.impressions existing) (WeeklyData.impressions week))
           (nadd (Week.clicks existing) (WeeklyData.clicks week))
           (nadd (Week.conversions existing) (WeeklyData.conversions week))
           (Week.weekStart existing) (Week.weekEnd existing))
  | None => weeklyMap
  end.

Section WithDate.

(** [new Date(s).getTime()], the date parser of the runtime. *)
Variable getTime : string -> num.

Definition aggregatedWeeklyData (data : option MarketingData) : list Week.t :=
  let weeklyMap0 : JsMap.t Week.t := JsMap.empty in
  match data with
  | None => []
  | Some d =>
      if (List.length (campaigns d) =? 0)%nat then []
      else
        let weeklyMap :=
          JsArray.forEach (campaigns d)
            (fun weeklyMap campaign =>
               match Campaign.weekly_performance campaign with
               | None => weeklyMap
               | Some perf => JsArray.forEach perf addWeek weeklyMap
               end)
            weeklyMap0 in
        JsArray.sort
          (fun a b => nsub (getTime (Week.weekStart a)) (getTime (Week.weekStart b)))
          (JsMap.values weeklyMap)
  end.

Definition weeklyData (data : option MarketingData) : list Week.t :=
  match data with
  | None => []
  | Some d =>
      if (List.length (campaigns d) =? 0)%nat then [] else aggregatedWeeklyData data
  end.

End WithDate.

End WeeklyView.

(* ================================================================== *)
(** ** Bubble map ([src/components/ui/bubble-map.tsx]) *)

Module BubbleMap.

Record BubbleDataPoint : Type :=
  { city : string;
    country : string;
    value : num;
    secondaryValue : option num;
    x : num;
    y : num }.

(** Calculate bubble sizes (between 10 and 60). *)
Definition getBubbleSize (maxValue minValue : num) (value : num) : num :=
  if strict_eq maxValue minValue then Fin 35
  else
    let normalized := ndiv (nsub value minValue) (nsub maxValue minValue) in
    nadd (Fin 10) (nmul normalized (Fin 50)).

Definition viewBoxWidth : num := Fin 1000.

Definition convertCoordinates (viewBoxHeight : num) (x y : num) : num * num :=
  let svgX := nmul (ndiv (nadd x (Fin 180)) (Fin 360)) viewBoxWidth in
  let svgY := nmul (ndiv (nsub (Fin 90) y) (Fin 180)) viewBoxHeight in
  (svgX, svgY).

Record Bubble : Type :=
  { svgX : num; svgY : num; radius : num; point : BubbleDataPoint }.

(** An entry of the city list: the point and the scale of its dot. *)
Record CityCard : Type := { card_point : BubbleDataPoint; card_scale : num }.

Inductive Rendered : Type :=
| NoData
| Chart (bubbles : list Bubble) (legendMin legendMax : num) (cityList : list CityCard).

(** One render.  [data] is the array of the caller, received by reference;
    the second component is that array after the call.  The bubbles are
    built from the array as received; the city list then sorts the same
    array with [data.sort(...)] before mapping over it. *)
Definition BubbleMap (data : list BubbleDataPoint) (height : num)
  : Rendered * list BubbleDataPoint :=
  match data with
  | [] => (NoData, data)
  | _ =>
      let maxValue := math_max (map value data) in
      let minValue := math_min (map value data) in
      let bubbles :=
        map (fun point =>
               let '(svgX, svgY) := convertCoordinates height (x point) (y point) in
               Build_Bubble svgX svgY (getBubbleSize maxValue minValue (value point)) point)
          data in
      let data := JsArray.sort (fun a b => nsub (value b) (value a)) data in
      let cityList :=
        map (fun point =>
               Build_CityCard point
                 (ndiv (getBubbleSize maxValue minValue (value point)) (Fin 30)))
          data in
      (Chart bubbles minValue maxValue cityList, data)
  end.

(** The bubbles of a render. *)
Definition bubblesOf (r : Rendered) : list Bubble :=
  match r with
  | NoData => []
  | Chart bubbles _ _ _ => bubbles
  end.

End BubbleMap.

(* ================================================================== *)
(** ** Region view *)

Module RegionView.

Module RegionalData.
Record t : Type := mk
  { region : string;
    country : string;
    impressions : num;
    clicks : num;
    conversions : num;
    spend : num;
    revenue : num;
    ctr : num;
    conversion_rate : num;
    cpc : num;
    cpa : num;
    roas : num }.
End RegionalData.

Module Campaign.
Record t : Type := mk
  { campaign_id : string;
    campaign_name : string;
    regional_performance : option (list RegionalData.t) }.
End Campaign.

Record MarketingData : Type := { campaigns : list Campaign.t }.

(** The value type of [regionalMap]. *)
Module Totals.
Record t : Type := mk
  { spend : num;
    revenue : num;
    impressions : num;
    clicks : num;
    conversions : num;
    country : string }.
End Totals.

(** [{ region, ...data }] *)
Module Row.
Record t : Type := mk
  { region : string;
    spend : num;
    revenue : num;
    impressions : num;
    clicks : num;
    conversions : num;
    country : string }.
End Row.

Module Coords.
Record t : Type := mk { x : num; y : num; country : string }.
End Coords.

Definition deg (z : Z) : num := Fin (z # 10000).

(** City coordinates for major cities in the Middle East and North Africa. *)
Definition cityCoordinates : list (string * Coords.t) :=
  [ ("Dubai", Coords.mk (deg 552708) (deg 252048) "UAE");
    ("Abu Dhabi", Coords.mk (deg 543773) (deg 244539) "UAE");
    ("Riyadh", Coords.mk (deg 466753) (deg 247136) "Saudi Arabia");
    ("Jeddah", Coords.mk (deg 391925) (deg 215433) "Saudi Arabia");
    ("Cairo", Coords.mk (deg 312357) (deg 300444) "Egypt");
    ("Doha", Coords.mk (deg 515310) (deg 252854) "Qatar");
    ("Kuwait", Coords.mk (deg 479774) (deg 293759) "Kuwait");
    ("Manama", Coords.mk (deg 505577) (deg 260667) "Bahrain");
    ("Muscat", Coords.mk (deg 584059) (deg 235880) "Oman");
    ("Amman", Coords.mk (deg 359450) (deg 319539) "Jordan");
    ("Beirut", Coords.mk (deg 355018) (deg 338886) "Lebanon");
    ("Casablanca", Coords.mk (deg (-75898)) (deg 335731) "Morocco");
    ("Tunis", Coords.mk (deg 101815) (deg 368065) "Tunisia");
    ("Algiers", Coords.mk (deg 30588) (deg 367538) "Algeria");
    ("Paris", Coords.mk (deg 23522) (deg 488566) "France");
    ("London", Coords.mk (deg (-1276)) (deg 515074) "United Kingdom");
    ("Madrid", Coords.mk (deg (-37038)) (deg 404168) "Spain");
    ("Rome", Coords.mk (deg 124964) (deg 419028) "Italy");
    ("Berlin", Coords.mk (deg 134050) (deg 525200) "Germany");
    ("Istanbul", Coords.mk (deg 289784) (deg 410082) "Turkey") ].

Definition addRegion (regionalMap : JsMap.t Totals.t) (region : RegionalData.t)
  : JsMap.t Totals.t :=
  let key := RegionalData.region region in
  let regionalMap :=
    if negb (JsMap.has regionalMap key)
    then JsMap.set regionalMap key
           (Totals.mk (Fin 0) (Fin 0) (Fin 0) (Fin 0) (Fin 0) (RegionalData.country region))
    else regionalMap in
  match JsMap.get regionalMap key with
  | Some existing =>
      JsMap.set regionalMap key
        (Totals.mk
           (nadd (Totals.spend existing) (RegionalData.spend region))
           (nadd (Totals.revenue existing) (RegionalData.revenue region))
           (nadd (Totals.impressions existing) (RegionalData.impressions region))
           (nadd (Totals.clicks existing) (RegionalData.clicks region))
           (nadd (Totals.conversions existing) (RegionalData.conversions region))
           (Totals.country existing))
  | None => regionalMap
  end.

Definition aggregatedRegionalData (data : option MarketingData) : list Row.t :=
  let regionalMap0 : JsMap.t Totals.t := JsMap.empty in
  match data with
  | None => []
  | Some d =>
      if (List.length (campaigns d) =? 0)%nat then []
      else
        let regionalMap :=
          JsArray.forEach (campaigns d)
            (fun regionalMap campaign =>
               match Campaign.regional_performance campaign with
               | None => regionalMap
               | Some perf => JsArray.forEach perf addRegion regionalMap
               end)
            regionalMap0 in
        map (fun '(region, data) =>
               Row.mk region (Totals.spend data) (Totals.revenue data)
                 (Totals.impressions data) (Totals.clicks data) (Totals.conversions data)
                 (Totals.country data))
          (JsMap.entries regionalMap)
  end.

Definition regionalData (data : option MarketingData) : list Row.t :=
  match data with
  | None => []
  | Some d =>
      if (List.length (campaigns d) =? 0)%nat then [] else aggregatedRegionalData data
  end.

(** Create a map of existing data for quick lookup. *)
Definition regionalDataMap (data : option MarketingData) : JsMap.t Row.t :=
  JsMap.of_entries (map (fun r => (Row.region r, r)) (regionalData data)).

(** [regionData?.field || dflt] *)
Definition fieldOr (field : Row.t -> num) (regionData : option Row.t) (dflt : num) : num :=
  match regionData with
  | Some r => num_or (field r) dflt
  | None => dflt
  end.

(** Prepare data for bubble map (revenue) - include ALL cities. *)
Definition bubbleMapDataRevenue (data : option MarketingData)
  : list BubbleMap.BubbleDataPoint :=
  map (fun '(city, coords) =>
         let regionData := JsMap.get (regionalDataMap data) city in
         BubbleMap.Build_BubbleDataPoint city (Coords.country coords)
           (fieldOr Row.revenue regionData (Fin 1000))
           (Some (fieldOr Row.spend regionData (Fin 0)))
           (Coords.x coords) (Coords.y coords))
    cityCoordinates.

(** Prepare data for bubble map (spend) - include ALL cities. *)
Definition bubbleMapDataSpend (data : option MarketingData)
  : list BubbleMap.BubbleDataPoint :=
  map (fun '(city, coords) =>
         let regionData := JsMap.get (regionalDataMap data) city in
         BubbleMap.Build_BubbleDataPoint city (Coords.country coords)
           (fieldOr Row.spend regionData (Fin 1000))
           (Some (fieldOr Row.revenue regionData (Fin 0)))
           (Coords.x coords) (Coords.y coords))
    cityCoordinates.

(** The [roas] cell of the regional table: the number
    [(region.revenue / region.spend) || 0], and its rendering by [toFixed(2)]. *)
Definition tableRoas (region : Row.t) : num :=
  num_or (ndiv (Row.revenue region) (Row.spend region)) (Fin 0).

Definition tableRoasCell (region : Row.t) : string :=
  JsFormat.toFixed 2 (tableRoas region).

(** The rows of the table, in the order [sort((a, b) => b.revenue - a.revenue)]
    leaves them, each with its [roas] cell. *)
Definition tableData (data : option MarketingData) : list (string * string) :=
  map (fun region => (Row.region region, tableRoasCell region))
    (JsArray.sort (fun a b => nsub (Row.revenue b) (Row.revenue a)) (regionalData data)).

End RegionView.

(* ================================================================== *)
(** ** Demographic view ([app/demographic-view/page.tsx]) *)

Module DemographicView.

Module Performance.
Record t : Type := mk
  { impressions : num;
    clicks : num;
    conversions : num;
    ctr : num;
    conversion_rate : num }.
End Performance.

Module DemographicData.
Record t : Type := mk
  { age_group : string;
    gender : string;
    percentage_of_audience : num;
    performance : option Performance.t }.
End DemographicData.

Module Campaign.
Record t : Type := mk
  { id : num;
    name : string;
    demographic_breakdown : option (list DemographicData.t);
    spend : num;
    revenue : num }.
End Campaign.

Record MarketingData : Type := { campaigns : option (list Campaign.t) }.

(** [maleData] and [femaleData] *)
Module GenderData.
Record t : Type := mk { clicks : num; spend : num; revenue : num }.
End GenderData.

(** The values of [ageGroupData] *)
Module AgeData.
Record t : Type := mk { spend : num; revenue : num }.
End AgeData.

Module Metrics.
Record t : Type := mk
  { maleData : GenderData.t;
    femaleData : GenderData.t;
    ageGroupData : JsObject.t AgeData.t }.
End Metrics.

Definition addGender (g : GenderData.t) (clicks spend revenue : num) : GenderData.t :=
  GenderData.mk (nadd (GenderData.clicks g) clicks) (nadd (GenderData.spend g) spend)
    (nadd (GenderData.revenue g) revenue).

(** The statements of the callback of the inner [forEach] that follow
    [const clicks = demo.performance.clicks], for a record [demo] of
    [campaign].  When [ageGroupData[demo.age_group]] is an inherited
    property, no bucket is created and the two additions are written to the
    inherited object: the own properties of [ageGroupData] stay as they
    are. *)
Definition accumulate (campaign : Campaign.t) (st : Metrics.t) (demo : DemographicData.t)
  (clicks : num) : Metrics.t :=
  let ratio := ndiv (DemographicData.percentage_of_audience demo) (Fin 100) in
  let spend := nmul (Campaign.spend campaign) ratio in
  let revenue := nmul (Campaign.revenue campaign) ratio in
  let maleData :=
    if DemographicData.gender demo =? "Male"
    then addGender (Metrics.maleData st) clicks spend revenue
    else Metrics.maleData st in
  let femaleData :=
    if DemographicData.gender demo =? "Male" then Metrics.femaleData st
    else if DemographicData.gender demo =? "Female"
         then addGender (Metrics.femaleData st) clicks spend revenue
         else Metrics.femaleData st in
  let age := DemographicData.age_group demo in
  let ageGroupData := Metrics.ageGroupData st in
  let ageGroupData :=
    if negb (JsObject.truthy_at ageGroupData age)
    then JsMap.set ageGroupData age (AgeData.mk (Fin 0) (Fin 0))
    else ageGroupData in
  let ageGroupData :=
    match JsMap.get ageGroupData age with
    | Some bucket =>
        JsMap.set ageGroupData age
          (AgeData.mk (nadd (AgeData.spend bucket) spend)
             (nadd (AgeData.revenue bucket) revenue))
    | None => ageGroupData
    end in
  Metrics.mk maleData femaleData ageGroupData.

(** The callback of the inner [forEach].  [demo.performance.clicks] is read
    with no guard: it throws on a record that has no [performance]. *)
Definition addDemo (campaign : Campaign.t) (st : Metrics.t) (demo : DemographicData.t)
  : completion Metrics.t :=
  match DemographicData.performance demo with
  | None => Throw TypeError
  | Some performance => Normal (accumulate campaign st demo (Performance.clicks performance))
  end.

Definition initialMetrics : Metrics.t :=
  Metrics.mk (GenderData.mk (Fin 0) (Fin 0) (Fin 0)) (GenderData.mk (Fin 0) (Fin 0) (Fin 0))
    JsMap.empty.

(** Calculate demographic metrics.  [None] is the [null] returned by
    [if (!data?.campaigns) return null], before the data has arrived or for
    a document that has no [campaigns].  There is no guard on
    [demographic_breakdown]: [forEach] is called on it as it is, and throws
    when it is absent. *)
Definition calculateMetrics (data : option MarketingData) : completion (option Metrics.t) :=
  match data with
  | None => Normal None
  | Some d =>
      match campaigns d with
      | None => Normal None
      | Some cs =>
          st <- forEachM cs
                  (fun st campaign =>
                     match Campaign.demographic_breakdown campaign with
                     | None => Throw TypeError
                     | Some demos => forEachM demos (addDemo campaign) st
                     end)
                  initialMetrics ;;
          Normal (Some st)
      end
  end.

(** The buckets that the returned object holds for the genders:
    [maleData] and [femaleData], whatever the records are. *)
Definition genderBuckets (m : Metrics.t) : list (string * GenderData.t) :=
  [("Male", Metrics.maleData m); ("Female", Metrics.femaleData m)].

End DemographicView.

(* ================================================================== *)
(** ** Line chart ([src/components/ui/line-chart.tsx]) *)

Module LineChart.

Record LineChartDataPoint : Type := { label : string; value : num }.

(** [{ x, y, ...item }] *)
Record Point : Type := { x : num; y : num; item : LineChartDataPoint }.

Record Geometry : Type :=
  { points : list Point; pathD : string; areaPathD : string }.

Definition chartWidth : num := Fin 100.

(** The geometry of a render; [None] is the "No data available" panel. *)
Definition LineChart (data : list LineChartDataPoint) (height : num) : option Geometry :=
  match data with
  | [] => None
  | _ =>
      let maxValue := math_max (map value data) in
      let minValue := math_min (map value data) in
      let valueRange := num_or (nsub maxValue minValue) (Fin 1) in
      let chartHeight := nsub height (Fin 80) in
      let points :=
        map (fun '(index, item) =>
               let x :=
                 nmul (ndiv (of_nat index) (nsub (of_nat (List.length data)) (Fin 1)))
                   chartWidth in
               let y :=
                 nsub chartHeight
                   (nmul (ndiv (nsub (value item) minValue) valueRange) chartHeight) in
               Build_Point x y item)
          (JsArray.indexed data) in
      let pathD :=
        String.concat " "
          (map (fun '(index, point) =>
                  let command := if (index =? 0)%nat then "M" else "L" in
                  command ++ " " ++ show_num (x point) ++ " " ++ show_num (y point))
             (JsArray.indexed points)) in
      let areaPathD :=
        pathD ++ " L " ++ show_num chartWidth ++ " " ++ show_num chartHeight
          ++ " L 0 " ++ show_num chartHeight ++ " Z" in
      Some (Build_Geometry points pathD areaPathD)
  end.

(** [s] occurs in [t]. *)
Fixpoint occurs (s t : string) : bool :=
  match t with
  | EmptyString => String.prefix s EmptyString
  | String _ t' => String.prefix s t || occurs s t'
  end.

End LineChart.

(* ================================================================== *)
(** ** The records behind an aggregation *)

(** The fetched document [{ campaigns: cs }], for each view. *)
Definition deviceInput (cs : list DeviceView.Campaign.t) : option DeviceView.MarketingData :=
  Some {| DeviceView.campaigns := cs |}.

Definition weekInput (cs : list WeeklyView.Campaign.t) : option WeeklyView.MarketingData :=
  Some {| WeeklyView.campaigns := cs |}.

Definition regionInput (cs : list RegionView.Campaign.t) : option RegionView.MarketingData :=
  Some {| RegionView.campaigns := cs |}.

Definition demoInput (cs : list DemographicView.Campaign.t)
  : option DemographicView.MarketingData :=
  Some {| DemographicView.campaigns := Some cs |}.

(** The records of a breakdown list; an absent list has none. *)
Definition present {A : Type} (l : option (list A)) : list A :=
  match l with Some xs => xs | None => [] end.

(** The records whose dimension value is [k], in the order of the input. *)
Definition matching {R : Type} (key : R -> string) (k : string) (rs : list R) : list R :=
  filter (fun r => key r =? k) rs.

(** The first record whose dimension value is [k]. *)
Definition first_of {R : Type} (key : R -> string) (k : string) (rs : list R) : option R :=
  List.find (fun r => key r =? k) rs.

(** The sum of a field over records, added from 0 in the order of the input. *)
Definition total {R : Type} (field : R -> num) (rs : list R) : num :=
  nsum (map field rs).

Definition deviceRecords (cs : list DeviceView.Campaign.t) : list DeviceView.DeviceData.t :=
  flat_map (fun c => present (DeviceView.Campaign.device_performance c)) cs.

Definition weeklyRecords (cs : list WeeklyView.Campaign.t) : list WeeklyView.WeeklyData.t :=
  flat_map (fun c => present (WeeklyView.Campaign.weekly_performance c)) cs.

Definition regionRecords (cs : list RegionView.Campaign.t) : list RegionView.RegionalData.t :=
  flat_map (fun c => present (RegionView.Campaign.regional_performance c)) cs.

(** The demographic records, each with the campaign that owns it. *)
Definition demoRecords (cs : list DemographicView.Campaign.t)
  : list (DemographicView.Campaign.t * DemographicView.DemographicData.t) :=
  flat_map
    (fun c => map (pair c) (present (DemographicView.Campaign.demographic_breakdown c)))
    cs.

Definition demoAge (cd : DemographicView.Campaign.t * DemographicView.DemographicData.t)
  : string := DemographicView.DemographicData.age_group (snd cd).

Definition demoGender (cd : DemographicView.Campaign.t * DemographicView.DemographicData.t)
  : string := DemographicView.DemographicData.gender (snd cd).

(** The share of the campaign's spend and revenue that a demographic record
    stands for: [campaign.spend * (percentage_of_audience / 100)]. *)
Definition spendShare (cd : DemographicView.Campaign.t * DemographicView.DemographicData.t)
  : num :=
  nmul (DemographicView.Campaign.spend (fst cd))
    (ndiv (DemographicView.DemographicData.percentage_of_audience (snd cd)) (Fin 100)).

Definition revenueShare (cd : DemographicView.Campaign.t * DemographicView.DemographicData.t)
  : num :=
  nmul (DemographicView.Campaign.revenue (fst cd))
    (ndiv (DemographicView.DemographicData.percentage_of_audience (snd cd)) (Fin 100)).

(** The performance figures of a record.  A record that has none stands
    for no figures: the loops of the page throw on it before they are used. *)
Definition demoPerformance
  (cd : DemographicView.Campaign.t * DemographicView.DemographicData.t)
  : DemographicView.Performance.t :=
  match DemographicView.DemographicData.performance (snd cd) with
  | Some performance => performance
  | None => DemographicView.Performance.mk (Fin 0) (Fin 0) (Fin 0) (Fin 0) (Fin 0)
  end.

Definition demoClicks (cd : DemographicView.Campaign.t * DemographicView.DemographicData.t)
  : num :=
  DemographicView.Performance.clicks (demoPerformance cd).

(** The (age group, gender) pairs of the records. *)
Definition demoPairs (cs : list DemographicView.Campaign.t) : list (string * string) :=
  map (fun cd => (demoAge cd, demoGender cd)) (demoRecords cs).




Definition finite_values (data : list BubbleMap.BubbleDataPoint) : Prop :=
  Forall (fun p => is_finite (BubbleMap.value p)) data.


(** The keys of a list in the order of their first occurrence. *)
Definition add_key (acc : list string) (k : string) : list string :=
  if existsb (String.eqb k) acc then acc else acc ++ [k].

Definition distinct (ks : list string) : list string := fold_left add_key ks [].

(** The update that a grouping loop applies for one record: create the
    bucket of the record's key from the record when the key is new, then
    fold the record into the bucket. *)
Definition bucket_step {R V : Type} (key : R -> string) (init : R -> V) (upd : V -> R -> V)
  (m : JsMap.t V) (r : R) : JsMap.t V :=
  let m1 := if negb (JsMap.has m (key r)) then JsMap.set m (key r) (init r) else m in
  match JsMap.get m1 (key r) with
  | Some e => JsMap.set m1 (key r) (upd e r)
  | None => m1
  end.

(** *** The loops of the views as grouping loops

    The initial bucket, the update and the output row of each aggregation,
    as the callbacks of the views write them. *)

(** The bucket that receives a record: the one of the map, or a fresh one. *)
Definition bucket_or_init {R V : Type} (init : R -> V) (m : JsMap.t V) (k : string)
  (r : R) : V :=
  match JsMap.get m k with Some v => v | None => init r end.

Definition deviceInit (_ : DeviceView.DeviceData.t) : DeviceView.Stats.t :=
  DeviceView.Stats.mk (Fin 0) (Fin 0) (Fin 0) (Fin 0) (Fin 0) (Fin 0).

Definition deviceUpd (existing : DeviceView.Stats.t) (device : DeviceView.DeviceData.t)
  : DeviceView.Stats.t :=
  DeviceView.Stats.mk
    (nadd (DeviceView.Stats.impressions existing) (DeviceView.DeviceData.impressions device))
    (nadd (DeviceView.Stats.clicks existing) (DeviceView.DeviceData.clicks device))
    (nadd (DeviceView.Stats.conversions existing) (DeviceView.DeviceData.conversions device))
    (nadd (DeviceView.Stats.spend existing) (DeviceView.DeviceData.spend device))
    (nadd (DeviceView.Stats.revenue existing) (DeviceView.DeviceData.revenue device))
    (nadd (DeviceView.Stats.traffic existing)
       (DeviceView.DeviceData.percentage_of_traffic device)).

Definition deviceRow (kv : string * DeviceView.Stats.t) : DeviceView.Row.t :=
  let '(device, stats) := kv in
  DeviceView.Row.mk device (DeviceView.Stats.impressions stats)
    (DeviceView.Stats.clicks stats) (DeviceView.Stats.conversions stats)
    (DeviceView.Stats.spend stats) (DeviceView.Stats.revenue stats)
    (DeviceView.Stats.traffic stats).

Definition regionInit (region : RegionView.RegionalData.t) : RegionView.Totals.t :=
  RegionView.Totals.mk (Fin 0) (Fin 0) (Fin 0) (Fin 0) (Fin 0)
    (RegionView.RegionalData.country region).

Definition regionUpd (existing : RegionView.Totals.t) (region : RegionView.RegionalData.t)
  : RegionView.Totals.t :=
  RegionView.Totals.mk
    (nadd (RegionView.Totals.spend existing) (RegionView.RegionalData.spend region))
    (nadd (RegionView.Totals.revenue existing) (RegionView.RegionalData.revenue region))
    (nadd (RegionView.Totals.impressions existing)
       (RegionView.RegionalData.impressions region))
    (nadd (RegionView.Totals.clicks existing) (RegionView.RegionalData.clicks region))
    (nadd (RegionView.Totals.conversions existing)
       (RegionView.RegionalData.conversions region))
    (RegionView.Totals.country existing).

Definition regionRow (kv : string * RegionView.Totals.t) : RegionView.Row.t :=
  let '(region, data) := kv in
  RegionView.Row.mk region (RegionView.Totals.spend data) (RegionView.Totals.revenue data)
    (RegionView.Totals.impressions data) (RegionView.Totals.clicks data)
    (RegionView.Totals.conversions data) (RegionView.Totals.country data).

Definition weekInit (week : WeeklyView.WeeklyData.t) : WeeklyView.Week.t :=
  WeeklyView.Week.mk (Fin 0) (Fin 0) (Fin 0) (Fin 0) (Fin 0)
    (WeeklyView.WeeklyData.week_start week) (WeeklyView.WeeklyData.week_end week).

Definition weekUpd (existing : WeeklyView.Week.t) (week : WeeklyView.WeeklyData.t)
  : WeeklyView.Week.t :=
  WeeklyView.Week.mk
    (nadd (WeeklyView.Week.spend existing) (WeeklyView.WeeklyData.spend week))
    (nadd (WeeklyView.Week.revenue existing) (WeeklyView.WeeklyData.revenue week))
    (nadd (WeeklyView.Week.impressions existing) (WeeklyView.WeeklyData.impressions week))
    (nadd (WeeklyView.Week.clicks existing) (WeeklyView.WeeklyData.clicks week))
    (nadd (WeeklyView.Week.conversions existing) (WeeklyView.WeeklyData.conversions week))
    (WeeklyView.Week.weekStart existing) (WeeklyView.Week.weekEnd existing).

Definition byWeekStart (getTime : string -> num) (a b : WeeklyView.Week.t) : num :=
  nsub (getTime (WeeklyView.Week.weekStart a)) (getTime (WeeklyView.Week.weekStart b)).

(** What the callback of the inner loop does to the state for a record
    that has its performance. *)
Definition addDemoPair (st : DemographicView.Metrics.t)
  (cd : DemographicView.Campaign.t * DemographicView.DemographicData.t)
  : DemographicView.Metrics.t :=
  DemographicView.accumulate (fst cd) st (snd cd) (demoClicks cd).

Definition hasPerformance (demo : DemographicView.DemographicData.t) : bool :=
  match DemographicView.DemographicData.performance demo with
  | Some _ => true
  | None => false
  end.

(** A campaign on which the loops of [calculateMetrics] do not throw: it has
    its breakdown list, and every record of the list has its performance. *)
Definition wellFormed (c : DemographicView.Campaign.t) : bool :=
  match DemographicView.Campaign.demographic_breakdown c with
  | Some demos => forallb hasPerformance demos
  | None => false
  end.

Definition demoBody (st : DemographicView.Metrics.t) (campaign : DemographicView.Campaign.t)
  : completion DemographicView.Metrics.t :=
  match DemographicView.Campaign.demographic_breakdown campaign with
  | None => Throw TypeError
  | Some demos => forEachM demos (DemographicView.addDemo campaign) st
  end.

Definition ageInit (_ : DemographicView.Campaign.t * DemographicView.DemographicData.t)
  : DemographicView.AgeData.t :=
  DemographicView.AgeData.mk (Fin 0) (Fin 0).

Definition ageUpd (bucket : DemographicView.AgeData.t)
  (cd : DemographicView.Campaign.t * DemographicView.DemographicData.t)
  : DemographicView.AgeData.t :=
  DemographicView.AgeData.mk
    (nadd (DemographicView.AgeData.spend bucket) (spendShare cd))
    (nadd (DemographicView.AgeData.revenue bucket) (revenueShare cd)).

Definition genderUpd (g : DemographicView.GenderData.t)
  (cd : DemographicView.Campaign.t * DemographicView.DemographicData.t)
  : DemographicView.GenderData.t :=
  DemographicView.addGender g (demoClicks cd) (spendShare cd) (revenueShare cd).

(** An age group is given a bucket unless its name is an inherited property. *)
Definition bucketed (cd : DemographicView.Campaign.t * DemographicView.DemographicData.t)
  : bool := negb (JsObject.inherited (demoAge cd)).

(* ================================================================== *)
(** ** Sample documents *)

Module Samples.

Definition device (name : string) (impressions clicks conversions spend revenue : Z)
  : DeviceView.DeviceData.t :=
  DeviceView.DeviceData.mk name (of_Z impressions) (of_Z clicks) (of_Z conversions)
    (of_Z spend) (of_Z revenue) (Fin 0) (Fin 0) (of_Z 50).

(** Three campaigns; the second one has no [device_performance]. *)
Definition deviceCampaigns : list DeviceView.Campaign.t :=
  [ DeviceView.Campaign.mk "c1" "Spring"
      (Some [device "Mobile" 1000 100 10 50 200; device "Desktop" 400 40 4 30 90])
      (of_Z 80) (of_Z 290);
    DeviceView.Campaign.mk "c2" "Summer" None (of_Z 10) (of_Z 20);
    DeviceView.Campaign.mk "c3" "Autumn"
      (Some [device "Mobile" 500 50 5 70 100])
      (of_Z 70) (of_Z 100) ].

Definition week (week_start week_end : string) (impressions clicks conversions spend revenue : Z)
  : WeeklyView.WeeklyData.t :=
  WeeklyView.WeeklyData.mk week_start week_end (of_Z impressions) (of_Z clicks)
    (of_Z conversions) (of_Z spend) (of_Z revenue).

(** Two campaigns that disagree on the end of the week of 2024-01-08. *)
Definition weeklyCampaigns : list WeeklyView.Campaign.t :=
  [ WeeklyView.Campaign.mk "c1" "Spring"
      (Some [week "2024-01-08" "2024-01-14" 100 10 1 20 60;
             week "2024-01-01" "2024-01-07" 300 30 3 10 40]);
    WeeklyView.Campaign.mk "c2" "Summer"
      (Some [week "2024-01-08" "2024-01-15" 200 20 2 5 25]) ].

(** A stand-in for the date parser on the sample dates: the day of the month. *)
Definition dayOfMonth (s : string) : num :=
  if s =? "2024-01-01" then of_Z 1
  else if s =? "2024-01-08" then of_Z 8
  else if s =? "2024-01-15" then of_Z 15
  else NaN.

Definition region (name country : string) (impressions clicks conversions spend revenue : Z)
  : RegionView.RegionalData.t :=
  RegionView.RegionalData.mk name country (of_Z impressions) (of_Z clicks)
    (of_Z conversions) (of_Z spend) (of_Z revenue)
    (Fin 0) (Fin 0) (Fin 0) (Fin 0) (Fin 0).

(** Two campaigns that disagree on the country of Dubai; Sharjah is not in
    the table of city coordinates. *)
Definition regionCampaigns : list RegionView.Campaign.t :=
  [ RegionView.Campaign.mk "c1" "Spring"
      (Some [region "Dubai" "UAE" 100 10 1 40 300; region "Sharjah" "UAE" 50 5 1 10 80]);
    RegionView.Campaign.mk "c2" "Summer"
      (Some [region "Dubai" "United Arab Emirates" 200 20 2 60 500]) ].

(** One region whose spend is zero. *)
Definition zeroSpendCampaigns : list RegionView.Campaign.t :=
  [ RegionView.Campaign.mk "c1" "Spring" (Some [region "Dubai" "UAE" 100 10 1 0 500]) ].

Definition zeroSpendDeviceCampaign : DeviceView.Campaign.t :=
  DeviceView.Campaign.mk "c1" "Spring" (Some [device "Mobile" 100 10 1 0 500])
    (of_Z 0) (of_Z 500).

Definition demo (age_group gender : string) (percentage clicks : Z)
  : DemographicView.DemographicData.t :=
  DemographicView.DemographicData.mk age_group gender (of_Z percentage)
    (Some (DemographicView.Performance.mk (Fin 0) (of_Z clicks) (Fin 0) (Fin 0) (Fin 0))).

(** A campaign with spend 1000 and revenue 2000, and one record that holds
    25 percent of the audience. *)
Definition quarterCampaign : DemographicView.Campaign.t :=
  DemographicView.Campaign.mk (of_Z 1) "Spring" (Some [demo "25-34" "Male" 25 40])
    (of_Z 1000) (of_Z 2000).

(** A campaign that has no [demographic_breakdown]. *)
Definition bareCampaign : DemographicView.Campaign.t :=
  DemographicView.Campaign.mk (of_Z 2) "Summer" None (of_Z 1000) (of_Z 2000).

(** The metrics that [calculateMetrics] returns on [quarterCampaign] alone. *)
Definition quarterMetrics : DemographicView.Metrics.t :=
  Eval vm_compute in
    match DemographicView.calculateMetrics (demoInput [quarterCampaign]) with
    | Normal (Some m) => m
    | _ => DemographicView.initialMetrics
    end.

Definition bubble (city : string) (value : Z) : BubbleMap.BubbleDataPoint :=
  BubbleMap.Build_BubbleDataPoint city "UAE" (of_Z value) None (Fin 0) (Fin 0).

Definition twoBubbles : list BubbleMap.BubbleDataPoint :=
  [bubble "Dubai" 1; bubble "Abu Dhabi" 2].

Definition threeBubbles : list BubbleMap.BubbleDataPoint :=
  [bubble "Dubai" 1000; bubble "Abu Dhabi" 3000; bubble "Riyadh" 2000].

(** The rows and the point that the samples above lead to. *)
Definition mobileRow : DeviceView.Row.t :=
  DeviceView.Row.mk "Mobile" (of_Z 1500) (of_Z 150) (of_Z 15) (of_Z 120) (of_Z 300) (of_Z 100).

Definition secondWeekRow : WeeklyView.Week.t :=
  WeeklyView.Week.mk (of_Z 25) (of_Z 85) (of_Z 300) (of_Z 30) (of_Z 3)
    "2024-01-08" "2024-01-14".

Definition dubaiRow : RegionView.Row.t :=
  RegionView.Row.mk "Dubai" (of_Z 100) (of_Z 800) (of_Z 300) (of_Z 30) (of_Z 3) "UAE".

Definition sharjahRow : RegionView.Row.t :=
  RegionView.Row.mk "Sharjah" (of_Z 10) (of_Z 80) (of_Z 50) (of_Z 5) (of_Z 1) "UAE".

Definition dubaiPoint : BubbleMap.BubbleDataPoint :=
  BubbleMap.Build_BubbleDataPoint "Dubai" "UAE" (of_Z 800) (Some (of_Z 100))
    (RegionView.deg 552708) (RegionView.deg 252048).

Definition singlePoint : list LineChart.LineChartDataPoint :=
  [LineChart.Build_LineChartDataPoint "A" (of_Z 5)].

End Samples.

(** Further sample inputs. *)
Module MoreSamples.

Definition point (label : string) (value : Z) : LineChart.LineChartDataPoint :=
  LineChart.Build_LineChartDataPoint label (of_Z value).

Definition threePoints : list LineChart.LineChartDataPoint :=
  [point "Jan 1" 40; point "Jan 8" 80; point "Jan 15" 60].

(** A campaign with two Male records and one Female record. *)
Definition mixedCampaign : DemographicView.Campaign.t :=
  DemographicView.Campaign.mk (of_Z 3) "Autumn"
    (Some [Samples.demo "18-24" "Male" 30 40; Samples.demo "25-34" "Female" 50 70;
           Samples.demo "35-44" "Male" 20 15])
    (of_Z 1000) (of_Z 2000).

(** Two points, the second of value [Infinity]. *)
Definition unboundedBubbles : list BubbleMap.BubbleDataPoint :=
  [Samples.bubble "Dubai" 1;
   BubbleMap.Build_BubbleDataPoint "Abu Dhabi" "UAE" PInf None (Fin 0) (Fin 0)].

(** A campaign whose Female record has no [performance]. *)
Definition unmeasuredCampaign : DemographicView.Campaign.t :=
  DemographicView.Campaign.mk (of_Z 4) "Winter"
    (Some [Samples.demo "18-24" "Male" 40 10;
           DemographicView.DemographicData.mk "25-34" "Female" (of_Z 60) None])
    (of_Z 1000) (of_Z 2000).

Definition mobileStats : DeviceView.Stats.t :=
  DeviceView.Stats.mk (of_Z 1500) (of_Z 150) (of_Z 15) (of_Z 120) (of_Z 300) (of_Z 100).

End MoreSamples.

(* ================================================================== *)
(** ** Summary cards and tables of the pages *)

(** The rate cards of the device view. *)
Module DeviceCards.

(** [d.impressions > 0 ? (d.clicks / d.impressions) * 100 : 0] *)
Definition deviceCTR (d : DeviceView.Stats.t) : num :=
  if ngt (DeviceView.Stats.impressions d) (Fin 0)
  then nmul (ndiv (DeviceView.Stats.clicks d) (DeviceView.Stats.impressions d)) (Fin 100)
  else Fin 0.

(** [d.clicks > 0 ? (d.conversions / d.clicks) * 100 : 0] *)
Definition deviceConversionRate (d : DeviceView.Stats.t) : num :=
  if ngt (DeviceView.Stats.clicks d) (Fin 0)
  then nmul (ndiv (DeviceView.Stats.conversions d) (DeviceView.Stats.clicks d)) (Fin 100)
  else Fin 0.

Definition mobileCTR (data : option DeviceView.MarketingData) : num :=
  deviceCTR (DeviceView.mobileData data).
Definition desktopCTR (data : option DeviceView.MarketingData) : num :=
  deviceCTR (DeviceView.desktopData data).
Definition mobileConversionRate (data : option DeviceView.MarketingData) : num :=
  deviceConversionRate (DeviceView.mobileData data).
Definition desktopConversionRate (data : option DeviceView.MarketingData) : num :=
  deviceConversionRate (DeviceView.desktopData data).

End DeviceCards.

(** The summary cards of the weekly view. *)
Module WeeklyCards.

Section WithDate.

Variable getTime : string -> num.

(** [weeklyData.reduce((sum, week) => sum + week.revenue, 0)], and the like. *)
Definition totalRevenue (data : option WeeklyView.MarketingData) : num :=
  fold_left (fun sum week => nadd sum (WeeklyView.Week.revenue week))
    (WeeklyView.weeklyData getTime data) (Fin 0).

Definition totalSpend (data : option WeeklyView.MarketingData) : num :=
  fold_left (fun sum week => nadd sum (WeeklyView.Week.spend week))
    (WeeklyView.weeklyData getTime data) (Fin 0).

Definition totalClicks (data : option WeeklyView.MarketingData) : num :=
  fold_left (fun sum week => nadd sum (WeeklyView.Week.clicks week))
    (WeeklyView.weeklyData getTime data) (Fin 0).

Definition totalConversions (data : option WeeklyView.MarketingData) : num :=
  fold_left (fun sum week => nadd sum (WeeklyView.Week.conversions week))
    (WeeklyView.weeklyData getTime data) (Fin 0).



End WithDate.

End WeeklyCards.

(** The summary cards of the region view. *)
Module RegionCards.

Definition totalRevenue (data : option RegionView.MarketingData) : num :=
  fold_left (fun sum region => nadd sum (RegionView.Row.revenue region))
    (RegionView.regionalData data) (Fin 0).

Definition totalSpend (data : option RegionView.MarketingData) : num :=
  fold_left (fun sum region => nadd sum (RegionView.Row.spend region))
    (RegionView.regionalData data) (Fin 0).

Definition totalClicks (data : option RegionView.MarketingData) : num :=
  fold_left (fun sum region => nadd sum (RegionView.Row.clicks region))
    (RegionView.regionalData data) (Fin 0).

Definition totalConversions (data : option RegionView.MarketingData) : num :=
  fold_left (fun sum region => nadd sum (RegionView.Row.conversions region))
    (RegionView.regionalData data) (Fin 0).

Definition totalRegions (data : option RegionView.MarketingData) : nat :=
  List.length (RegionView.regionalData data).

(** The "Avg ROAS" card: [((totalRevenue / totalSpend) || 0).toFixed(2)]. *)
Definition avgRoas (data : option RegionView.MarketingData) : num :=
  num_or (ndiv (totalRevenue data) (totalSpend data)) (Fin 0).

Definition avgRoasCard (data : option RegionView.MarketingData) : string :=
  JsFormat.toFixed 2 (avgRoas data).

(** The rows of the table before they are formatted:
    [regionalData.sort((a, b) => b.revenue - a.revenue)]. *)
Definition tableRows (data : option RegionView.MarketingData) : list RegionView.Row.t :=
  JsArray.sort
    (fun a b => nsub (RegionView.Row.revenue b) (RegionView.Row.revenue a))
    (RegionView.regionalData data).

End RegionCards.

(** The two tables of the demographic view. *)
Module DemographicTables.

Record TableRow : Type :=
  { campaign : string;
    age_group : string;
    impressions : num;
    clicks : num;
    conversions : num;
    ctr : num;
    conversion_rate : num }.

(** [xs.flatMap(f)] with a callback that may throw. *)
Fixpoint flatMapM {A B : Type} (f : A -> completion (list B)) (xs : list A)
  : completion (list B) :=
  match xs with
  | [] => Normal []
  | x :: xs' => ys <- f x ;; rest <- flatMapM f xs' ;; Normal (ys ++ rest)%list
  end.

(** [xs.map(f)] with a callback that may throw. *)
Fixpoint mapM {A B : Type} (f : A -> completion B) (xs : list A) : completion (list B) :=
  match xs with
  | [] => Normal []
  | x :: xs' => y <- f x ;; rest <- mapM f xs' ;; Normal (y :: rest)
  end.

(** The object literal of the [map] callback: [demo.performance.impressions]
    and the reads after it throw on a record that has no [performance]. *)
Definition tableRow (campaign : DemographicView.Campaign.t)
  (demo : DemographicView.DemographicData.t) : completion TableRow :=
  match DemographicView.DemographicData.performance demo with
  | None => Throw TypeError
  | Some performance =>
      Normal
        (Build_TableRow (DemographicView.Campaign.name campaign)
           (DemographicView.DemographicData.age_group demo)
           (DemographicView.Performance.impressions performance)
           (DemographicView.Performance.clicks performance)
           (DemographicView.Performance.conversions performance)
           (DemographicView.Performance.ctr performance)
           (DemographicView.Performance.conversion_rate performance))
  end.

(** [campaign.demographic_breakdown.filter(demo => demo.gender === g).map(...)]:
    [filter] is called on the list as it is, and throws when it is absent. *)
Definition genderRows (g : string) (campaign : DemographicView.Campaign.t)
  : completion (list TableRow) :=
  match DemographicView.Campaign.demographic_breakdown campaign with
  | None => Throw TypeError
  | Some demos =>
      mapM (tableRow campaign)
        (filter (fun demo => DemographicView.DemographicData.gender demo =? g) demos)
  end.

(** [data?.campaigns.flatMap(...) || []]: only [data] is guarded, so that
    [flatMap] throws on a document that has no [campaigns]. *)
Definition genderTableData (g : string) (data : option DemographicView.MarketingData)
  : completion (list TableRow) :=
  match data with
  | None => Normal []
  | Some d =>
      match DemographicView.campaigns d with
      | None => Throw TypeError
      | Some cs => flatMapM (genderRows g) cs
      end
  end.

Definition maleTableData (data : option DemographicView.MarketingData)
  : completion (list TableRow) := genderTableData "Male" data.

Definition femaleTableData (data : option DemographicView.MarketingData)
  : completion (list TableRow) := genderTableData "Female" data.

End DemographicTables.

(** The table row of a demographic record and the campaign that owns it. *)
Definition tableRowOf (cd : DemographicView.Campaign.t * DemographicView.DemographicData.t)
  : DemographicTables.TableRow :=
  let perf := demoPerformance cd in
  DemographicTables.Build_TableRow (DemographicView.Campaign.name (fst cd))
    (DemographicView.DemographicData.age_group (snd cd))
    (DemographicView.Performance.impressions perf)
    (DemographicView.Performance.clicks perf)
    (DemographicView.Performance.conversions perf)
    (DemographicView.Performance.ctr perf)
    (DemographicView.Performance.conversion_rate perf).

(** Some campaign of the list has no [demographic_breakdown]. *)
Definition breakdown_missing (cs : list DemographicView.Campaign.t) : Prop :=
  exists c, In c cs /\ DemographicView.Campaign.demographic_breakdown c = None.

(** Some record of the list has no [performance]. *)
Definition performance_missing
  (rs : list (DemographicView.Campaign.t * DemographicView.DemographicData.t)) : Prop :=
  exists cd, In cd rs /\ DemographicView.DemographicData.performance (snd cd) = None.

(** A campaign on which the table of gender [g] does not throw: it has its
    breakdown list, and every record of that gender has its performance. *)
Definition tableWellFormed (g : string) (c : DemographicView.Campaign.t) : bool :=
  match DemographicView.Campaign.demographic_breakdown c with
  | Some demos =>
      forallb hasPerformance
        (filter (fun demo => DemographicView.DemographicData.gender demo =? g) demos)
  | None => false
  end.

(** A breakdown list that is present and holds at least one record. *)
Definition listed {A : Type} (l : option (list A)) : bool :=
  match l with Some (_ :: _) => true | _ => false end.

(** *** Values of finite numbers, and orders *)

(** The rational that a finite number holds. *)
Definition qval (x : num) : Q :=
  match x with Fin q => q | _ => 0 end.

(** [x <= y] on numbers, as the negation of [y < x]. *)
Definition nle (x y : num) : Prop := nlt y x = false.

(** A list whose values never increase (never decrease) along the list. *)
Fixpoint descending {A : Type} (f : A -> num) (l : list A) : Prop :=
  match l with
  | [] => True
  | x :: l' => (forall y, In y l' -> nle (f y) (f x)) /\ descending f l'
  end.

Fixpoint ascending {A : Type} (f : A -> num) (l : list A) : Prop :=
  match l with
  | [] => True
  | x :: l' => (forall y, In y l' -> nle (f x) (f y)) /\ ascending f l'
  end.

(** The series of a line chart. *)
Definition finite_series (data : list LineChart.LineChartDataPoint) : Prop :=
  Forall (fun p => is_finite (LineChart.value p)) data.

(** No value of the series is below 0. *)
Definition nonnegative_series (data : list LineChart.LineChartDataPoint) : Prop :=
  Forall (fun p => nlt (LineChart.value p) (Fin 0) = false) data.

Definition flat_series (data : list LineChart.LineChartDataPoint) : Prop :=
  forall p q, In p data -> In q data -> num_eqv (LineChart.value p) (LineChart.value q).

(* ================================================================== *)
(** ** Maps in insertion order *)

Section JsMapFacts.

Variable V : Type.
Implicit Types (m : JsMap.t V) (k : string) (v : V).

Lemma get_set_same m k v : JsMap.get (JsMap.set m k v) k = Some v.
Proof.
  induction m as [|[k' v'] m IH]; simpl.
  - now rewrite String.eqb_refl.
  - destruct (String.eqb k' k) eqn:E; simpl; rewrite E; auto.
Qed.

Lemma get_set_other m k k' v :
  k <> k' -> JsMap.get (JsMap.set m k v) k' = JsMap.get m k'.
Proof.
  intros Hne. induction m as [|[k0 v0] m IH]; simpl.
  - apply String.eqb_neq in Hne. now rewrite Hne.
  - destruct (String.eqb k0 k) eqn:E; simpl.
    + apply String.eqb_eq in E. subst k0.
      apply String.eqb_neq in Hne. now rewrite Hne.
    + now rewrite IH.
Qed.

Lemma has_existsb m k : JsMap.has m k = existsb (String.eqb k) (JsMap.keys m).
Proof.
  unfold JsMap.has. induction m as [|[k0 v0] m IH]; simpl; auto.
  rewrite (String.eqb_sym k k0). destruct (String.eqb k0 k); auto.
Qed.

Lemma keys_set m k v : JsMap.keys (JsMap.set m k v) = add_key (JsMap.keys m) k.
Proof.
  unfold add_key. induction m as [|[k0 v0] m IH]; simpl; auto.
  rewrite (String.eqb_sym k k0).
  destruct (String.eqb k0 k) eqn:E; simpl; auto.
  rewrite IH. destruct (existsb (String.eqb k) (JsMap.keys m)); auto.
Qed.


Lemma in_get m k v : NoDup (JsMap.keys m) -> In (k, v) m -> JsMap.get m k = Some v.
Proof.
  induction m as [|[k0 v0] m IH]; simpl; [tauto|].
  intros Hnd [H|H].
  - inversion H; subst. now rewrite String.eqb_refl.
  - inversion Hnd as [|? ? Hnotin Hnd']; subst.
    destruct (String.eqb k0 k) eqn:E.
    + apply String.eqb_eq in E. subst k0. exfalso. apply Hnotin.
      change k with (fst (k, v)). now apply in_map.
    + auto.
Qed.

Lemma get_in m k v : JsMap.get m k = Some v -> In (k, v) m.
Proof.
  induction m as [|[k0 v0] m IH]; simpl; [congruence|].
  destruct (String.eqb k0 k) eqn:E.
  - apply String.eqb_eq in E. intros H. inversion H; subst. now left.
  - auto.
Qed.

End JsMapFacts.

(** ** Keys in order of first occurrence *)

Lemma existsb_eqb_In (k : string) (l : list string) :
  existsb (String.eqb k) l = true <-> In k l.
Proof.
  rewrite existsb_exists. split.
  - intros (x & Hx & E). apply String.eqb_eq in E. now subst.
  - intros H. exists k. split; [assumption | apply String.eqb_refl].
Qed.

Lemma add_key_In (acc : list string) (k k' : string) :
  In k' (add_key acc k) <-> In k' acc \/ k' = k.
Proof.
  unfold add_key. destruct (existsb (String.eqb k) acc) eqn:E.
  - apply existsb_eqb_In in E. split; [auto | intros [H|H]; [auto | now subst]].
  - rewrite in_app_iff. simpl. split; intros [H|H]; auto.
    + destruct H as [H|[]]; auto.
Qed.

Lemma add_key_NoDup (acc : list string) (k : string) :
  NoDup acc -> NoDup (add_key acc k).
Proof.
  intros Hnd. unfold add_key. destruct (existsb (String.eqb k) acc) eqn:E; auto.
  assert (Hk : ~ In k acc).
  { intros H. apply existsb_eqb_In in H. congruence. }
  clear E. induction acc as [|a acc IH]; simpl.
  - constructor; [simpl; tauto | constructor].
  - inversion Hnd as [|? ? Ha Hnd']; subst. constructor.
    + rewrite in_app_iff. simpl. intros [H|[H|[]]]; [auto | subst; apply Hk; now left].
    + apply IH; auto. intros H. apply Hk. now right.
Qed.

Lemma fold_add_key_In (ks acc : list string) (k : string) :
  In k (fold_left add_key ks acc) <-> In k acc \/ In k ks.
Proof.
  revert acc. induction ks as [|a ks IH]; intros acc; simpl.
  - tauto.
  - rewrite IH, add_key_In. split; intros H; intuition (subst; auto).
Qed.

Lemma fold_add_key_NoDup (ks acc : list string) :
  NoDup acc -> NoDup (fold_left add_key ks acc).
Proof.
  revert acc. induction ks as [|a ks IH]; intros acc H; simpl; auto using add_key_NoDup.
Qed.

Lemma distinct_In (ks : list string) (k : string) : In k (distinct ks) <-> In k ks.
Proof. unfold distinct. rewrite fold_add_key_In. simpl. tauto. Qed.

Lemma distinct_NoDup (ks : list string) : NoDup (distinct ks).
Proof. apply fold_add_key_NoDup. constructor. Qed.

(** ** The grouping loop *)

Section Grouping.

Variables R V : Type.
Variable key : R -> string.
Variable init : R -> V.
Variable upd : V -> R -> V.

Let step := bucket_step key init upd.

Lemma get_step_same (m : JsMap.t V) (r : R) :
  JsMap.get (step m r) (key r) = Some (upd (bucket_or_init init m (key r) r) r).
Proof.
  unfold step, bucket_step, bucket_or_init, JsMap.has.
  destruct (JsMap.get m (key r)) as [v|] eqn:E; simpl.
  - rewrite E. apply get_set_same.
  - rewrite get_set_same. apply get_set_same.
Qed.

Lemma get_step_other (m : JsMap.t V) (r : R) (k : string) :
  key r <> k -> JsMap.get (step m r) k = JsMap.get m k.
Proof.
  intros Hne. unfold step, bucket_step, JsMap.has.
  destruct (JsMap.get m (key r)) as [v|] eqn:E; simpl.
  - rewrite E. now apply get_set_other.
  - rewrite get_set_same. rewrite !get_set_other by assumption. reflexivity.
Qed.

Lemma keys_step (m : JsMap.t V) (r : R) :
  JsMap.keys (step m r) = add_key (JsMap.keys m) (key r).
Proof.
  unfold step, bucket_step, JsMap.has.
  destruct (JsMap.get m (key r)) as [v|] eqn:E; simpl.
  - rewrite E, keys_set. unfold add_key.
    rewrite <- has_existsb. unfold JsMap.has. now rewrite E.
  - rewrite get_set_same, !keys_set. unfold add_key at 1.
    destruct (existsb (String.eqb (key r)) (add_key (JsMap.keys m) (key r))) eqn:E'; auto.
    exfalso. assert (H : In (key r) (add_key (JsMap.keys m) (key r))).
    { apply add_key_In. now right. }
    apply existsb_eqb_In in H. congruence.
Qed.

(** The bucket of [k] after the loop: the records of key [k] folded, in
    their order, into the bucket that the first of them found or created. *)
Lemma get_fold_step (rs : list R) (m : JsMap.t V) (k : string) :
  JsMap.get (fold_left step rs m) k =
  match matching key k rs with
  | [] => JsMap.get m k
  | r0 :: _ => Some (fold_left upd (matching key k rs) (bucket_or_init init m k r0))
  end.
Proof.
  revert m. induction rs as [|a rs IH]; intros m; simpl; auto.
  rewrite IH. unfold matching in *. simpl.
  destruct (key a =? k) eqn:E.
  - apply String.eqb_eq in E. subst k.
    destruct (filter (fun r => key r =? key a) rs) as [|r1 rest] eqn:F.
    + now rewrite get_step_same.
    + simpl. unfold bucket_or_init at 1. now rewrite get_step_same.
  - apply String.eqb_neq in E.
    destruct (filter (fun r => key r =? k) rs) as [|r1 rest] eqn:F.
    + now apply get_step_other.
    + unfold bucket_or_init. now rewrite get_step_other.
Qed.

Lemma keys_fold_step (rs : list R) (m : JsMap.t V) :
  JsMap.keys (fold_left step rs m) = fold_left add_key (map key rs) (JsMap.keys m).
Proof.
  revert m. induction rs as [|a rs IH]; intros m; simpl; auto.
  now rewrite IH, keys_step.
Qed.

(** The loop over the campaigns is the loop over all their records. *)
Lemma forEach_campaigns (C : Type) (perf : C -> option (list R)) (cs : list C)
  (m : JsMap.t V) :
  JsArray.forEach cs
    (fun m c => match perf c with
                | None => m
                | Some p => JsArray.forEach p step m
                end) m
  = fold_left step (flat_map (fun c => present (perf c)) cs) m.
Proof.
  unfold JsArray.forEach. revert m. induction cs as [|c cs IH]; intros m; simpl; auto.
  rewrite fold_left_app, IH. destruct (perf c); reflexivity.
Qed.

Lemma first_of_matching (rs : list R) (k : string) (r0 : R) (rest : list R) :
  matching key k rs = r0 :: rest -> first_of key k rs = Some r0.
Proof.
  unfold matching, first_of. induction rs as [|a rs IH]; simpl; [discriminate|].
  destruct (key a =? k); [intros H; now inversion H | assumption].
Qed.

(** An entry of the map built from the empty map: its key occurs among the
    records, and its value is the fold of the records of that key. *)
Lemma entry_of_grouping (rs : list R) (k : string) (v : V) :
  In (k, v) (JsMap.entries (fold_left step rs JsMap.empty)) ->
  exists r0, first_of key k rs = Some r0
             /\ v = fold_left upd (matching key k rs) (init r0).
Proof.
  intros Hin. unfold JsMap.entries in Hin.
  apply in_get in Hin.
  - rewrite get_fold_step in Hin.
    destruct (matching key k rs) as [|r0 rest] eqn:F; [discriminate|].
    exists r0. split; [now apply first_of_matching with rest|].
    unfold bucket_or_init in Hin. simpl in Hin. now inversion Hin.
  - rewrite keys_fold_step. apply fold_add_key_NoDup. constructor.
Qed.

Lemma keys_of_grouping (rs : list R) :
  JsMap.keys (fold_left step rs JsMap.empty) = distinct (map key rs).
Proof. now rewrite keys_fold_step. Qed.

End Grouping.

(** ** Folding a field *)

Lemma fold_left_field (R V : Type) (upd : V -> R -> V) (p : V -> num) (g : R -> num) :
  (forall v r, p (upd v r) = nadd (p v) (g r)) ->
  forall rs v, p (fold_left upd rs v) = fold_left nadd (map g rs) (p v).
Proof.
  intros H rs. induction rs as [|a rs IH]; intros v; simpl; auto.
  now rewrite IH, H.
Qed.

Lemma fold_left_kept (R V X : Type) (upd : V -> R -> V) (p : V -> X) :
  (forall v r, p (upd v r) = p v) ->
  forall rs v, p (fold_left upd rs v) = p v.
Proof.
  intros H rs. induction rs as [|a rs IH]; intros v; simpl; auto.
  now rewrite IH, H.
Qed.

Lemma first_of_key (R : Type) (key : R -> string) (k : string) (rs : list R) (r0 : R) :
  first_of key k rs = Some r0 -> key r0 = k /\ In r0 rs.
Proof.
  unfold first_of. intros H. apply find_some in H. destruct H as [Hin E].
  apply String.eqb_eq in E. auto.
Qed.

Lemma first_of_none (R : Type) (key : R -> string) (k : string) (rs : list R) :
  first_of key k rs = None <-> ~ In k (map key rs).
Proof.
  unfold first_of. split.
  - intros H Hin. apply in_map_iff in Hin. destruct Hin as (r & E & Hr).
    apply (find_none _ _ H) in Hr. apply String.eqb_neq in Hr. contradiction.
  - intros H. destruct (find _ rs) as [r|] eqn:E; auto.
    apply find_some in E. destruct E as [Hin E]. apply String.eqb_eq in E.
    exfalso. apply H. rewrite <- E. now apply in_map.
Qed.

Lemma matching_nil (R : Type) (key : R -> string) (k : string) (rs : list R) :
  ~ In k (map key rs) -> matching key k rs = [].
Proof.
  intros H. unfold matching. induction rs as [|r rs IH]; [reflexivity|].
  cbn [filter]. destruct (key r =? k) eqn:E.
  - apply String.eqb_eq in E. exfalso. apply H. left. exact E.
  - apply IH. intros Hin. apply H. now right.
Qed.

(** ** Sorting permutes *)

Lemma insert_by_perm (A : Type) (cmp : A -> A -> num) (x : A) (l : list A) :
  Permutation (JsArray.insert_by cmp x l) (x :: l).
Proof.
  induction l as [|y l IH]; cbn [JsArray.insert_by]; auto.
  destruct (ngt (cmp x y) (Fin 0)); auto.
  apply perm_trans with (y :: x :: l); [now apply perm_skip | apply perm_swap].
Qed.

Lemma sort_perm (A : Type) (cmp : A -> A -> num) (l : list A) :
  Permutation (JsArray.sort cmp l) l.
Proof.
  unfold JsArray.sort. induction l as [|x l IH]; simpl; auto.
  apply perm_trans with (x :: fold_right (JsArray.insert_by cmp) [] l).
  - apply insert_by_perm.
  - now apply perm_skip.
Qed.

Lemma sort_In (A : Type) (cmp : A -> A -> num) (l : list A) (x : A) :
  In x (JsArray.sort cmp l) <-> In x l.
Proof.
  split; apply Permutation_in; [apply sort_perm | symmetry; apply sort_perm].
Qed.

(** ** The three grouped aggregations *)

Lemma addDevice_step :
  DeviceView.addDevice = bucket_step DeviceView.DeviceData.device deviceInit deviceUpd.
Proof. reflexivity. Qed.

Lemma device_aggregation (cs : list DeviceView.Campaign.t) :
  DeviceView.aggregatedDeviceData (deviceInput cs) =
  map deviceRow
    (fold_left (bucket_step DeviceView.DeviceData.device deviceInit deviceUpd)
       (deviceRecords cs) JsMap.empty).
Proof.
  unfold DeviceView.aggregatedDeviceData, deviceInput. simpl DeviceView.campaigns.
  destruct cs as [|c cs]; [reflexivity|].
  cbv beta iota zeta. change (List.length (c :: cs) =? 0)%nat with false. cbv iota.
  rewrite addDevice_step, forEach_campaigns. reflexivity.
Qed.

Lemma device_keys (cs : list DeviceView.Campaign.t) :
  map DeviceView.Row.device (DeviceView.aggregatedDeviceData (deviceInput cs)) =
  distinct (map DeviceView.DeviceData.device (deviceRecords cs)).
Proof.
  rewrite device_aggregation, <- keys_of_grouping with (init := deviceInit) (upd := deviceUpd).
  unfold JsMap.keys. rewrite map_map. apply map_ext. now intros [k v].
Qed.

Lemma device_row (cs : list DeviceView.Campaign.t) (row : DeviceView.Row.t) :
  In row (DeviceView.aggregatedDeviceData (deviceInput cs)) ->
  exists r0 v,
    first_of DeviceView.DeviceData.device (DeviceView.Row.device row) (deviceRecords cs)
      = Some r0
    /\ row = deviceRow (DeviceView.Row.device row, v)
    /\ v = fold_left deviceUpd
             (matching DeviceView.DeviceData.device (DeviceView.Row.device row)
                (deviceRecords cs))
             (deviceInit r0).
Proof.
  rewrite device_aggregation. intros H. apply in_map_iff in H.
  destruct H as ([k v] & Hrow & Hin). apply entry_of_grouping in Hin.
  destruct Hin as (r0 & Hfirst & Hv). subst row. simpl.
  exists r0, v. auto.
Qed.

Lemma addRegion_step :
  RegionView.addRegion = bucket_step RegionView.RegionalData.region regionInit regionUpd.
Proof. reflexivity. Qed.

Lemma region_aggregation (cs : list RegionView.Campaign.t) :
  RegionView.aggregatedRegionalData (regionInput cs) =
  map regionRow
    (fold_left (bucket_step RegionView.RegionalData.region regionInit regionUpd)
       (regionRecords cs) JsMap.empty).
Proof.
  unfold RegionView.aggregatedRegionalData, regionInput. simpl RegionView.campaigns.
  destruct cs as [|c cs]; [reflexivity|].
  cbv beta iota zeta. change (List.length (c :: cs) =? 0)%nat with false. cbv iota.
  rewrite addRegion_step, forEach_campaigns. reflexivity.
Qed.

Lemma region_keys (cs : list RegionView.Campaign.t) :
  map RegionView.Row.region (RegionView.aggregatedRegionalData (regionInput cs)) =
  distinct (map RegionView.RegionalData.region (regionRecords cs)).
Proof.
  rewrite region_aggregation, <- keys_of_grouping with (init := regionInit) (upd := regionUpd).
  unfold JsMap.keys. rewrite map_map. apply map_ext. now intros [k v].
Qed.

Lemma region_row (cs : list RegionView.Campaign.t) (row : RegionView.Row.t) :
  In row (RegionView.aggregatedRegionalData (regionInput cs)) ->
  exists r0 v,
    first_of RegionView.RegionalData.region (RegionView.Row.region row) (regionRecords cs)
      = Some r0
    /\ row = regionRow (RegionView.Row.region row, v)
    /\ v = fold_left regionUpd
             (matching RegionView.RegionalData.region (RegionView.Row.region row)
                (regionRecords cs))
             (regionInit r0).
Proof.
  rewrite region_aggregation. intros H. apply in_map_iff in H.
  destruct H as ([k v] & Hrow & Hin). apply entry_of_grouping in Hin.
  destruct Hin as (r0 & Hfirst & Hv). subst row. simpl.
  exists r0, v. auto.
Qed.

(** The regional rows that the page uses are the aggregated ones. *)
Lemma regionalData_aggregated (cs : list RegionView.Campaign.t) :
  RegionView.regionalData (regionInput cs)
  = RegionView.aggregatedRegionalData (regionInput cs).
Proof. destruct cs; reflexivity. Qed.

Lemma addWeek_step :
  WeeklyView.addWeek = bucket_step WeeklyView.WeeklyData.week_start weekInit weekUpd.
Proof. reflexivity. Qed.

Lemma week_aggregation (getTime : string -> num) (cs : list WeeklyView.Campaign.t) :
  WeeklyView.aggregatedWeeklyData getTime (weekInput cs) =
  JsArray.sort (byWeekStart getTime)
    (JsMap.values
       (fold_left (bucket_step WeeklyView.WeeklyData.week_start weekInit weekUpd)
          (weeklyRecords cs) JsMap.empty)).
Proof.
  unfold WeeklyView.aggregatedWeeklyData, weekInput. simpl WeeklyView.campaigns.
  destruct cs as [|c cs]; [reflexivity|].
  cbv beta iota zeta. change (List.length (c :: cs) =? 0)%nat with false. cbv iota.
  rewrite addWeek_step, forEach_campaigns. reflexivity.
Qed.

Lemma week_row (getTime : string -> num) (cs : list WeeklyView.Campaign.t)
  (row : WeeklyView.Week.t) :
  In row (WeeklyView.aggregatedWeeklyData getTime (weekInput cs)) ->
  exists r0,
    first_of WeeklyView.WeeklyData.week_start (WeeklyView.Week.weekStart row)
      (weeklyRecords cs) = Some r0
    /\ row = fold_left weekUpd
               (matching WeeklyView.WeeklyData.week_start (WeeklyView.Week.weekStart row)
                  (weeklyRecords cs))
               (weekInit r0).
Proof.
  rewrite week_aggregation, sort_In. unfold JsMap.values. intros H.
  apply in_map_iff in H. destruct H as ([k v] & Hrow & Hin). simpl in Hrow. subst v.
  apply entry_of_grouping in Hin. destruct Hin as (r0 & Hfirst & Hv).
  assert (Hk : WeeklyView.Week.weekStart row = k).
  { rewrite Hv.
    rewrite (fold_left_kept weekUpd WeeklyView.Week.weekStart) by reflexivity.
    simpl. now apply first_of_key in Hfirst. }
  rewrite Hk. exists r0. auto.
Qed.

Lemma week_keys_In (getTime : string -> num) (cs : list WeeklyView.Campaign.t) (k : string) :
  In k (map WeeklyView.Week.weekStart
          (WeeklyView.aggregatedWeeklyData getTime (weekInput cs)))
  <-> In k (map WeeklyView.WeeklyData.week_start (weeklyRecords cs)).
Proof.
  split.
  - intros H. apply in_map_iff in H. destruct H as (row & Hk & Hin).
    apply week_row in Hin. destruct Hin as (r0 & Hfirst & _).
    apply first_of_key in Hfirst. destruct Hfirst as [E Hin]. subst k. rewrite <- E.
    now apply in_map.
  - intros H. apply distinct_In in H.
    rewrite <- keys_of_grouping with (init := weekInit) (upd := weekUpd) in H.
    unfold JsMap.keys in H. apply in_map_iff in H. destruct H as ([k' v] & E & Hin).
    simpl in E. subst k'.
    assert (Hrow : In v (WeeklyView.aggregatedWeeklyData getTime (weekInput cs))).
    { rewrite week_aggregation, sort_In. unfold JsMap.values.
      change v with (snd (k, v)). now apply in_map. }
    apply entry_of_grouping in Hin. destruct Hin as (r0 & Hfirst & Hv).
    apply in_map_iff. exists v. split; auto.
    rewrite Hv. rewrite (fold_left_kept weekUpd WeeklyView.Week.weekStart) by reflexivity.
    simpl. now apply first_of_key in Hfirst.
Qed.

(* ================================================================== *)
(** ** Properties of the aggregations *)

(** C1, sum correctness.  For the device, week and region aggregations,
    every dimension value that a record carries has an output row, and every
    output row carries, in impressions, clicks, conversions, spend and
    revenue, the sum of that field over all the records of all campaigns
    whose dimension value is the key of the row; each record enters the sum
    once. *)
Theorem sum_correctness :
  (forall cs,
      (forall r, In r (deviceRecords cs) ->
         exists row, In row (DeviceView.aggregatedDeviceData (deviceInput cs))
                     /\ DeviceView.Row.device row = DeviceView.DeviceData.device r)
      /\ forall row,
          In row (DeviceView.aggregatedDeviceData (deviceInput cs)) ->
          let rs := matching DeviceView.DeviceData.device (DeviceView.Row.device row)
                      (deviceRecords cs) in
          DeviceView.Row.impressions row = total DeviceView.DeviceData.impressions rs
          /\ DeviceView.Row.clicks row = total DeviceView.DeviceData.clicks rs
          /\ DeviceView.Row.conversions row = total DeviceView.DeviceData.conversions rs
          /\ DeviceView.Row.spend row = total DeviceView.DeviceData.spend rs
          /\ DeviceView.Row.revenue row = total DeviceView.DeviceData.revenue rs)
  /\ (forall getTime cs,
      (forall r, In r (weeklyRecords cs) ->
         exists row, In row (WeeklyView.aggregatedWeeklyData getTime (weekInput cs))
                     /\ WeeklyView.Week.weekStart row = WeeklyView.WeeklyData.week_start r)
      /\ forall row,
          In row (WeeklyView.aggregatedWeeklyData getTime (weekInput cs)) ->
          let rs := matching WeeklyView.WeeklyData.week_start (WeeklyView.Week.weekStart row)
                      (weeklyRecords cs) in
          WeeklyView.Week.impressions row = total WeeklyView.WeeklyData.impressions rs
          /\ WeeklyView.Week.clicks row = total WeeklyView.WeeklyData.clicks rs
          /\ WeeklyView.Week.conversions row = total WeeklyView.WeeklyData.conversions rs
          /\ WeeklyView.Week.spend row = total WeeklyView.WeeklyData.spend rs
          /\ WeeklyView.Week.revenue row = total WeeklyView.WeeklyData.revenue rs)
  /\ (forall cs,
      (forall r, In r (regionRecords cs) ->
         exists row, In row (RegionView.aggregatedRegionalData (regionInput cs))
                     /\ RegionView.Row.region row = RegionView.RegionalData.region r)
      /\ forall row,
          In row (RegionView.aggregatedRegionalData (regionInput cs)) ->
          let rs := matching RegionView.RegionalData.region (RegionView.Row.region row)
                      (regionRecords cs) in
          RegionView.Row.impressions row = total RegionView.RegionalData.impressions rs
          /\ RegionView.Row.clicks row = total RegionView.RegionalData.clicks rs
          /\ RegionView.Row.conversions row = total RegionView.RegionalData.conversions rs
          /\ RegionView.Row.spend row = total RegionView.RegionalData.spend rs
          /\ RegionView.Row.revenue row = total RegionView.RegionalData.revenue rs).
Proof.
  split; [|split].
  - intros cs. split.
    + intros r Hr.
      assert (Hk : In (DeviceView.DeviceData.device r)
                     (map DeviceView.Row.device
                        (DeviceView.aggregatedDeviceData (deviceInput cs)))).
      { rewrite device_keys. apply distinct_In. now apply in_map. }
      apply in_map_iff in Hk. destruct Hk as (row & E & Hin). now exists row.
    + intros row Hin rs. apply device_row in Hin.
      destruct Hin as (r0 & v & _ & Hrow & Hv). rewrite Hrow. subst v. simpl.
      unfold total, nsum, rs.
      repeat split;
        match goal with
        | |- ?p _ = fold_left nadd (map ?g _) _ =>
            apply (fold_left_field deviceUpd p g); reflexivity
        end.
  - intros getTime cs. split.
    + intros r Hr.
      assert (Hk : In (WeeklyView.WeeklyData.week_start r)
                     (map WeeklyView.Week.weekStart
                        (WeeklyView.aggregatedWeeklyData getTime (weekInput cs)))).
      { apply week_keys_In. now apply in_map. }
      apply in_map_iff in Hk. destruct Hk as (row & E & Hin). now exists row.
    + intros row Hin rs. apply week_row in Hin.
      destruct Hin as (r0 & Hrow). destruct Hrow as [_ Hrow].
      unfold total, nsum, rs. rewrite Hrow at 1 3 5 7 9.
      repeat split;
        match goal with
        | |- ?p _ = fold_left nadd (map ?g _) _ =>
            apply (fold_left_field weekUpd p g); reflexivity
        end.
  - intros cs. split.
    + intros r Hr.
      assert (Hk : In (RegionView.RegionalData.region r)
                     (map RegionView.Row.region
                        (RegionView.aggregatedRegionalData (regionInput cs)))).
      { rewrite region_keys. apply distinct_In. now apply in_map. }
      apply in_map_iff in Hk. destruct Hk as (row & E & Hin). now exists row.
    + intros row Hin rs. apply region_row in Hin.
      destruct Hin as (r0 & v & _ & Hrow & Hv). rewrite Hrow. subst v. simpl.
      unfold total, nsum, rs.
      repeat split;
        match goal with
        | |- ?p _ = fold_left nadd (map ?g _) _ =>
            apply (fold_left_field regionUpd p g); reflexivity
        end.
Qed.

Lemma sum_correctness_witness :
  (In Samples.mobileRow
     (DeviceView.aggregatedDeviceData (deviceInput Samples.deviceCampaigns))
   /\ DeviceView.Row.spend Samples.mobileRow
      = total DeviceView.DeviceData.spend
          (matching DeviceView.DeviceData.device "Mobile"
             (deviceRecords Samples.deviceCampaigns))
   /\ DeviceView.Row.spend Samples.mobileRow = of_Z 120)
  /\ (In Samples.secondWeekRow
        (WeeklyView.aggregatedWeeklyData Samples.dayOfMonth
           (weekInput Samples.weeklyCampaigns))
      /\ WeeklyView.Week.revenue Samples.secondWeekRow
         = total WeeklyView.WeeklyData.revenue
             (matching WeeklyView.WeeklyData.week_start "2024-01-08"
                (weeklyRecords Samples.weeklyCampaigns))
      /\ WeeklyView.Week.revenue Samples.secondWeekRow = of_Z 85)
  /\ (In Samples.dubaiRow
        (RegionView.aggregatedRegionalData (regionInput Samples.regionCampaigns))
      /\ RegionView.Row.clicks Samples.dubaiRow
         = total RegionView.RegionalData.clicks
             (matching RegionView.RegionalData.region "Dubai"
                (regionRecords Samples.regionCampaigns))
      /\ RegionView.Row.clicks Samples.dubaiRow = of_Z 30)
  /\ (exists row,
         In row (RegionView.aggregatedRegionalData (regionInput Samples.regionCampaigns))
         /\ RegionView.Row.region row = "Sharjah").
Proof.
  assert (Hd : In Samples.mobileRow
                 (DeviceView.aggregatedDeviceData (deviceInput Samples.deviceCampaigns))).
  { vm_compute. left. reflexivity. }
  assert (Hw : In Samples.secondWeekRow
                 (WeeklyView.aggregatedWeeklyData Samples.dayOfMonth
                    (weekInput Samples.weeklyCampaigns))).
  { vm_compute. right. left. reflexivity. }
  assert (Hr : In Samples.dubaiRow
                 (RegionView.aggregatedRegionalData (regionInput Samples.regionCampaigns))).
  { vm_compute. left. reflexivity. }
  split; [|split; [|split]].
  - split; [exact Hd|]. split; [|reflexivity].
    exact (proj1 (proj2 (proj2 (proj2
             (proj2 (proj1 sum_correctness Samples.deviceCampaigns) _ Hd))))).
  - split; [exact Hw|]. split; [|reflexivity].
    exact (proj2 (proj2 (proj2 (proj2
             (proj2 (proj1 (proj2 sum_correctness) Samples.dayOfMonth
                       Samples.weeklyCampaigns) _ Hw))))).
  - split; [exact Hr|]. split; [|reflexivity].
    exact (proj1 (proj2
             (proj2 (proj2 (proj2 sum_correctness) Samples.regionCampaigns) _ Hr))).
  - apply (proj1 (proj2 (proj2 sum_correctness) Samples.regionCampaigns)
             (Samples.region "Sharjah" "UAE" 50 5 1 10 80)).
    vm_compute. right. left. reflexivity.
Defined.

(** ** The demographic aggregation *)

(** The inner loop either throws, at the first record that has no
    performance, or folds all the records of the list into the state. *)
Lemma forEachM_addDemo (c : DemographicView.Campaign.t)
  (demos : list DemographicView.DemographicData.t) (st : DemographicView.Metrics.t) :
  forEachM demos (DemographicView.addDemo c) st =
  if forallb hasPerformance demos
  then Normal (fold_left addDemoPair (map (pair c) demos) st)
  else Throw TypeError.
Proof.
  revert st. induction demos as [|d demos IH]; intros st; [reflexivity|].
  cbn [forEachM forallb map fold_left].
  unfold DemographicView.addDemo at 1, hasPerformance at 1.
  unfold addDemoPair at 2, demoClicks, demoPerformance. cbn [fst snd].
  destruct (DemographicView.DemographicData.performance d) as [perf|]; [|reflexivity].
  cbn [bind andb]. apply IH.
Qed.

(** The loop over the campaigns either throws, at the first campaign that
    has no breakdown list or holds a record without performance, or is the
    loop over all the records. *)
Lemma forEachM_demo (cs : list DemographicView.Campaign.t) (st : DemographicView.Metrics.t) :
  forEachM cs demoBody st =
  if forallb wellFormed cs
  then Normal (fold_left addDemoPair (demoRecords cs) st)
  else Throw TypeError.
Proof.
  revert st. induction cs as [|c cs IH]; intros st; [reflexivity|].
  cbn [forEachM forallb]. unfold demoBody at 1, wellFormed at 1.
  unfold demoRecords. cbn [flat_map].
  destruct (DemographicView.Campaign.demographic_breakdown c) as [demos|]; [|reflexivity].
  rewrite forEachM_addDemo.
  destruct (forallb hasPerformance demos); [|reflexivity].
  cbn [bind present andb]. rewrite IH.
  rewrite fold_left_app. reflexivity.
Qed.

Lemma calculateMetrics_eq (cs : list DemographicView.Campaign.t) :
  DemographicView.calculateMetrics (demoInput cs) =
  if forallb wellFormed cs
  then Normal (Some (fold_left addDemoPair (demoRecords cs) DemographicView.initialMetrics))
  else Throw TypeError.
Proof.
  unfold DemographicView.calculateMetrics, demoInput. cbn [DemographicView.campaigns].
  change (forEachM cs _ DemographicView.initialMetrics)
    with (forEachM cs demoBody DemographicView.initialMetrics).
  rewrite forEachM_demo. destruct (forallb wellFormed cs); reflexivity.
Qed.

(** The campaigns on which the loops do not throw. *)
Lemma forallb_wellFormed (cs : list DemographicView.Campaign.t) :
  forallb wellFormed cs = true <->
  (forall c, In c cs -> DemographicView.Campaign.demographic_breakdown c <> None)
  /\ (forall cd, In cd (demoRecords cs) ->
                 DemographicView.DemographicData.performance (snd cd) <> None).
Proof.
  rewrite forallb_forall. unfold wellFormed, demoRecords. split.
  - intros H. split.
    + intros c Hc. specialize (H c Hc).
      destruct (DemographicView.Campaign.demographic_breakdown c); congruence.
    + intros [c d] Hin. apply in_flat_map in Hin. destruct Hin as (c' & Hc & Hd).
      apply in_map_iff in Hd. destruct Hd as (d' & E & Hd). inversion E; subst c' d'.
      specialize (H c Hc). cbn [snd].
      destruct (DemographicView.Campaign.demographic_breakdown c) as [demos|];
        [|discriminate].
      cbn [present] in Hd. rewrite forallb_forall in H. specialize (H d Hd).
      unfold hasPerformance in H.
      destruct (DemographicView.DemographicData.performance d); congruence.
  - intros [Hb Hp] c Hc. specialize (Hb c Hc).
    destruct (DemographicView.Campaign.demographic_breakdown c) as [demos|] eqn:E;
      [|congruence].
    apply forallb_forall. intros d Hd. unfold hasPerformance.
    assert (Hin : In (c, d) (flat_map
       (fun c => map (pair c) (present (DemographicView.Campaign.demographic_breakdown c)))
       cs)).
    { apply in_flat_map. exists c. split; [assumption|]. rewrite E. cbn [present].
      now apply in_map. }
    specialize (Hp _ Hin). cbn [snd] in Hp.
    destruct (DemographicView.DemographicData.performance d); congruence.
Qed.

Lemma age_addDemo (st : DemographicView.Metrics.t)
  (cd : DemographicView.Campaign.t * DemographicView.DemographicData.t) :
  DemographicView.Metrics.ageGroupData (addDemoPair st cd) =
  let o := DemographicView.Metrics.ageGroupData st in
  if negb (JsMap.has o (demoAge cd)) && JsObject.inherited (demoAge cd)
  then o
  else bucket_step demoAge ageInit ageUpd o cd.
Proof.
  unfold addDemoPair, DemographicView.accumulate, bucket_step, demoAge.
  cbn [DemographicView.Metrics.ageGroupData]. cbv zeta.
  unfold JsObject.truthy_at, JsObject.hasOwn.
  destruct (JsMap.has (DemographicView.Metrics.ageGroupData st)
              (DemographicView.DemographicData.age_group (snd cd))) eqn:Hhas.
  - reflexivity.
  - destruct (JsObject.inherited (DemographicView.DemographicData.age_group (snd cd))).
    + cbn [negb andb orb]. unfold JsMap.has in Hhas.
      destruct (JsMap.get (DemographicView.Metrics.ageGroupData st)
                  (DemographicView.DemographicData.age_group (snd cd))); [discriminate|].
      reflexivity.
    + reflexivity.
Qed.

Lemma age_fold (rs : list (DemographicView.Campaign.t * DemographicView.DemographicData.t))
  (st : DemographicView.Metrics.t) :
  (forall k, In k (JsMap.keys (DemographicView.Metrics.ageGroupData st)) ->
             JsObject.inherited k = false) ->
  DemographicView.Metrics.ageGroupData (fold_left addDemoPair rs st)
  = fold_left (bucket_step demoAge ageInit ageUpd) (filter bucketed rs)
      (DemographicView.Metrics.ageGroupData st).
Proof.
  revert st. induction rs as [|cd rs IH]; intros st Hinv; [reflexivity|].
  cbn [fold_left filter]. unfold bucketed at 1.
  assert (Hstep := age_addDemo st cd). cbv zeta in Hstep.
  destruct (JsObject.inherited (demoAge cd)) eqn:Hinh; cbn [negb].
  - assert (Hhas : JsMap.has (DemographicView.Metrics.ageGroupData st) (demoAge cd) = false).
    { rewrite has_existsb.
      destruct (existsb _ _) eqn:E; auto.
      apply existsb_eqb_In in E. apply Hinv in E. congruence. }
    rewrite Hhas in Hstep. cbn [negb andb] in Hstep.
    rewrite IH; rewrite Hstep; auto.
  - rewrite andb_false_r in Hstep.
    rewrite IH; rewrite Hstep; auto.
    intros k Hk. rewrite keys_step in Hk. apply add_key_In in Hk.
    destruct Hk as [Hk|Hk]; [auto | now subst].
Qed.

Lemma male_fold (rs : list (DemographicView.Campaign.t * DemographicView.DemographicData.t))
  (st : DemographicView.Metrics.t) :
  DemographicView.Metrics.maleData (fold_left addDemoPair rs st)
  = fold_left genderUpd (matching demoGender "Male" rs)
      (DemographicView.Metrics.maleData st).
Proof.
  revert st. induction rs as [|cd rs IH]; intros st; [reflexivity|].
  cbn [fold_left]. rewrite IH. unfold matching. cbn [filter].
  unfold addDemoPair, DemographicView.accumulate, demoGender.
  cbn [DemographicView.Metrics.maleData].
  destruct (DemographicView.DemographicData.gender (snd cd) =? "Male"); reflexivity.
Qed.

Lemma female_fold (rs : list (DemographicView.Campaign.t * DemographicView.DemographicData.t))
  (st : DemographicView.Metrics.t) :
  DemographicView.Metrics.femaleData (fold_left addDemoPair rs st)
  = fold_left genderUpd (matching demoGender "Female" rs)
      (DemographicView.Metrics.femaleData st).
Proof.
  revert st. induction rs as [|cd rs IH]; intros st; [reflexivity|].
  cbn [fold_left]. rewrite IH. unfold matching. cbn [filter].
  unfold addDemoPair, DemographicView.accumulate, demoGender.
  cbn [DemographicView.Metrics.femaleData].
  destruct (DemographicView.DemographicData.gender (snd cd) =? "Male") eqn:EM.
  - apply String.eqb_eq in EM. rewrite EM. reflexivity.
  - destruct (DemographicView.DemographicData.gender (snd cd) =? "Female"); reflexivity.
Qed.

Lemma matching_bucketed
  (rs : list (DemographicView.Campaign.t * DemographicView.DemographicData.t)) (k : string) :
  JsObject.inherited k = false ->
  matching demoAge k (filter bucketed rs) = matching demoAge k rs.
Proof.
  intros Hk. unfold matching. induction rs as [|cd rs IH]; [reflexivity|].
  cbn [filter]. unfold bucketed at 1.
  destruct (demoAge cd =? k) eqn:E.
  - assert (Hinh : JsObject.inherited (demoAge cd) = false).
    { pose proof (proj1 (String.eqb_eq _ _) E) as E'. now rewrite E'. }
    rewrite Hinh. cbn [negb filter]. rewrite E. now rewrite IH.
  - destruct (JsObject.inherited (demoAge cd)); cbn [negb filter]; rewrite ?E; auto.
Qed.

(** The age buckets after the loop: one per age group of the records that
    is no inherited property name, each the fold of its records. *)
Lemma age_buckets (cs : list DemographicView.Campaign.t) :
  let m := fold_left addDemoPair (demoRecords cs) DemographicView.initialMetrics in
  JsMap.keys (DemographicView.Metrics.ageGroupData m)
    = distinct (map demoAge (filter bucketed (demoRecords cs)))
  /\ forall k b,
      JsMap.get (DemographicView.Metrics.ageGroupData m) k = Some b ->
      JsObject.inherited k = false
      /\ exists cd0, first_of demoAge k (demoRecords cs) = Some cd0
      /\ b = fold_left ageUpd (matching demoAge k (demoRecords cs)) (ageInit cd0).
Proof.
  cbv zeta. rewrite age_fold by (simpl; tauto).
  cbn [DemographicView.initialMetrics DemographicView.Metrics.ageGroupData].
  split; [apply keys_of_grouping|].
  intros k b Hget. apply get_in in Hget.
  assert (Hk : JsObject.inherited k = false).
  { assert (Hin : In k (JsMap.keys
       (fold_left (bucket_step demoAge ageInit ageUpd) (filter bucketed (demoRecords cs))
          JsMap.empty))).
    { change k with (fst (k, b)). now apply in_map. }
    rewrite keys_of_grouping in Hin. apply (proj1 (distinct_In _ _)) in Hin.
    apply in_map_iff in Hin. destruct Hin as (cd & E & Hcd).
    apply filter_In in Hcd. destruct Hcd as [_ Hb]. unfold bucketed in Hb.
    rewrite E in Hb. now destruct (JsObject.inherited k). }
  split; [exact Hk|].
  apply entry_of_grouping in Hget. destruct Hget as (cd0 & Hfirst & Hb).
  rewrite matching_bucketed in Hb by assumption.
  exists cd0. split; [|exact Hb].
  destruct (matching demoAge k (filter bucketed (demoRecords cs))) as [|x rest] eqn:F.
  - unfold first_of in Hfirst. unfold matching in F.
    apply find_some in Hfirst. destruct Hfirst as [Hin E].
    assert (Hx : In cd0 (filter (fun r => demoAge r =? k) (filter bucketed (demoRecords cs)))).
    { apply filter_In. auto. }
    rewrite F in Hx. destruct Hx.
  - assert (Hx : first_of demoAge k (filter bucketed (demoRecords cs)) = Some x).
    { now apply first_of_matching with rest. }
    rewrite Hfirst in Hx. inversion Hx; subst x.
    rewrite matching_bucketed in F by assumption.
    now apply first_of_matching with rest.
Qed.

Lemma week_keys_NoDup (getTime : string -> num) (cs : list WeeklyView.Campaign.t) :
  NoDup (map WeeklyView.Week.weekStart
           (WeeklyView.aggregatedWeeklyData getTime (weekInput cs))).
Proof.
  rewrite week_aggregation.
  apply Permutation_NoDup
    with (map WeeklyView.Week.weekStart
            (JsMap.values
               (fold_left (bucket_step WeeklyView.WeeklyData.week_start weekInit weekUpd)
                  (weeklyRecords cs) JsMap.empty))).
  - apply Permutation_map. symmetry. apply sort_perm.
  - replace (map WeeklyView.Week.weekStart _)
      with (JsMap.keys
              (fold_left (bucket_step WeeklyView.WeeklyData.week_start weekInit weekUpd)
                 (weeklyRecords cs) JsMap.empty)).
    + rewrite keys_of_grouping. apply distinct_NoDup.
    + unfold JsMap.keys, JsMap.values. rewrite map_map. apply map_ext_in.
      intros [k v] Hin. simpl. apply entry_of_grouping in Hin.
      destruct Hin as (r0 & Hfirst & Hv). rewrite Hv.
      rewrite (fold_left_kept weekUpd WeeklyView.Week.weekStart) by reflexivity.
      simpl. apply first_of_key in Hfirst. symmetry. tauto.
Qed.

(** The gender bucket of a gender that no record carries holds zeros. *)
Lemma gender_bucket_untouched
  (rs : list (DemographicView.Campaign.t * DemographicView.DemographicData.t))
  (g : string) (bucket : DemographicView.GenderData.t) :
  ~ In g (map demoGender rs) ->
  fold_left genderUpd (matching demoGender g rs) bucket = bucket.
Proof. intros H. now rewrite matching_nil. Qed.


(** C2, as stated, fails on the demographic dimension.  The result of
    [calculateMetrics] has no bucket per (age group, gender) pair: it has one
    bucket per age group and the two buckets [maleData] and [femaleData].
    Were no key invented, every gender bucket of the result would be the
    gender of some (age group, gender) pair of the records.  On a single
    record ("25-34", "Male") the result holds a Female bucket, and no pair of
    the records is Female. *)
Lemma demographic_keys_are_not_pairs :
  ~ (forall m,
        DemographicView.calculateMetrics (demoInput [Samples.quarterCampaign])
          = Normal (Some m) ->
        forall g bucket,
          In (g, bucket) (DemographicView.genderBuckets m) ->
          exists age, In (age, g) (demoPairs [Samples.quarterCampaign])).
Proof.
  intros H.
  destruct (H Samples.quarterMetrics eq_refl "Female"
              (DemographicView.Metrics.femaleData Samples.quarterMetrics))
    as (age & Hin).
  - right. left. reflexivity.
  - vm_compute in Hin. destruct Hin as [Hin|[]]. discriminate Hin.
Qed.

(** C2, amended.  For the device, week and region aggregations the keys of
    the output rows are pairwise distinct and are exactly the dimension
    values that occur in the breakdown lists of the campaigns.  The
    demographic aggregation groups by age group and, apart from that, by
    gender, not by pair.  When it returns, the keys of the age buckets are
    pairwise distinct, every one of them is the age group of a record, and
    every age group of a record whose name is no property that a plain
    object inherits has its bucket; the two gender buckets are part of every
    result, and the bucket of a gender that no record carries holds
    zeros. *)
Theorem aggregation_completeness :
  (forall cs,
      NoDup (map DeviceView.Row.device (DeviceView.aggregatedDeviceData (deviceInput cs)))
      /\ forall k,
          In k (map DeviceView.Row.device (DeviceView.aggregatedDeviceData (deviceInput cs)))
          <-> In k (map DeviceView.DeviceData.device (deviceRecords cs)))
  /\ (forall getTime cs,
      NoDup (map WeeklyView.Week.weekStart
               (WeeklyView.aggregatedWeeklyData getTime (weekInput cs)))
      /\ forall k,
          In k (map WeeklyView.Week.weekStart
                  (WeeklyView.aggregatedWeeklyData getTime (weekInput cs)))
          <-> In k (map WeeklyView.WeeklyData.week_start (weeklyRecords cs)))
  /\ (forall cs,
      NoDup (map RegionView.Row.region
               (RegionView.aggregatedRegionalData (regionInput cs)))
      /\ forall k,
          In k (map RegionView.Row.region
                  (RegionView.aggregatedRegionalData (regionInput cs)))
          <-> In k (map RegionView.RegionalData.region (regionRecords cs)))
  /\ (forall cs m,
      DemographicView.calculateMetrics (demoInput cs) = Normal (Some m) ->
      NoDup (JsObject.keys (DemographicView.Metrics.ageGroupData m))
      /\ (forall k,
            In k (JsObject.keys (DemographicView.Metrics.ageGroupData m)) ->
            In k (map demoAge (demoRecords cs)))
      /\ (forall k,
            In k (map demoAge (demoRecords cs)) ->
            JsObject.inherited k = false ->
            In k (JsObject.keys (DemographicView.Metrics.ageGroupData m)))
      /\ (forall g bucket,
            In (g, bucket) (DemographicView.genderBuckets m) ->
            ~ In g (map demoGender (demoRecords cs)) ->
            bucket = DemographicView.GenderData.mk (Fin 0) (Fin 0) (Fin 0))).
Proof.
  split; [|split; [|split]].
  - intros cs. rewrite device_keys. split; [apply distinct_NoDup | apply distinct_In].
  - intros getTime cs. split; [apply week_keys_NoDup | apply week_keys_In].
  - intros cs. rewrite region_keys. split; [apply distinct_NoDup | apply distinct_In].
  - intros cs m Hm. rewrite calculateMetrics_eq in Hm.
    destruct (forallb wellFormed cs); [|discriminate].
    inversion Hm as [Hm']. clear Hm.
    destruct (age_buckets cs) as [Hkeys _]. cbv zeta in Hkeys.
    unfold JsObject.keys. rewrite Hkeys.
    split; [apply distinct_NoDup|]. split; [|split].
    + intros k Hk. apply (proj1 (distinct_In _ _)) in Hk. apply in_map_iff in Hk.
      destruct Hk as (cd & E & Hin). apply filter_In in Hin. destruct Hin as [Hin _].
      rewrite <- E. now apply in_map.
    + intros k Hin Hk. apply distinct_In. apply in_map_iff in Hin.
      destruct Hin as (cd & E & Hin). apply in_map_iff.
      exists cd. split; [assumption|]. apply filter_In. split; [assumption|].
      unfold bucketed. now rewrite E, Hk.
    + intros g bucket Hin Hg. unfold DemographicView.genderBuckets in Hin.
      destruct Hin as [Hin|[Hin|[]]]; inversion Hin; subst g bucket; clear Hin.
      * rewrite male_fold. now rewrite gender_bucket_untouched.
      * rewrite female_fold. now rewrite gender_bucket_untouched.
Qed.

Lemma aggregation_completeness_witness :
  DemographicView.calculateMetrics (demoInput [Samples.quarterCampaign])
    = Normal (Some Samples.quarterMetrics)
  /\ In "25-34" (JsObject.keys (DemographicView.Metrics.ageGroupData Samples.quarterMetrics))
  /\ DemographicView.Metrics.femaleData Samples.quarterMetrics
     = DemographicView.GenderData.mk (Fin 0) (Fin 0) (Fin 0)
  /\ In "Desktop"
       (map DeviceView.Row.device
          (DeviceView.aggregatedDeviceData (deviceInput Samples.deviceCampaigns))).
Proof.
  assert (H : DemographicView.calculateMetrics (demoInput [Samples.quarterCampaign])
              = Normal (Some Samples.quarterMetrics)) by reflexivity.
  split; [exact H|]. split; [|split].
  - apply (proj1 (proj2 (proj2
             (proj2 (proj2 (proj2 aggregation_completeness)) _ _ H))) "25-34").
    + vm_compute. left. reflexivity.
    + reflexivity.
  - apply (proj2 (proj2 (proj2
             (proj2 (proj2 (proj2 aggregation_completeness)) _ _ H))) "Female").
    + right. left. reflexivity.
    + vm_compute. intros [E|[]]. discriminate E.
  - apply (proj2 (proj1 aggregation_completeness Samples.deviceCampaigns) "Desktop").
    vm_compute. right. left. reflexivity.
Defined.



(** C4: the demographic aggregation throws on a campaign that has no
    [demographic_breakdown] (here [Samples.bareCampaign], alone or after a
    campaign that has one), where the device aggregation skips a campaign
    that has no [device_performance]. *)
Theorem missing_breakdown_throws :
  DemographicView.calculateMetrics (demoInput [Samples.bareCampaign]) = Throw TypeError
  /\ DemographicView.calculateMetrics
       (demoInput [Samples.quarterCampaign; Samples.bareCampaign]) = Throw TypeError
  /\ DeviceView.aggregatedDeviceData
       (deviceInput [DeviceView.Campaign.mk "c2" "Summer" None (of_Z 1000) (of_Z 2000)]) = [].
Proof. repeat split. Qed.

(** C8, first write wins.  Every region that a record carries has a row,
    and the country of that row is the country of the first record of the
    region, in the order of the campaigns and of their lists; every week
    that a record carries has a row, and the end date of that row is the end
    date of the first record of the week.  No row holds any other value:
    records met later never change them. *)
Theorem first_write_wins :
  (forall cs,
      (forall k r0,
          first_of RegionView.RegionalData.region k (regionRecords cs) = Some r0 ->
          exists row,
            In row (RegionView.aggregatedRegionalData (regionInput cs))
            /\ RegionView.Row.region row = k
            /\ RegionView.Row.country row = RegionView.RegionalData.country r0)
      /\ forall row,
          In row (RegionView.aggregatedRegionalData (regionInput cs)) ->
          exists r0,
            first_of RegionView.RegionalData.region (RegionView.Row.region row)
              (regionRecords cs) = Some r0
            /\ RegionView.Row.country row = RegionView.RegionalData.country r0)
  /\ (forall getTime cs,
      (forall k w0,
          first_of WeeklyView.WeeklyData.week_start k (weeklyRecords cs) = Some w0 ->
          exists row,
            In row (WeeklyView.aggregatedWeeklyData getTime (weekInput cs))
            /\ WeeklyView.Week.weekStart row = k
            /\ WeeklyView.Week.weekEnd row = WeeklyView.WeeklyData.week_end w0)
      /\ forall row,
          In row (WeeklyView.aggregatedWeeklyData getTime (weekInput cs)) ->
          exists w0,
            first_of WeeklyView.WeeklyData.week_start (WeeklyView.Week.weekStart row)
              (weeklyRecords cs) = Some w0
            /\ WeeklyView.Week.weekEnd row = WeeklyView.WeeklyData.week_end w0).
Proof.
  assert (region : forall cs row,
    In row (RegionView.aggregatedRegionalData (regionInput cs)) ->
    exists r0,
      first_of RegionView.RegionalData.region (RegionView.Row.region row)
        (regionRecords cs) = Some r0
      /\ RegionView.Row.country row = RegionView.RegionalData.country r0).
  { intros cs row Hin. apply region_row in Hin.
    destruct Hin as (r0 & v & Hfirst & Hrow & Hv). exists r0. split; [assumption|].
    rewrite Hrow. simpl. rewrite Hv.
    now rewrite (fold_left_kept regionUpd RegionView.Totals.country). }
  assert (week : forall getTime cs row,
    In row (WeeklyView.aggregatedWeeklyData getTime (weekInput cs)) ->
    exists w0,
      first_of WeeklyView.WeeklyData.week_start (WeeklyView.Week.weekStart row)
        (weeklyRecords cs) = Some w0
      /\ WeeklyView.Week.weekEnd row = WeeklyView.WeeklyData.week_end w0).
  { intros getTime cs row Hin. apply week_row in Hin.
    destruct Hin as (w0 & Hfirst & Hrow). exists w0. split; [assumption|].
    rewrite Hrow at 1.
    now rewrite (fold_left_kept weekUpd WeeklyView.Week.weekEnd). }
  split.
  - intros cs. split; [|apply region].
    intros k r0 Hfirst.
    assert (Hk : In k (map RegionView.Row.region
                         (RegionView.aggregatedRegionalData (regionInput cs)))).
    { rewrite region_keys. apply distinct_In.
      destruct (first_of_key _ _ _ Hfirst) as [E Hin]. rewrite <- E. now apply in_map. }
    apply in_map_iff in Hk. destruct Hk as (row & E & Hin).
    exists row. split; [exact Hin|]. split; [exact E|].
    destruct (region cs row Hin) as (r1 & Hfirst1 & Hcountry).
    rewrite E, Hfirst in Hfirst1. inversion Hfirst1; subst r1. exact Hcountry.
  - intros getTime cs. split; [|apply week].
    intros k w0 Hfirst.
    assert (Hk : In k (map WeeklyView.Week.weekStart
                         (WeeklyView.aggregatedWeeklyData getTime (weekInput cs)))).
    { apply week_keys_In.
      destruct (first_of_key _ _ _ Hfirst) as [E Hin]. rewrite <- E. now apply in_map. }
    apply in_map_iff in Hk. destruct Hk as (row & E & Hin).
    exists row. split; [exact Hin|]. split; [exact E|].
    destruct (week getTime cs row Hin) as (w1 & Hfirst1 & Hend).
    rewrite E, Hfirst in Hfirst1. inversion Hfirst1; subst w1. exact Hend.
Qed.

Lemma first_write_wins_witness :
  (map RegionView.RegionalData.country
     (matching RegionView.RegionalData.region "Dubai"
        (regionRecords Samples.regionCampaigns))
   = ["UAE"; "United Arab Emirates"]
   /\ exists row,
       In row (RegionView.aggregatedRegionalData (regionInput Samples.regionCampaigns))
       /\ RegionView.Row.region row = "Dubai"
       /\ RegionView.Row.country row = "UAE")
  /\ (map WeeklyView.WeeklyData.week_end
        (matching WeeklyView.WeeklyData.week_start "2024-01-08"
           (weeklyRecords Samples.weeklyCampaigns))
      = ["2024-01-14"; "2024-01-15"]
      /\ exists row,
          In row (WeeklyView.aggregatedWeeklyData Samples.dayOfMonth
                    (weekInput Samples.weeklyCampaigns))
          /\ WeeklyView.Week.weekStart row = "2024-01-08"
          /\ WeeklyView.Week.weekEnd row = "2024-01-14")
  /\ (In Samples.secondWeekRow
        (WeeklyView.aggregatedWeeklyData Samples.dayOfMonth
           (weekInput Samples.weeklyCampaigns))
      /\ exists w0,
          first_of WeeklyView.WeeklyData.week_start "2024-01-08"
            (weeklyRecords Samples.weeklyCampaigns) = Some w0
          /\ WeeklyView.Week.weekEnd Samples.secondWeekRow
             = WeeklyView.WeeklyData.week_end w0).
Proof.
  assert (Hw : In Samples.secondWeekRow
                 (WeeklyView.aggregatedWeeklyData Samples.dayOfMonth
                    (weekInput Samples.weeklyCampaigns))).
  { vm_compute. right. left. reflexivity. }
  split; [|split].
  - split; [reflexivity|].
    exact (proj1 (proj1 first_write_wins Samples.regionCampaigns) "Dubai"
             (Samples.region "Dubai" "UAE" 100 10 1 40 300) eq_refl).
  - split; [reflexivity|].
    exact (proj1 (proj2 first_write_wins Samples.dayOfMonth Samples.weeklyCampaigns)
             "2024-01-08" (Samples.week "2024-01-08" "2024-01-14" 100 10 1 20 60) eq_refl).
  - split; [exact Hw|].
    exact (proj2 (proj2 first_write_wins Samples.dayOfMonth Samples.weeklyCampaigns)
             Samples.secondWeekRow Hw).
Defined.

(* ================================================================== *)
(** ** Derived ratios *)

(** C5: a regional row with spend 0 and revenue 500 gets the ratio
    Infinity, and the table shows the cell "Infinity": the guard [|| 0]
    replaces NaN and 0 only.  The per-campaign tables of the device view
    divide with no guard at all, while the summary cards of the same view
    test [spend > 0] and give 0. *)
Theorem zero_spend_roas_is_infinite :
  RegionView.tableRoas
    (RegionView.Row.mk "Dubai" (Fin 0) (Fin 500) (Fin 100) (Fin 10) (Fin 1) "UAE") = PInf
  /\ RegionView.tableData (regionInput Samples.zeroSpendCampaigns) = [("Dubai", "Infinity")]
  /\ DeviceView.campaignRoas "Mobile" Samples.zeroSpendDeviceCampaign = Some PInf
  /\ DeviceView.campaignRoasCell "Mobile" Samples.zeroSpendDeviceCampaign = Some "Infinity"
  /\ DeviceView.mobileROAS (deviceInput [Samples.zeroSpendDeviceCampaign]) = Fin 0.
Proof. repeat split. Qed.

(* ================================================================== *)
(** ** Chart geometry *)

(** C6: for a series of one point the horizontal position is 0/0 * 100,
    which is NaN, and the path is "M NaN 220" (for the height 300). *)
Theorem single_point_path_has_NaN :
  option_map (fun g => (map LineChart.x (LineChart.points g), LineChart.pathD g))
    (LineChart.LineChart Samples.singlePoint (Fin 300))
  = Some ([NaN], "M NaN 220")
  /\ LineChart.occurs "NaN" "M NaN 220" = true.
Proof. split; vm_compute; reflexivity. Qed.

(** C10: a render sorts the array of the caller in place.  Given the
    points of value 1 and 2 in this order, the array holds them in the
    order 2, 1 after the call. *)
Theorem bubble_map_sorts_the_callers_array :
  snd (BubbleMap.BubbleMap Samples.twoBubbles (Fin 500))
  = [Samples.bubble "Abu Dhabi" 2; Samples.bubble "Dubai" 1]
  /\ snd (BubbleMap.BubbleMap Samples.twoBubbles (Fin 500)) <> Samples.twoBubbles.
Proof.
  split; [vm_compute; reflexivity|].
  intros H. vm_compute in H. discriminate H.
Qed.

(** *** Maximum and minimum of finite values *)

Lemma nlt_Fin (a b : Q) : nlt (Fin a) (Fin b) = true <-> (a < b)%Q.
Proof.
  unfold nlt. rewrite Qlt_alt. destruct (a ?= b)%Q; split; congruence.
Qed.

Lemma nlt_Fin_false (a b : Q) : nlt (Fin a) (Fin b) = false <-> (b <= a)%Q.
Proof.
  rewrite <- not_true_iff_false, nlt_Fin. split; [apply Qnot_lt_le | apply Qle_not_lt].
Qed.

Lemma fold_nmax_finite (qs : list Q) (a : Q) :
  exists M,
    fold_left nmax (map Fin qs) (Fin a) = Fin M
    /\ (a <= M)%Q
    /\ (forall q, In q qs -> (q <= M)%Q)
    /\ (M = a \/ In M qs).
Proof.
  revert a. induction qs as [|b qs IH]; intros a; cbn [map fold_left].
  - exists a. repeat split; auto using Qle_refl. intros q [].
  - cbn [nmax]. destruct (nlt (Fin a) (Fin b)) eqn:E.
    + apply nlt_Fin in E. destruct (IH b) as (M & HM & Hb & Hall & Hin).
      exists M. split; [assumption|]. split; [|split].
      * apply Qle_trans with b; [now apply Qlt_le_weak | assumption].
      * intros q [Hq|Hq]; [now subst | auto].
      * right. destruct Hin as [Hin|Hin]; [left; now subst | now right].
    + apply nlt_Fin_false in E. destruct (IH a) as (M & HM & Ha & Hall & Hin).
      exists M. split; [assumption|]. split; [assumption|]. split.
      * intros q [Hq|Hq]; [subst; now apply Qle_trans with a | auto].
      * destruct Hin as [Hin|Hin]; [now left | right; now right].
Qed.

Lemma fold_nmin_finite (qs : list Q) (a : Q) :
  exists m,
    fold_left nmin (map Fin qs) (Fin a) = Fin m
    /\ (m <= a)%Q
    /\ (forall q, In q qs -> (m <= q)%Q)
    /\ (m = a \/ In m qs).
Proof.
  revert a. induction qs as [|b qs IH]; intros a; cbn [map fold_left].
  - exists a. repeat split; auto using Qle_refl. intros q [].
  - cbn [nmin]. destruct (nlt (Fin b) (Fin a)) eqn:E.
    + apply nlt_Fin in E. destruct (IH b) as (m & Hm & Hb & Hall & Hin).
      exists m. split; [assumption|]. split; [|split].
      * apply Qle_trans with b; [assumption | now apply Qlt_le_weak].
      * intros q [Hq|Hq]; [now subst | auto].
      * right. destruct Hin as [Hin|Hin]; [left; now subst | now right].
    + apply nlt_Fin_false in E. destruct (IH a) as (m & Hm & Ha & Hall & Hin).
      exists m. split; [assumption|]. split; [assumption|]. split.
      * intros q [Hq|Hq]; [subst; now apply Qle_trans with a | auto].
      * destruct Hin as [Hin|Hin]; [now left | right; now right].
Qed.

Lemma finite_list (xs : list num) :
  Forall is_finite xs -> exists qs, xs = map Fin qs.
Proof.
  induction 1 as [|x xs Hx _ IH].
  - now exists [].
  - destruct IH as (qs & ->). destruct x as [q| | |]; try contradiction.
    now exists (q :: qs).
Qed.

(** On a non-empty list of finite values, [Math.max] and [Math.min] return
    members of the list that bound all of it. *)
Lemma math_max_min_finite (qs : list Q) :
  qs <> [] ->
  exists M m,
    math_max (map Fin qs) = Fin M /\ math_min (map Fin qs) = Fin m
    /\ In M qs /\ In m qs
    /\ forall q, In q qs -> (m <= q)%Q /\ (q <= M)%Q.
Proof.
  destruct qs as [|a qs]; [congruence|]. intros _.
  unfold math_max, math_min. cbn [map fold_left nmax nmin nlt].
  destruct (fold_nmax_finite qs a) as (M & HM & HaM & HallM & HinM).
  destruct (fold_nmin_finite qs a) as (m & Hm & Hma & Hallm & Hinm).
  exists M, m. split; [assumption|]. split; [assumption|]. split; [|split].
  - destruct HinM; [left; now subst | now right].
  - destruct Hinm; [left; now subst | now right].
  - intros q [Hq|Hq]; [subst; auto | split; auto].
Qed.

(** *** Bubble radius *)

Lemma getBubbleSize_Fin (M m v : Q) :
  BubbleMap.getBubbleSize (Fin M) (Fin m) (Fin v) =
  if Qeq_bool M m then Fin 35 else Fin (10 + (v - m) / (M - m) * 50).
Proof.
  unfold BubbleMap.getBubbleSize. cbn [strict_eq].
  destruct (Qeq_bool M m) eqn:E; [reflexivity|].
  cbn [nsub ndiv].
  assert (E0 : Qeq_bool (M - m) 0 = false).
  { apply not_true_iff_false. intros H. apply Qeq_bool_eq in H.
    apply Qeq_bool_neq in E. apply E. lra. }
  rewrite E0. reflexivity.
Qed.




Lemma bubbles_of_render (data : list BubbleMap.BubbleDataPoint) (height : num) :
  data <> [] ->
  BubbleMap.bubblesOf (fst (BubbleMap.BubbleMap data height))
  = map (fun p =>
           BubbleMap.Build_Bubble
             (fst (BubbleMap.convertCoordinates height (BubbleMap.x p) (BubbleMap.y p)))
             (snd (BubbleMap.convertCoordinates height (BubbleMap.x p) (BubbleMap.y p)))
             (BubbleMap.getBubbleSize (math_max (map BubbleMap.value data))
                (math_min (map BubbleMap.value data)) (BubbleMap.value p))
             p)
      data.
Proof.
  destruct data as [|p0 ps]; [congruence|]. intros _. reflexivity.
Qed.




(* ================================================================== *)
(** ** The points of the regional bubble maps *)

Section OfEntries.

Variable V : Type.

Let put (m : JsMap.t V) (kv : string * V) : JsMap.t V := JsMap.set m (fst kv) (snd kv).

Lemma get_fold_put_absent (l : list (string * V)) (acc : JsMap.t V) (k : string) :
  ~ In k (map fst l) -> JsMap.get (fold_left put l acc) k = JsMap.get acc k.
Proof.
  revert acc. induction l as [|[k0 v0] l IH]; intros acc Hnot; cbn [fold_left]; auto.
  rewrite IH.
  - unfold put. cbn [fst snd]. apply get_set_other. intros ->. apply Hnot. now left.
  - intros H. apply Hnot. now right.
Qed.

Lemma get_fold_put_unique (l : list (string * V)) (acc : JsMap.t V) (k : string) (v : V) :
  NoDup (map fst l) -> In (k, v) l -> JsMap.get (fold_left put l acc) k = Some v.
Proof.
  revert acc. induction l as [|[k0 v0] l IH]; intros acc Hnd Hin; [destruct Hin|].
  cbn [map fst] in Hnd. inversion Hnd as [|? ? Hnotin Hnd']; subst.
  cbn [fold_left]. destruct Hin as [Hin|Hin].
  - inversion Hin; subst. rewrite get_fold_put_absent by assumption.
    unfold put. cbn [fst snd]. apply get_set_same.
  - now apply IH.
Qed.

Lemma get_of_entries_absent (l : list (string * V)) (k : string) :
  ~ In k (map fst l) -> JsMap.get (JsMap.of_entries l) k = None.
Proof.
  intros H. unfold JsMap.of_entries.
  change (fun m kv => JsMap.set m (fst kv) (snd kv)) with put.
  now rewrite get_fold_put_absent.
Qed.

Lemma get_of_entries_unique (l : list (string * V)) (k : string) (v : V) :
  NoDup (map fst l) -> In (k, v) l -> JsMap.get (JsMap.of_entries l) k = Some v.
Proof.
  intros Hnd Hin. unfold JsMap.of_entries.
  change (fun m kv => JsMap.set m (fst kv) (snd kv)) with put.
  now apply get_fold_put_unique.
Qed.

End OfEntries.

Lemma regionalData_NoDup (data : option RegionView.MarketingData) :
  NoDup (map RegionView.Row.region (RegionView.regionalData data)).
Proof.
  destruct data as [[cs]|]; [|constructor].
  change (Some {| RegionView.campaigns := cs |}) with (regionInput cs).
  rewrite regionalData_aggregated, region_keys. apply distinct_NoDup.
Qed.

(** The lookup of a city in [regionalDataMap]: the aggregated row of that
    region when there is one, nothing otherwise. *)
Lemma regionalDataMap_row (data : option RegionView.MarketingData) (r : RegionView.Row.t) :
  In r (RegionView.regionalData data) ->
  JsMap.get (RegionView.regionalDataMap data) (RegionView.Row.region r) = Some r.
Proof.
  intros Hin. unfold RegionView.regionalDataMap. apply get_of_entries_unique.
  - rewrite map_map. cbn [fst]. apply regionalData_NoDup.
  - apply in_map_iff. exists r. auto.
Qed.

Lemma regionalDataMap_none (data : option RegionView.MarketingData) (city : string) :
  (forall r, In r (RegionView.regionalData data) -> RegionView.Row.region r <> city) ->
  JsMap.get (RegionView.regionalDataMap data) city = None.
Proof.
  intros Hnone. unfold RegionView.regionalDataMap. apply get_of_entries_absent.
  rewrite map_map. cbn [fst]. intros Hin. apply in_map_iff in Hin.
  destruct Hin as (r & E & Hr). now apply (Hnone r).
Qed.

Lemma cityCoordinates_NoDup : NoDup (map fst RegionView.cityCoordinates).
Proof.
  unfold RegionView.cityCoordinates. cbn [map fst].
  repeat (constructor; [cbn [In]; intuition discriminate|]). constructor.
Qed.

(** C7, as stated, fails: an aggregated row whose region is not a city of
    the table is not plotted.  The sample has a row for Sharjah, and no
    point of the revenue map carries that city. *)
Lemma aggregated_row_not_plotted :
  ~ (forall row,
        In row (RegionView.regionalData (regionInput Samples.regionCampaigns)) ->
        exists p,
          In p (RegionView.bubbleMapDataRevenue (regionInput Samples.regionCampaigns))
          /\ BubbleMap.city p = RegionView.Row.region row).
Proof.
  intros H.
  destruct (H Samples.sharjahRow) as (p & Hp & Ecity).
  { vm_compute. right. left. reflexivity. }
  apply (in_map BubbleMap.city) in Hp. rewrite Ecity in Hp.
  cbn [RegionView.Row.region Samples.sharjahRow] in Hp.
  unfold RegionView.bubbleMapDataRevenue in Hp. rewrite map_map in Hp.
  cbn [map RegionView.cityCoordinates BubbleMap.city] in Hp.
  cbn [In] in Hp. intuition discriminate.
Qed.

(** C7, amended.  The points passed to each bubble map are exactly the
    cities of the reference table, each once and in the order of the table;
    aggregated rows of other regions are not plotted.  A city with an
    aggregated row whose revenue (respectively spend) is neither zero nor
    NaN carries that revenue (spend) as its value, and a city with no
    aggregated row carries 1000. *)
Theorem reference_points_plotted :
  forall data,
    map BubbleMap.city (RegionView.bubbleMapDataRevenue data)
      = map fst RegionView.cityCoordinates
    /\ map BubbleMap.city (RegionView.bubbleMapDataSpend data)
      = map fst RegionView.cityCoordinates
    /\ NoDup (map fst RegionView.cityCoordinates)
    /\ (forall p,
          In p (RegionView.bubbleMapDataRevenue data) ->
          (forall r,
              In r (RegionView.regionalData data) ->
              RegionView.Row.region r = BubbleMap.city p ->
              truthy (RegionView.Row.revenue r) = true ->
              BubbleMap.value p = RegionView.Row.revenue r)
          /\ ((forall r, In r (RegionView.regionalData data) ->
                         RegionView.Row.region r <> BubbleMap.city p) ->
              BubbleMap.value p = Fin 1000))
    /\ (forall p,
          In p (RegionView.bubbleMapDataSpend data) ->
          (forall r,
              In r (RegionView.regionalData data) ->
              RegionView.Row.region r = BubbleMap.city p ->
              truthy (RegionView.Row.spend r) = true ->
              BubbleMap.value p = RegionView.Row.spend r)
          /\ ((forall r, In r (RegionView.regionalData data) ->
                         RegionView.Row.region r <> BubbleMap.city p) ->
              BubbleMap.value p = Fin 1000)).
Proof.
  intros data. split; [|split; [|split; [|split]]].
  - unfold RegionView.bubbleMapDataRevenue. rewrite map_map. apply map_ext.
    now intros [city coords].
  - unfold RegionView.bubbleMapDataSpend. rewrite map_map. apply map_ext.
    now intros [city coords].
  - apply cityCoordinates_NoDup.
  - intros p Hp. unfold RegionView.bubbleMapDataRevenue in Hp.
    apply in_map_iff in Hp. destruct Hp as ([city coords] & Ep & _). subst p.
    cbn [BubbleMap.city BubbleMap.value]. split.
    + intros r Hr Ecity Htruthy. rewrite <- Ecity, (regionalDataMap_row data r Hr).
      unfold RegionView.fieldOr, num_or. now rewrite Htruthy.
    + intros Hnone. now rewrite (regionalDataMap_none data Hnone).
  - intros p Hp. unfold RegionView.bubbleMapDataSpend in Hp.
    apply in_map_iff in Hp. destruct Hp as ([city coords] & Ep & _). subst p.
    cbn [BubbleMap.city BubbleMap.value]. split.
    + intros r Hr Ecity Htruthy. rewrite <- Ecity, (regionalDataMap_row data r Hr).
      unfold RegionView.fieldOr, num_or. now rewrite Htruthy.
    + intros Hnone. now rewrite (regionalDataMap_none data Hnone).
Qed.

Lemma reference_points_plotted_witness :
  In Samples.dubaiPoint
    (RegionView.bubbleMapDataRevenue (regionInput Samples.regionCampaigns))
  /\ In Samples.dubaiRow (RegionView.regionalData (regionInput Samples.regionCampaigns))
  /\ RegionView.Row.region Samples.dubaiRow = BubbleMap.city Samples.dubaiPoint
  /\ truthy (RegionView.Row.revenue Samples.dubaiRow) = true
  /\ BubbleMap.value Samples.dubaiPoint = RegionView.Row.revenue Samples.dubaiRow
  /\ map BubbleMap.value
       (filter (fun p => BubbleMap.city p =? "Cairo")
          (RegionView.bubbleMapDataRevenue (regionInput Samples.regionCampaigns)))
     = [Fin 1000].
Proof.
  assert (Hp : In Samples.dubaiPoint
                 (RegionView.bubbleMapDataRevenue (regionInput Samples.regionCampaigns))).
  { vm_compute. left. reflexivity. }
  assert (Hr : In Samples.dubaiRow
                 (RegionView.regionalData (regionInput Samples.regionCampaigns))).
  { vm_compute. left. reflexivity. }
  split; [exact Hp|]. split; [exact Hr|]. split; [reflexivity|]. split; [reflexivity|].
  split; [|vm_compute; reflexivity].
  exact (proj1 (proj1 (proj2 (proj2 (proj2
           (reference_points_plotted (regionInput Samples.regionCampaigns)))))
           _ Hp) _ Hr eq_refl eq_refl).
Defined.

(* ================================================================== *)
(** ** Worked examples *)

Example show_num_samples :
  map show_num
    [of_Z 220; Fin (-3); Fin (1 # 2); Fin (- (335 # 10)); ndiv (Fin 0) (Fin 0);
     ndiv (Fin 500) (Fin 0); nmul (Fin 1000) (ndiv (Fin 25) (Fin 100))]
  = ["220"; "-3"; "0.5"; "-33.5"; "NaN"; "Infinity"; "250"].
Proof. vm_compute. reflexivity. Qed.

Example toFixed_samples :
  map (JsFormat.toFixed 2)
    [Fin (5 # 2); Fin (1 # 3); Fin (- (1 # 1000)); Fin 12; NaN; ndiv (Fin 500) (Fin 0)]
  = ["2.50"; "0.33"; "-0.00"; "12.00"; "NaN"; "Infinity"].
Proof. vm_compute. reflexivity. Qed.

(** The weekly rows come out by ascending start date; the week of
    2024-01-08 keeps the end date of its first record. *)
Example weekly_rows_of_the_sample :
  map (fun w => (WeeklyView.Week.weekStart w, WeeklyView.Week.weekEnd w,
                 show_num (WeeklyView.Week.spend w), show_num (WeeklyView.Week.revenue w)))
    (WeeklyView.aggregatedWeeklyData Samples.dayOfMonth (weekInput Samples.weeklyCampaigns))
  = [("2024-01-01", "2024-01-07", "10", "40"); ("2024-01-08", "2024-01-14", "25", "85")].
Proof. vm_compute. reflexivity. Qed.

(** A line of two equal values: both points at the same height, no NaN. *)
Example flat_line_path :
  option_map LineChart.pathD
    (LineChart.LineChart
       [LineChart.Build_LineChartDataPoint "A" (of_Z 5);
        LineChart.Build_LineChartDataPoint "B" (of_Z 5)] (Fin 300))
  = Some "M 0 220 L 100 220".
Proof. vm_compute. reflexivity. Qed.

(** An age group named like an inherited property gets no bucket. *)
Example inherited_age_group_has_no_bucket :
  option_map
    (fun r => match r with
              | Some m => JsObject.keys (DemographicView.Metrics.ageGroupData m)
              | None => []
              end)
    (match DemographicView.calculateMetrics
             (demoInput
                [DemographicView.Campaign.mk (of_Z 1) "Spring"
                   (Some [Samples.demo "constructor" "Male" 25 40;
                          Samples.demo "18-24" "Female" 75 60])
                   (of_Z 1000) (of_Z 2000)]) with
     | Normal r => Some r
     | Throw _ => None
     end)
  = Some ["18-24"].
Proof. vm_compute. reflexivity. Qed.

(* ================================================================== *)
(** ** Further properties of the pages and charts *)

(** *** Sorting by a finite rank *)

Lemma is_finite_qval (x : num) : is_finite x -> x = Fin (qval x).
Proof. destruct x; simpl; intros H; [reflexivity | contradiction ..]. Qed.

Lemma Forall_perm (A : Type) (P : A -> Prop) (l l' : list A) :
  Permutation l l' -> Forall P l -> Forall P l'.
Proof.
  intros Hp H. rewrite Forall_forall in *. intros x Hx. apply H.
  apply Permutation_in with l'; [now symmetry | assumption].
Qed.

Section SortingByRank.

Variable A : Type.
Variable cmp : A -> A -> num.
Variable rank : A -> Q.
Variable P : A -> Prop.

(** On the elements that satisfy [P], the comparator orders by [rank]. *)
Hypothesis cmp_rank :
  forall x y, P x -> P y -> (ngt (cmp x y) (Fin 0) = true <-> (rank y < rank x)%Q).

Let le (a b : A) : Prop := (rank a <= rank b)%Q.

Lemma insert_by_ranked (x : A) (l : list A) :
  P x -> Forall P l -> ForallOrdPairs le l -> ForallOrdPairs le (JsArray.insert_by cmp x l).
Proof.
  intros Hx HP Hs. induction l as [|y l IH]; cbn [JsArray.insert_by].
  - constructor; constructor.
  - inversion HP as [|? ? Hy HP']; subst. inversion Hs as [|? ? Hyl Hs']; subst.
    destruct (ngt (cmp x y) (Fin 0)) eqn:E.
    + apply cmp_rank in E; try assumption. constructor; [|now apply IH].
      apply Forall_perm with (x :: l).
      * symmetry. apply insert_by_perm.
      * constructor; [unfold le; lra | assumption].
    + assert (Hxy : (rank x <= rank y)%Q).
      { apply Qnot_lt_le. intros H. apply cmp_rank in H; try assumption. congruence. }
      constructor; [|assumption]. constructor; [exact Hxy|].
      apply Forall_impl with (P := le y); [|assumption].
      intros z Hz. unfold le in *. lra.
Qed.

Lemma sort_Forall (l : list A) : Forall P l -> Forall P (JsArray.sort cmp l).
Proof.
  apply Forall_perm. symmetry. apply sort_perm.
Qed.

Lemma sort_ranked (l : list A) : Forall P l -> ForallOrdPairs le (JsArray.sort cmp l).
Proof.
  intros HP. induction l as [|x l IH]; [constructor|].
  inversion HP as [|? ? Hx HP']; subst.
  change (JsArray.sort cmp (x :: l)) with (JsArray.insert_by cmp x (JsArray.sort cmp l)).
  apply insert_by_ranked; auto using sort_Forall.
Qed.

(** Sorting a list that is in order leaves it as it is. *)
Lemma sort_ranked_id (l : list A) :
  Forall P l -> ForallOrdPairs le l -> JsArray.sort cmp l = l.
Proof.
  intros HP Hs. induction l as [|x l IH]; [reflexivity|].
  inversion HP as [|? ? Hx HP']; subst. inversion Hs as [|? ? Hxl Hs']; subst.
  change (JsArray.sort cmp (x :: l)) with (JsArray.insert_by cmp x (JsArray.sort cmp l)).
  rewrite IH by assumption.
  destruct l as [|y l]; [reflexivity|]. cbn [JsArray.insert_by].
  inversion Hxl as [|? ? Hxy _]; subst. inversion HP' as [|? ? Hy _]; subst.
  destruct (ngt (cmp x y) (Fin 0)) eqn:E; [|reflexivity].
  apply cmp_rank in E; try assumption. unfold le in Hxy. lra.
Qed.

End SortingByRank.

Lemma nle_Fin (a b : Q) : nle (Fin a) (Fin b) <-> (a <= b)%Q.
Proof. unfold nle. apply nlt_Fin_false. Qed.

Lemma ranked_ascending (A : Type) (f : A -> num) (l : list A) :
  Forall (fun a => is_finite (f a)) l ->
  ForallOrdPairs (fun a b => (qval (f a) <= qval (f b))%Q) l ->
  ascending f l.
Proof.
  intros HP Hs. induction Hs as [|x l Hx Hs IH]; [exact I|].
  inversion HP as [|? ? Hfx HP']; subst. split; [|now apply IH].
  intros y Hy. rewrite Forall_forall in Hx, HP'.
  rewrite (is_finite_qval _ Hfx), (is_finite_qval _ (HP' y Hy)).
  apply nle_Fin. now apply Hx.
Qed.

Lemma ranked_descending (A : Type) (f : A -> num) (l : list A) :
  Forall (fun a => is_finite (f a)) l ->
  ForallOrdPairs (fun a b => (- qval (f a) <= - qval (f b))%Q) l ->
  descending f l.
Proof.
  intros HP Hs. induction Hs as [|x l Hx Hs IH]; [exact I|].
  inversion HP as [|? ? Hfx HP']; subst. split; [|now apply IH].
  intros y Hy. rewrite Forall_forall in Hx, HP'.
  rewrite (is_finite_qval _ Hfx), (is_finite_qval _ (HP' y Hy)).
  apply nle_Fin. specialize (Hx y Hy). cbv beta in Hx. lra.
Qed.

(** The comparator [(a, b) => f(a) - f(b)] orders finite values upwards,
    and [(a, b) => f(b) - f(a)] orders them downwards. *)
Lemma cmp_up (A : Type) (f : A -> num) (x y : A) :
  is_finite (f x) -> is_finite (f y) ->
  (ngt (nsub (f x) (f y)) (Fin 0) = true <-> (qval (f y) < qval (f x))%Q).
Proof.
  intros Hx Hy. rewrite (is_finite_qval _ Hx), (is_finite_qval _ Hy).
  cbn [nsub qval]. unfold ngt. rewrite nlt_Fin. split; intros H; lra.
Qed.

Lemma cmp_down (A : Type) (f : A -> num) (x y : A) :
  is_finite (f x) -> is_finite (f y) ->
  (ngt (nsub (f y) (f x)) (Fin 0) = true <-> (- qval (f y) < - qval (f x))%Q).
Proof.
  intros Hx Hy. rewrite (is_finite_qval _ Hx), (is_finite_qval _ Hy).
  cbn [nsub qval]. unfold ngt. rewrite nlt_Fin. split; intros H; lra.
Qed.

(** *** Order of the rows *)

(** X1.  The rows of the device and of the region aggregation come out in
    the order in which their keys are first met, going through the
    campaigns and through each breakdown list in order. *)
Theorem rows_in_first_encounter_order :
  forall dcs rcs,
    map DeviceView.Row.device (DeviceView.aggregatedDeviceData (deviceInput dcs))
      = distinct (map DeviceView.DeviceData.device (deviceRecords dcs))
    /\ map RegionView.Row.region (RegionView.aggregatedRegionalData (regionInput rcs))
      = distinct (map RegionView.RegionalData.region (regionRecords rcs)).
Proof.
  intros dcs rcs. split; [apply device_keys | apply region_keys].
Qed.

Lemma week_values_start (cs : list WeeklyView.Campaign.t) (w : WeeklyView.Week.t) :
  In w (JsMap.values
          (fold_left (bucket_step WeeklyView.WeeklyData.week_start weekInit weekUpd)
             (weeklyRecords cs) JsMap.empty)) ->
  In (WeeklyView.Week.weekStart w)
    (map WeeklyView.WeeklyData.week_start (weeklyRecords cs)).
Proof.
  unfold JsMap.values. intros H. apply in_map_iff in H.
  destruct H as ([k v] & E & Hin). simpl in E. subst v.
  apply entry_of_grouping in Hin. destruct Hin as (r0 & Hfirst & Hv).
  apply first_of_key in Hfirst. destruct Hfirst as [Ek Hr0].
  rewrite Hv, (fold_left_kept weekUpd WeeklyView.Week.weekStart) by reflexivity.
  apply in_map_iff. exists r0. auto.
Qed.

(** X2.  When the start date of every weekly record parses to a finite
    time, the weekly rows come out by ascending start time. *)
Theorem weekly_rows_ascend :
  forall getTime cs,
    (forall r, In r (weeklyRecords cs) ->
               is_finite (getTime (WeeklyView.WeeklyData.week_start r))) ->
    ascending (fun w => getTime (WeeklyView.Week.weekStart w))
      (WeeklyView.aggregatedWeeklyData getTime (weekInput cs)).
Proof.
  intros getTime cs Hfin. rewrite week_aggregation.
  set (f := fun w => getTime (WeeklyView.Week.weekStart w)).
  assert (HP : Forall (fun w => is_finite (f w))
                 (JsMap.values
                    (fold_left (bucket_step WeeklyView.WeeklyData.week_start weekInit weekUpd)
                       (weeklyRecords cs) JsMap.empty))).
  { apply Forall_forall. intros w Hw. apply week_values_start in Hw.
    apply in_map_iff in Hw. destruct Hw as (r & E & Hr). unfold f. rewrite <- E. auto. }
  apply ranked_ascending.
  - apply sort_Forall. exact HP.
  - apply (sort_ranked (byWeekStart getTime) (fun w => qval (f w))
             (P := fun w => is_finite (f w))); [|exact HP].
    intros x y Hx Hy. unfold byWeekStart. now apply (cmp_up f).
Qed.

Lemma weekly_rows_ascend_witness :
  (forall r, In r (weeklyRecords Samples.weeklyCampaigns) ->
             is_finite (Samples.dayOfMonth (WeeklyView.WeeklyData.week_start r)))
  /\ map WeeklyView.Week.weekStart
       (WeeklyView.aggregatedWeeklyData Samples.dayOfMonth
          (weekInput Samples.weeklyCampaigns))
     = ["2024-01-01"; "2024-01-08"]
  /\ ascending (fun w => Samples.dayOfMonth (WeeklyView.Week.weekStart w))
       (WeeklyView.aggregatedWeeklyData Samples.dayOfMonth
          (weekInput Samples.weeklyCampaigns)).
Proof.
  assert (H : forall r, In r (weeklyRecords Samples.weeklyCampaigns) ->
                        is_finite (Samples.dayOfMonth (WeeklyView.WeeklyData.week_start r))).
  { intros r Hr. cbn in Hr. destruct Hr as [Hr|[Hr|[Hr|[]]]]; subst r; exact I. }
  split; [exact H|]. split; [vm_compute; reflexivity|].
  exact (weekly_rows_ascend Samples.dayOfMonth Samples.weeklyCampaigns H).
Defined.

(** *** The city list of the bubble map *)

Lemma snd_BubbleMap (data : list BubbleMap.BubbleDataPoint) (height : num) :
  snd (BubbleMap.BubbleMap data height)
  = JsArray.sort (fun a b => nsub (BubbleMap.value b) (BubbleMap.value a)) data.
Proof. destruct data; reflexivity. Qed.

Lemma bubble_sort_ranked (data : list BubbleMap.BubbleDataPoint) :
  finite_values data ->
  ForallOrdPairs
    (fun a b => (- qval (BubbleMap.value a) <= - qval (BubbleMap.value b))%Q)
    (JsArray.sort (fun a b => nsub (BubbleMap.value b) (BubbleMap.value a)) data).
Proof.
  intros Hfin.
  apply (sort_ranked _ (fun p => (- qval (BubbleMap.value p))%Q)
           (P := fun p => is_finite (BubbleMap.value p))); [|exact Hfin].
  intros x y Hx Hy. now apply (cmp_down BubbleMap.value).
Qed.

(** X3.  After a render of the bubble map, the array of the caller holds
    the same points as before, each as often as before, and the city list
    shows the points in the order of the array; when the values are finite
    that order is by descending value. *)
Theorem bubble_array_after_render :
  forall data height,
    Permutation (snd (BubbleMap.BubbleMap data height)) data
    /\ match fst (BubbleMap.BubbleMap data height) with
       | BubbleMap.NoData => data = []
       | BubbleMap.Chart _ _ _ cityList =>
           map BubbleMap.card_point cityList = snd (BubbleMap.BubbleMap data height)
       end
    /\ (finite_values data ->
        descending BubbleMap.value (snd (BubbleMap.BubbleMap data height))).
Proof.
  intros data height. split; [|split].
  - rewrite snd_BubbleMap. apply sort_perm.
  - destruct data as [|p ps]; [reflexivity|].
    cbn [BubbleMap.BubbleMap fst snd]. rewrite map_map. cbn [BubbleMap.card_point].
    apply map_id.
  - intros Hfin. rewrite snd_BubbleMap. apply ranked_descending.
    + apply (sort_Forall _ (P := fun p => is_finite (BubbleMap.value p))). exact Hfin.
    + now apply bubble_sort_ranked.
Qed.

Lemma bubble_array_after_render_witness :
  finite_values Samples.threeBubbles
  /\ map BubbleMap.city (snd (BubbleMap.BubbleMap Samples.threeBubbles (Fin 500)))
     = ["Abu Dhabi"; "Riyadh"; "Dubai"]
  /\ descending BubbleMap.value (snd (BubbleMap.BubbleMap Samples.threeBubbles (Fin 500)))
  /\ Permutation (snd (BubbleMap.BubbleMap MoreSamples.unboundedBubbles (Fin 500)))
       MoreSamples.unboundedBubbles.
Proof.
  assert (Hfin : finite_values Samples.threeBubbles) by (repeat constructor).
  split; [exact Hfin|]. split; [vm_compute; reflexivity|]. split.
  - exact (proj2 (proj2 (bubble_array_after_render Samples.threeBubbles (Fin 500))) Hfin).
  - exact (proj1 (bubble_array_after_render MoreSamples.unboundedBubbles (Fin 500))).
Defined.

(** X4.  A second render leaves the array as the first render left it:
    with finite values, sorting the sorted array changes nothing. *)
Theorem bubble_second_render_keeps_order :
  forall data height height',
    finite_values data ->
    snd (BubbleMap.BubbleMap (snd (BubbleMap.BubbleMap data height)) height')
    = snd (BubbleMap.BubbleMap data height).
Proof.
  intros data height height' Hfin. rewrite !snd_BubbleMap.
  apply (sort_ranked_id _ (fun p => (- qval (BubbleMap.value p))%Q)
           (P := fun p => is_finite (BubbleMap.value p))).
  - intros x y Hx Hy. now apply (cmp_down BubbleMap.value).
  - apply (sort_Forall _ (P := fun p => is_finite (BubbleMap.value p))). exact Hfin.
  - now apply bubble_sort_ranked.
Qed.

Lemma bubble_second_render_keeps_order_witness :
  finite_values Samples.threeBubbles
  /\ snd (BubbleMap.BubbleMap (snd (BubbleMap.BubbleMap Samples.threeBubbles (Fin 500)))
            (Fin 500))
     = snd (BubbleMap.BubbleMap Samples.threeBubbles (Fin 500)).
Proof.
  assert (Hfin : finite_values Samples.threeBubbles) by (repeat constructor).
  split; [exact Hfin|].
  exact (bubble_second_render_keeps_order (Fin 500) (Fin 500) Hfin).
Defined.

(** *** Folding a field of the rows *)

Lemma reduce_field (A : Type) (f : A -> num) (xs : list A) (a : num) :
  fold_left (fun sum x => nadd sum (f x)) xs a = fold_left nadd (map f xs) a.
Proof.
  revert a. induction xs as [|x xs IH]; intros a; cbn [fold_left map]; auto.
Qed.

(** *** Summary cards of the region and weekly views *)

(** A field of the rows of the region view, row by row: the sum of the
    field over the records of the region of the row. *)
Lemma region_rows_field (f : RegionView.Totals.t -> num)
  (g : RegionView.RegionalData.t -> num) (frow : RegionView.Row.t -> num) :
  (forall r, f (regionInit r) = Fin 0) ->
  (forall v r, f (regionUpd v r) = nadd (f v) (g r)) ->
  (forall kv, frow (regionRow kv) = f (snd kv)) ->
  forall cs,
    map frow (RegionView.regionalData (regionInput cs))
    = map (fun k => total g (matching RegionView.RegionalData.region k (regionRecords cs)))
        (distinct (map RegionView.RegionalData.region (regionRecords cs))).
Proof.
  intros Hinit Hupd Hrow cs. rewrite regionalData_aggregated, <- region_keys, map_map.
  apply map_ext_in. intros row Hin. apply region_row in Hin.
  destruct Hin as (r0 & v & _ & Erow & Ev).
  rewrite Erow at 1. rewrite Hrow. cbn [snd]. rewrite Ev. unfold total, nsum.
  rewrite (fold_left_field regionUpd f g Hupd). now rewrite Hinit.
Qed.

(** X5.  Each total card of the region view adds up, in the order in which
    the regions are first met, the totals of the regions, and the total of a
    region is the sum over the records of that region in the order of the
    input: every record enters a card once.  The region count is the number
    of distinct regions. *)
Theorem region_cards_add_region_totals :
  forall cs,
    let regions := distinct (map RegionView.RegionalData.region (regionRecords cs)) in
    let of_region (g : RegionView.RegionalData.t -> num) (k : string) :=
      total g (matching RegionView.RegionalData.region k (regionRecords cs)) in
    RegionCards.totalRevenue (regionInput cs)
      = nsum (map (of_region RegionView.RegionalData.revenue) regions)
    /\ RegionCards.totalSpend (regionInput cs)
       = nsum (map (of_region RegionView.RegionalData.spend) regions)
    /\ RegionCards.totalClicks (regionInput cs)
       = nsum (map (of_region RegionView.RegionalData.clicks) regions)
    /\ RegionCards.totalConversions (regionInput cs)
       = nsum (map (of_region RegionView.RegionalData.conversions) regions)
    /\ RegionCards.totalRegions (regionInput cs) = List.length regions.
Proof.
  intros cs regions of_region.
  unfold RegionCards.totalRevenue, RegionCards.totalSpend, RegionCards.totalClicks,
    RegionCards.totalConversions, nsum, of_region, regions.
  do 4 rewrite (reduce_field (A := RegionView.Row.t)).
  rewrite (region_rows_field RegionView.Totals.revenue RegionView.RegionalData.revenue
             RegionView.Row.revenue) by (reflexivity || now intros [k v]).
  rewrite (region_rows_field RegionView.Totals.spend RegionView.RegionalData.spend
             RegionView.Row.spend) by (reflexivity || now intros [k v]).
  rewrite (region_rows_field RegionView.Totals.clicks RegionView.RegionalData.clicks
             RegionView.Row.clicks) by (reflexivity || now intros [k v]).
  rewrite (region_rows_field RegionView.Totals.conversions
             RegionView.RegionalData.conversions RegionView.Row.conversions)
    by (reflexivity || now intros [k v]).
  repeat split.
  unfold RegionCards.totalRegions.
  rewrite regionalData_aggregated, <- region_keys. now rewrite length_map.
Qed.







(** *** Cards of the device view *)

Lemma deviceData_aggregated (cs : list DeviceView.Campaign.t) :
  DeviceView.deviceData (deviceInput cs) = DeviceView.aggregatedDeviceData (deviceInput cs).
Proof. destruct cs; reflexivity. Qed.

(** The stats found for a device are the fold of the records of that
    device from zero, also when there is no such record. *)
Lemma findDevice_fold (cs : list DeviceView.Campaign.t) (name : string) :
  DeviceView.findDevice name (DeviceView.deviceData (deviceInput cs))
  = fold_left deviceUpd (matching DeviceView.DeviceData.device name (deviceRecords cs))
      (DeviceView.Stats.mk (Fin 0) (Fin 0) (Fin 0) (Fin 0) (Fin 0) (Fin 0)).
Proof.
  unfold DeviceView.findDevice, JsArray.find. rewrite deviceData_aggregated.
  destruct (find (fun d => DeviceView.Row.device d =? name)
              (DeviceView.aggregatedDeviceData (deviceInput cs))) as [d|] eqn:F.
  - apply find_some in F. destruct F as [Hin E]. apply String.eqb_eq in E.
    apply device_row in Hin. destruct Hin as (r0 & v & _ & Hrow & Hv).
    rewrite E in Hrow, Hv. rewrite Hrow.
    transitivity v; [destruct v; reflexivity | exact Hv].
  - assert (Hnot : ~ In name (map DeviceView.DeviceData.device (deviceRecords cs))).
    { intros Hin. apply distinct_In in Hin. rewrite <- device_keys in Hin.
      apply in_map_iff in Hin. destruct Hin as (d & E & Hd).
      apply (find_none _ _ F) in Hd. rewrite E, String.eqb_refl in Hd. discriminate. }
    now rewrite (matching_nil _ _ _ Hnot).
Qed.

(** X7.  The Mobile and the Desktop card of the device view hold, in every
    field, the sum of that field over all the records of that device in all
    campaigns; a device that no record names gets zeros in every field. *)
Theorem device_cards_are_device_totals :
  forall cs,
    (let d := DeviceView.mobileData (deviceInput cs) in
     let rs := matching DeviceView.DeviceData.device "Mobile" (deviceRecords cs) in
     DeviceView.Stats.impressions d = total DeviceView.DeviceData.impressions rs
     /\ DeviceView.Stats.clicks d = total DeviceView.DeviceData.clicks rs
     /\ DeviceView.Stats.conversions d = total DeviceView.DeviceData.conversions rs
     /\ DeviceView.Stats.spend d = total DeviceView.DeviceData.spend rs
     /\ DeviceView.Stats.revenue d = total DeviceView.DeviceData.revenue rs
     /\ DeviceView.Stats.traffic d = total DeviceView.DeviceData.percentage_of_traffic rs)
    /\ (let d := DeviceView.desktopData (deviceInput cs) in
        let rs := matching DeviceView.DeviceData.device "Desktop" (deviceRecords cs) in
        DeviceView.Stats.impressions d = total DeviceView.DeviceData.impressions rs
        /\ DeviceView.Stats.clicks d = total DeviceView.DeviceData.clicks rs
        /\ DeviceView.Stats.conversions d = total DeviceView.DeviceData.conversions rs
        /\ DeviceView.Stats.spend d = total DeviceView.DeviceData.spend rs
        /\ DeviceView.Stats.revenue d = total DeviceView.DeviceData.revenue rs
        /\ DeviceView.Stats.traffic d
           = total DeviceView.DeviceData.percentage_of_traffic rs)
    /\ (forall name,
           ~ In name (map DeviceView.DeviceData.device (deviceRecords cs)) ->
           DeviceView.findDevice name (DeviceView.deviceData (deviceInput cs))
           = DeviceView.Stats.mk (Fin 0) (Fin 0) (Fin 0) (Fin 0) (Fin 0) (Fin 0)).
Proof.
  intros cs. unfold DeviceView.mobileData, DeviceView.desktopData. cbv zeta.
  rewrite !findDevice_fold. unfold total, nsum. split; [|split].
  - repeat split;
      match goal with
      | |- ?p _ = fold_left nadd (map ?g _) _ =>
          apply (fold_left_field deviceUpd p g); reflexivity
      end.
  - repeat split;
      match goal with
      | |- ?p _ = fold_left nadd (map ?g _) _ =>
          apply (fold_left_field deviceUpd p g); reflexivity
      end.
  - intros name Hnot. rewrite findDevice_fold.
    now rewrite (matching_nil _ _ _ Hnot).
Qed.

Lemma device_cards_are_device_totals_witness :
  ~ In "Tablet" (map DeviceView.DeviceData.device (deviceRecords Samples.deviceCampaigns))
  /\ DeviceView.mobileData (deviceInput Samples.deviceCampaigns) = MoreSamples.mobileStats
  /\ DeviceView.findDevice "Tablet" (DeviceView.deviceData (deviceInput Samples.deviceCampaigns))
     = DeviceView.Stats.mk (Fin 0) (Fin 0) (Fin 0) (Fin 0) (Fin 0) (Fin 0).
Proof.
  assert (H : ~ In "Tablet"
                (map DeviceView.DeviceData.device (deviceRecords Samples.deviceCampaigns))).
  { cbn. intuition discriminate. }
  split; [exact H|]. split; [vm_compute; reflexivity|].
  exact (proj2 (proj2 (device_cards_are_device_totals Samples.deviceCampaigns)) "Tablet" H).
Defined.

(** A guarded ratio [d > 0 ? (n / d) * k : 0] with a finite dividend is
    never NaN. *)
Lemma guarded_ratio_not_NaN (n d k : num) :
  is_finite n -> is_finite k ->
  (if ngt d (Fin 0) then nmul (ndiv n d) k else Fin 0) <> NaN.
Proof.
  intros Hn Hk. destruct n as [a| | |]; try contradiction.
  destruct k as [c| | |]; try contradiction.
  destruct d as [b| | |]; try discriminate.
  unfold ngt. destruct (nlt (Fin 0) (Fin b)) eqn:E; [|discriminate].
  apply nlt_Fin in E. cbn [ndiv].
  assert (E0 : Qeq_bool b 0 = false).
  { apply not_true_iff_false. intros H. apply Qeq_bool_eq in H. lra. }
  rewrite E0. discriminate.
Qed.

Lemma deviceROAS_not_NaN (d : DeviceView.Stats.t) :
  is_finite (DeviceView.Stats.revenue d) -> DeviceView.deviceROAS d <> NaN.
Proof.
  intros Hr. unfold DeviceView.deviceROAS.
  destruct (DeviceView.Stats.revenue d) as [a| | |]; try contradiction.
  destruct (DeviceView.Stats.spend d) as [b| | |]; try discriminate.
  unfold ngt. destruct (nlt (Fin 0) (Fin b)) eqn:E; [|discriminate].
  apply nlt_Fin in E. cbn [ndiv].
  assert (E0 : Qeq_bool b 0 = false).
  { apply not_true_iff_false. intros H. apply Qeq_bool_eq in H. lra. }
  rewrite E0. discriminate.
Qed.

(** X8.  The guards of the rate cards of the device view (click through
    rate, conversion rate and return on ad spend).  A device that no record
    names shows 0 in all three cards: no division takes place.  Whatever a
    card is computed from, a rate whose dividend is finite is never NaN. *)
Theorem device_rate_cards_are_guarded :
  (forall cs name,
      ~ In name (map DeviceView.DeviceData.device (deviceRecords cs)) ->
      let d := DeviceView.findDevice name (DeviceView.deviceData (deviceInput cs)) in
      DeviceCards.deviceCTR d = Fin 0
      /\ DeviceCards.deviceConversionRate d = Fin 0
      /\ DeviceView.deviceROAS d = Fin 0)
  /\ (forall d,
      (is_finite (DeviceView.Stats.clicks d) -> DeviceCards.deviceCTR d <> NaN)
      /\ (is_finite (DeviceView.Stats.conversions d) ->
          DeviceCards.deviceConversionRate d <> NaN)
      /\ (is_finite (DeviceView.Stats.revenue d) -> DeviceView.deviceROAS d <> NaN)).
Proof.
  split.
  - intros cs name Hnot. cbv zeta. rewrite findDevice_fold.
    rewrite (matching_nil _ _ _ Hnot). repeat split.
  - intros d. split; [|split].
    + intros H. unfold DeviceCards.deviceCTR. now apply guarded_ratio_not_NaN.
    + intros H. unfold DeviceCards.deviceConversionRate. now apply guarded_ratio_not_NaN.
    + apply deviceROAS_not_NaN.
Qed.

Lemma device_rate_cards_are_guarded_witness :
  ~ In "Tablet" (map DeviceView.DeviceData.device (deviceRecords Samples.deviceCampaigns))
  /\ DeviceCards.deviceCTR
       (DeviceView.findDevice "Tablet"
          (DeviceView.deviceData (deviceInput Samples.deviceCampaigns))) = Fin 0
  /\ DeviceView.mobileROAS (deviceInput [Samples.zeroSpendDeviceCampaign]) <> NaN
  /\ DeviceCards.mobileCTR (deviceInput Samples.deviceCampaigns) <> NaN.
Proof.
  assert (H : ~ In "Tablet"
                (map DeviceView.DeviceData.device (deviceRecords Samples.deviceCampaigns))).
  { cbn. intuition discriminate. }
  split; [exact H|]. split; [|split].
  - exact (proj1 (proj1 device_rate_cards_are_guarded Samples.deviceCampaigns "Tablet" H)).
  - apply (proj2 (proj2 (proj2 device_rate_cards_are_guarded
                           (DeviceView.mobileData
                              (deviceInput [Samples.zeroSpendDeviceCampaign]))))).
    vm_compute. exact I.
  - apply (proj1 (proj2 device_rate_cards_are_guarded
                    (DeviceView.mobileData (deviceInput Samples.deviceCampaigns)))).
    vm_compute. exact I.
Defined.

(** *** The regional table and the points handed to the bubble maps *)

Lemma num_or_not_NaN (x d : num) : d <> NaN -> num_or x d <> NaN.
Proof.
  intros Hd. unfold num_or. destruct (truthy x) eqn:E; [|exact Hd].
  intros ->. discriminate E.
Qed.

Lemma num_or_truthy (x d : num) : truthy d = true -> truthy (num_or x d) = true.
Proof. intros Hd. unfold num_or. destruct (truthy x) eqn:E; assumption. Qed.

(** X9.  The regional table has one row per aggregated region: sorting
    loses and repeats no row.  When the revenue of every row is finite the
    rows stand by descending revenue.  The ratio of a row is never NaN,
    whatever the row holds. *)
Theorem region_table_rows :
  forall data,
    Permutation (RegionCards.tableRows data) (RegionView.regionalData data)
    /\ (Forall (fun row => is_finite (RegionView.Row.revenue row))
          (RegionView.regionalData data) ->
        descending RegionView.Row.revenue (RegionCards.tableRows data))
    /\ forall row : RegionView.Row.t, RegionView.tableRoas row <> NaN.
Proof.
  intros data. unfold RegionCards.tableRows.
  split; [apply sort_perm|]. split.
  - intros HP. apply ranked_descending.
    + apply (sort_Forall _ (P := fun row => is_finite (RegionView.Row.revenue row))).
      exact HP.
    + apply (sort_ranked _ (fun row => (- qval (RegionView.Row.revenue row))%Q)
               (P := fun row => is_finite (RegionView.Row.revenue row))); [|exact HP].
      intros x y Hx Hy. now apply (cmp_down RegionView.Row.revenue).
  - intros row. apply num_or_not_NaN. discriminate.
Qed.

Lemma region_table_rows_witness :
  Forall (fun row => is_finite (RegionView.Row.revenue row))
    (RegionView.regionalData (regionInput Samples.regionCampaigns))
  /\ map RegionView.Row.region (RegionCards.tableRows (regionInput Samples.regionCampaigns))
     = ["Dubai"; "Sharjah"]
  /\ descending RegionView.Row.revenue
       (RegionCards.tableRows (regionInput Samples.regionCampaigns)).
Proof.
  assert (H : Forall (fun row => is_finite (RegionView.Row.revenue row))
                (RegionView.regionalData (regionInput Samples.regionCampaigns))).
  { vm_compute. repeat constructor. }
  split; [exact H|]. split; [vm_compute; reflexivity|].
  exact (proj1 (proj2 (region_table_rows (regionInput Samples.regionCampaigns))) H).
Defined.

Lemma in_set (V : Type) (m : JsMap.t V) (k : string) (v : V) (kv : string * V) :
  In kv (JsMap.set m k v) -> kv = (k, v) \/ In kv m.
Proof.
  induction m as [|[k0 v0] m IH]; cbn [JsMap.set].
  - intros [H|[]]. now left.
  - destruct (k0 =? k) eqn:E.
    + apply String.eqb_eq in E. subst k0. intros [H|H]; [now left | right; now right].
    + intros [H|H]; [right; now left|]. destruct (IH H); [now left | right; now right].
Qed.

Lemma in_of_entries (V : Type) (l : list (string * V)) (kv : string * V) :
  In kv (JsMap.of_entries l) -> In kv l.
Proof.
  unfold JsMap.of_entries.
  assert (H : forall acc, In kv (fold_left (fun m e => JsMap.set m (fst e) (snd e)) l acc) ->
                          In kv l \/ In kv acc).
  { induction l as [|[k v] l IH]; intros acc Hin; cbn [fold_left] in Hin; [now right|].
    destruct (IH _ Hin) as [H|H]; [left; now right|].
    cbn [fst snd] in H. apply in_set in H. destruct H as [H|H]; [left; now left | now right]. }
  intros Hin. destruct (H _ Hin) as [H'|[]]. exact H'.
Qed.

Lemma regionalDataMap_get (data : option RegionView.MarketingData) (city : string)
  (r : RegionView.Row.t) :
  JsMap.get (RegionView.regionalDataMap data) city = Some r ->
  In r (RegionView.regionalData data) /\ RegionView.Row.region r = city.
Proof.
  intros H. apply get_in in H. unfold RegionView.regionalDataMap in H.
  apply in_of_entries in H. apply in_map_iff in H. destruct H as (r' & E & Hr').
  inversion E; subst. auto.
Qed.

(** The value [regionData?.field || 1000] of a point: never 0 and never
    NaN, and either 1000 or the field of the row of the city. *)
Lemma fieldOr_value (data : option RegionView.MarketingData)
  (field : RegionView.Row.t -> num) (city : string) :
  let v := RegionView.fieldOr field (JsMap.get (RegionView.regionalDataMap data) city)
             (Fin 1000) in
  truthy v = true
  /\ (v = Fin 1000
      \/ exists r, In r (RegionView.regionalData data)
                   /\ RegionView.Row.region r = city /\ v = field r).
Proof.
  cbv zeta. unfold RegionView.fieldOr.
  destruct (JsMap.get (RegionView.regionalDataMap data) city) as [r|] eqn:E;
    [|split; [reflexivity | now left]].
  apply regionalDataMap_get in E. destruct E as [Hin Hcity].
  split; [now apply num_or_truthy|].
  unfold num_or. destruct (truthy (field r)); [|now left].
  right. exists r. auto.
Qed.

(** X10.  No point that the region view hands to its two bubble maps has
    the value zero or NaN, whatever the document holds, and no value is
    invented: the value of a point is 1000, or it is the revenue
    (respectively the spend) of the aggregated row of that city.  So when
    the revenue (the spend) of every aggregated row is finite, every value of
    the revenue (spend) map is finite. *)
Theorem region_bubble_points_are_plottable :
  forall data,
    (forall p,
        In p (RegionView.bubbleMapDataRevenue data) ->
        truthy (BubbleMap.value p) = true
        /\ (BubbleMap.value p = Fin 1000
            \/ exists r, In r (RegionView.regionalData data)
                         /\ RegionView.Row.region r = BubbleMap.city p
                         /\ BubbleMap.value p = RegionView.Row.revenue r))
    /\ (forall p,
          In p (RegionView.bubbleMapDataSpend data) ->
          truthy (BubbleMap.value p) = true
          /\ (BubbleMap.value p = Fin 1000
              \/ exists r, In r (RegionView.regionalData data)
                           /\ RegionView.Row.region r = BubbleMap.city p
                           /\ BubbleMap.value p = RegionView.Row.spend r))
    /\ ((forall r, In r (RegionView.regionalData data) ->
                   is_finite (RegionView.Row.revenue r)) ->
        finite_values (RegionView.bubbleMapDataRevenue data))
    /\ ((forall r, In r (RegionView.regionalData data) ->
                   is_finite (RegionView.Row.spend r)) ->
        finite_values (RegionView.bubbleMapDataSpend data)).
Proof.
  intros data.
  assert (Hrev : forall p,
    In p (RegionView.bubbleMapDataRevenue data) ->
    truthy (BubbleMap.value p) = true
    /\ (BubbleMap.value p = Fin 1000
        \/ exists r, In r (RegionView.regionalData data)
                     /\ RegionView.Row.region r = BubbleMap.city p
                     /\ BubbleMap.value p = RegionView.Row.revenue r)).
  { intros p Hp. unfold RegionView.bubbleMapDataRevenue in Hp. apply in_map_iff in Hp.
    destruct Hp as ([city coords] & E & _). subst p. cbn [BubbleMap.value BubbleMap.city].
    apply fieldOr_value. }
  assert (Hsp : forall p,
    In p (RegionView.bubbleMapDataSpend data) ->
    truthy (BubbleMap.value p) = true
    /\ (BubbleMap.value p = Fin 1000
        \/ exists r, In r (RegionView.regionalData data)
                     /\ RegionView.Row.region r = BubbleMap.city p
                     /\ BubbleMap.value p = RegionView.Row.spend r)).
  { intros p Hp. unfold RegionView.bubbleMapDataSpend in Hp. apply in_map_iff in Hp.
    destruct Hp as ([city coords] & E & _). subst p. cbn [BubbleMap.value BubbleMap.city].
    apply fieldOr_value. }
  split; [exact Hrev|]. split; [exact Hsp|]. split.
  - intros Hfin. apply Forall_forall. intros p Hp.
    destruct (Hrev p Hp) as [_ [E|(r & Hr & _ & E)]]; rewrite E; [exact I | now apply Hfin].
  - intros Hfin. apply Forall_forall. intros p Hp.
    destruct (Hsp p Hp) as [_ [E|(r & Hr & _ & E)]]; rewrite E; [exact I | now apply Hfin].
Qed.

Lemma region_bubble_points_are_plottable_witness :
  In Samples.dubaiPoint
    (RegionView.bubbleMapDataRevenue (regionInput Samples.regionCampaigns))
  /\ truthy (BubbleMap.value Samples.dubaiPoint) = true
  /\ map BubbleMap.value
       (filter (fun p => BubbleMap.city p =? "Dubai")
          (RegionView.bubbleMapDataSpend (regionInput Samples.zeroSpendCampaigns)))
     = [Fin 1000]
  /\ finite_values (RegionView.bubbleMapDataSpend (regionInput Samples.zeroSpendCampaigns)).
Proof.
  assert (Hp : In Samples.dubaiPoint
                 (RegionView.bubbleMapDataRevenue (regionInput Samples.regionCampaigns))).
  { vm_compute. tauto. }
  split; [exact Hp|]. split; [|split; [vm_compute; reflexivity|]].
  - exact (proj1 (proj1 (region_bubble_points_are_plottable
                           (regionInput Samples.regionCampaigns)) _ Hp)).
  - apply (proj2 (proj2 (proj2 (region_bubble_points_are_plottable
                                  (regionInput Samples.zeroSpendCampaigns))))).
    intros r Hr. vm_compute in Hr. destruct Hr as [Hr|[]]. subst r. exact I.
Defined.

(** *** The demographic view: errors and tables *)

Lemma forallb_false_exists (A : Type) (f : A -> bool) (l : list A) :
  forallb f l = false <-> exists x, In x l /\ f x = false.
Proof.
  split.
  - induction l as [|x l IH]; [discriminate|].
    cbn [forallb]. intros H. apply andb_false_iff in H. destruct H as [H|H].
    + exists x. split; [now left | exact H].
    + destruct (IH H) as (y & Hin & E). exists y. split; [now right | exact E].
  - intros (x & Hin & E). apply not_true_iff_false. intros H.
    rewrite forallb_forall in H. rewrite (H x Hin) in E. discriminate.
Qed.

Lemma filter_pair (c : DemographicView.Campaign.t) (g : string)
  (demos : list DemographicView.DemographicData.t) :
  matching demoGender g (map (pair c) demos)
  = map (pair c)
      (filter (fun demo => DemographicView.DemographicData.gender demo =? g) demos).
Proof.
  unfold matching, demoGender. induction demos as [|d demos IH]; [reflexivity|].
  cbn [map filter snd]. destruct (DemographicView.DemographicData.gender d =? g);
    cbn [map]; now rewrite IH.
Qed.

Lemma matching_demoRecords_cons (g : string) (c : DemographicView.Campaign.t)
  (cs : list DemographicView.Campaign.t) :
  matching demoGender g (demoRecords (c :: cs))
  = (map (pair c)
       (filter (fun demo => DemographicView.DemographicData.gender demo =? g)
          (present (DemographicView.Campaign.demographic_breakdown c)))
     ++ matching demoGender g (demoRecords cs))%list.
Proof.
  unfold demoRecords. cbn [flat_map]. unfold matching at 1. rewrite filter_app.
  fold (matching demoGender g
          (map (pair c) (present (DemographicView.Campaign.demographic_breakdown c)))).
  now rewrite filter_pair.
Qed.

(** The rows of one campaign: [map] either throws, at the first record that
    has no performance, or gives the row of every record. *)
Lemma mapM_tableRow (c : DemographicView.Campaign.t)
  (demos : list DemographicView.DemographicData.t) :
  DemographicTables.mapM (DemographicTables.tableRow c) demos =
  if forallb hasPerformance demos
  then Normal (map tableRowOf (map (pair c) demos))
  else Throw TypeError.
Proof.
  assert (Hrow : forall d,
    DemographicTables.tableRow c d
    = if hasPerformance d then Normal (tableRowOf (c, d)) else Throw TypeError).
  { intros d. unfold DemographicTables.tableRow, hasPerformance, tableRowOf, demoPerformance.
    cbn [fst snd].
    destruct (DemographicView.DemographicData.performance d); reflexivity. }
  induction demos as [|d demos IH]; [reflexivity|].
  cbn [DemographicTables.mapM forallb map]. rewrite IH, Hrow.
  destruct (hasPerformance d); [|reflexivity].
  cbn [bind andb]. destruct (forallb hasPerformance demos); reflexivity.
Qed.

Lemma genderTableData_eq (g : string) (cs : list DemographicView.Campaign.t) :
  DemographicTables.genderTableData g (demoInput cs) =
  if forallb (tableWellFormed g) cs
  then Normal (map tableRowOf (matching demoGender g (demoRecords cs)))
  else Throw TypeError.
Proof.
  assert (Hrows : forall c,
    DemographicTables.genderRows g c
    = if tableWellFormed g c
      then Normal
             (map tableRowOf
                (map (pair c)
                   (filter (fun demo => DemographicView.DemographicData.gender demo =? g)
                      (present (DemographicView.Campaign.demographic_breakdown c)))))
      else Throw TypeError).
  { intros c. unfold DemographicTables.genderRows, tableWellFormed.
    destruct (DemographicView.Campaign.demographic_breakdown c) as [demos|];
      [|reflexivity].
    apply mapM_tableRow. }
  unfold DemographicTables.genderTableData, demoInput. cbn [DemographicView.campaigns].
  induction cs as [|c cs IH]; [reflexivity|].
  cbn [DemographicTables.flatMapM forallb]. rewrite IH, matching_demoRecords_cons, Hrows.
  destruct (tableWellFormed g c); [|reflexivity].
  cbn [bind andb].
  destruct (forallb (tableWellFormed g) cs); [|reflexivity]. cbn [bind].
  now rewrite map_app.
Qed.

(** The loop of [calculateMetrics] throws on the documents that miss a
    breakdown list or a performance, and on no other. *)
Lemma wellFormed_false (cs : list DemographicView.Campaign.t) :
  forallb wellFormed cs = false
  <-> breakdown_missing cs \/ performance_missing (demoRecords cs).
Proof.
  unfold breakdown_missing, performance_missing. split.
  - intros H. destruct (forallb wellFormed cs) eqn:E; [discriminate|]. clear H.
    apply forallb_false_exists in E. destruct E as (c & Hc & E). unfold wellFormed in E.
    destruct (DemographicView.Campaign.demographic_breakdown c) as [demos|] eqn:Hb.
    + right. apply forallb_false_exists in E. destruct E as (d & Hd & E).
      exists (c, d). split.
      * unfold demoRecords. apply in_flat_map. exists c. split; [assumption|].
        rewrite Hb. now apply in_map.
      * unfold hasPerformance in E. cbn [snd].
        destruct (DemographicView.DemographicData.performance d);
          [discriminate | reflexivity].
    + left. now exists c.
  - intros H. apply not_true_iff_false. intros E. apply forallb_wellFormed in E.
    destruct E as [Hb Hp]. destruct H as [(c & Hc & E)|(cd & Hcd & E)].
    + now apply (Hb c Hc).
    + now apply (Hp cd Hcd).
Qed.

Lemma tableWellFormed_false (g : string) (cs : list DemographicView.Campaign.t) :
  forallb (tableWellFormed g) cs = false
  <-> breakdown_missing cs \/ performance_missing (matching demoGender g (demoRecords cs)).
Proof.
  unfold breakdown_missing, performance_missing. split.
  - intros E. apply forallb_false_exists in E. destruct E as (c & Hc & E).
    unfold tableWellFormed in E.
    destruct (DemographicView.Campaign.demographic_breakdown c) as [demos|] eqn:Hb.
    + right. apply forallb_false_exists in E. destruct E as (d & Hd & E).
      apply filter_In in Hd. destruct Hd as [Hd Hg].
      exists (c, d). split.
      * apply filter_In. split; [|exact Hg].
        unfold demoRecords. apply in_flat_map. exists c. split; [assumption|].
        rewrite Hb. now apply in_map.
      * unfold hasPerformance in E. cbn [snd].
        destruct (DemographicView.DemographicData.performance d);
          [discriminate | reflexivity].
    + left. now exists c.
  - intros H. apply forallb_false_exists.
    destruct H as [(c & Hc & E)|([c d] & Hcd & E)].
    + exists c. split; [assumption|]. unfold tableWellFormed. now rewrite E.
    + apply filter_In in Hcd. destruct Hcd as [Hcd Hg].
      unfold demoRecords in Hcd. apply in_flat_map in Hcd.
      destruct Hcd as (c' & Hc & Hd). apply in_map_iff in Hd.
      destruct Hd as (d' & Ed & Hd). inversion Ed; subst c' d'.
      exists c. split; [assumption|]. unfold tableWellFormed.
      destruct (DemographicView.Campaign.demographic_breakdown c) as [demos|];
        [|reflexivity].
      apply forallb_false_exists. exists d. split.
      * apply filter_In. split; [exact Hd | exact Hg].
      * unfold hasPerformance. cbn [snd] in E. now rewrite E.
Qed.

(** A document on which the loop of [calculateMetrics] does not throw is one
    on which no table throws. *)
Lemma wellFormed_tableWellFormed (g : string) (cs : list DemographicView.Campaign.t) :
  forallb wellFormed cs = true -> forallb (tableWellFormed g) cs = true.
Proof.
  rewrite !forallb_forall. intros H c Hc. specialize (H c Hc).
  unfold wellFormed in H. unfold tableWellFormed.
  destruct (DemographicView.Campaign.demographic_breakdown c) as [demos|]; [|discriminate].
  rewrite forallb_forall in H. apply forallb_forall. intros d Hd.
  apply filter_In in Hd. now apply H.
Qed.

(** X11.  On a document that has its campaigns, [calculateMetrics] throws
    exactly when some campaign has no breakdown list or some record has no
    performance, and the table of a gender throws exactly when some campaign
    has no breakdown list or some record of that gender has no performance;
    so both tables return whenever [calculateMetrics] returns metrics.  On a
    document that has no campaigns, [calculateMetrics] returns [null] and
    both tables throw. *)
Theorem demographic_view_throws_iff :
  (forall cs,
      (DemographicView.calculateMetrics (demoInput cs) = Throw TypeError
       <-> breakdown_missing cs \/ performance_missing (demoRecords cs))
      /\ (forall g,
             DemographicTables.genderTableData g (demoInput cs) = Throw TypeError
             <-> breakdown_missing cs
                 \/ performance_missing (matching demoGender g (demoRecords cs)))
      /\ (forall m,
             DemographicView.calculateMetrics (demoInput cs) = Normal (Some m) ->
             exists males females,
               DemographicTables.maleTableData (demoInput cs) = Normal males
               /\ DemographicTables.femaleTableData (demoInput cs) = Normal females))
  /\ DemographicView.calculateMetrics (Some {| DemographicView.campaigns := None |})
     = Normal None
  /\ DemographicTables.maleTableData (Some {| DemographicView.campaigns := None |})
     = Throw TypeError
  /\ DemographicTables.femaleTableData (Some {| DemographicView.campaigns := None |})
     = Throw TypeError.
Proof.
  split; [|repeat split].
  intros cs. split; [|split].
  - rewrite calculateMetrics_eq, <- wellFormed_false.
    destruct (forallb wellFormed cs); split; (reflexivity || discriminate).
  - intros g. rewrite genderTableData_eq, <- tableWellFormed_false.
    destruct (forallb (tableWellFormed g) cs); split; (reflexivity || discriminate).
  - intros m Hm. rewrite calculateMetrics_eq in Hm.
    destruct (forallb wellFormed cs) eqn:E; [|discriminate].
    unfold DemographicTables.maleTableData, DemographicTables.femaleTableData.
    rewrite !genderTableData_eq, !wellFormed_tableWellFormed by exact E.
    do 2 eexists. split; reflexivity.
Qed.

(** X12.  When [calculateMetrics] returns, the Male table lists exactly
    the records of gender Male, in the order of the campaigns and of their
    lists, each with the name of its campaign, and the clicks of its rows
    add up to the click count of the Male card; the same holds for Female. *)
Theorem demographic_tables_match_cards :
  forall cs m,
    DemographicView.calculateMetrics (demoInput cs) = Normal (Some m) ->
    DemographicTables.maleTableData (demoInput cs)
      = Normal (map tableRowOf (matching demoGender "Male" (demoRecords cs)))
    /\ DemographicTables.femaleTableData (demoInput cs)
      = Normal (map tableRowOf (matching demoGender "Female" (demoRecords cs)))
    /\ DemographicView.GenderData.clicks (DemographicView.Metrics.maleData m)
       = total DemographicTables.clicks
           (map tableRowOf (matching demoGender "Male" (demoRecords cs)))
    /\ DemographicView.GenderData.clicks (DemographicView.Metrics.femaleData m)
       = total DemographicTables.clicks
           (map tableRowOf (matching demoGender "Female" (demoRecords cs))).
Proof.
  intros cs m Hm. unfold DemographicTables.maleTableData, DemographicTables.femaleTableData.
  rewrite calculateMetrics_eq in Hm. rewrite !genderTableData_eq.
  destruct (forallb wellFormed cs) eqn:E; [|discriminate].
  rewrite !wellFormed_tableWellFormed by exact E.
  inversion Hm as [Em]. clear Hm.
  split; [reflexivity|]. split; [reflexivity|].
  unfold total, nsum. rewrite !map_map. cbn [tableRowOf DemographicTables.clicks].
  fold demoClicks.
  split.
  - rewrite male_fold.
    apply (fold_left_field genderUpd DemographicView.GenderData.clicks demoClicks).
    reflexivity.
  - rewrite female_fold.
    apply (fold_left_field genderUpd DemographicView.GenderData.clicks demoClicks).
    reflexivity.
Qed.

Lemma demographic_tables_match_cards_witness :
  (exists m, DemographicView.calculateMetrics (demoInput [MoreSamples.mixedCampaign])
             = Normal (Some m))
  /\ match DemographicTables.maleTableData (demoInput [MoreSamples.mixedCampaign]) with
     | Normal rows =>
         map (fun row => (DemographicTables.campaign row, DemographicTables.age_group row,
                          show_num (DemographicTables.clicks row))) rows
     | Throw _ => []
     end
     = [("Autumn", "18-24", "40"); ("Autumn", "35-44", "15")]
  /\ DemographicTables.maleTableData (demoInput [MoreSamples.mixedCampaign])
     = Normal (map tableRowOf
                 (matching demoGender "Male" (demoRecords [MoreSamples.mixedCampaign]))).
Proof.
  assert (H : exists m, DemographicView.calculateMetrics
                          (demoInput [MoreSamples.mixedCampaign]) = Normal (Some m)).
  { eexists. reflexivity. }
  split; [exact H|]. split; [vm_compute; reflexivity|].
  destruct H as (m & Hm).
  exact (proj1 (demographic_tables_match_cards [MoreSamples.mixedCampaign] Hm)).
Defined.

Lemma demographic_view_throws_iff_witness :
  DemographicView.calculateMetrics (demoInput [Samples.quarterCampaign])
    = Normal (Some Samples.quarterMetrics)
  /\ (exists males females,
         DemographicTables.maleTableData (demoInput [Samples.quarterCampaign])
           = Normal males
         /\ DemographicTables.femaleTableData (demoInput [Samples.quarterCampaign])
            = Normal females)
  /\ DemographicView.calculateMetrics (demoInput [MoreSamples.unmeasuredCampaign])
     = Throw TypeError
  /\ DemographicTables.genderTableData "Female" (demoInput [MoreSamples.unmeasuredCampaign])
     = Throw TypeError
  /\ DemographicTables.genderTableData "Male" (demoInput [MoreSamples.unmeasuredCampaign])
     <> Throw TypeError.
Proof.
  assert (Hmissing : performance_missing
                       (matching demoGender "Female"
                          (demoRecords [MoreSamples.unmeasuredCampaign]))).
  { eexists. split; [left; reflexivity | reflexivity]. }
  split; [reflexivity|]. split; [|split; [|split]].
  - exact (proj2 (proj2 (proj1 demographic_view_throws_iff [Samples.quarterCampaign]))
             Samples.quarterMetrics eq_refl).
  - apply (proj1 (proj1 demographic_view_throws_iff [MoreSamples.unmeasuredCampaign])).
    right. eexists. split; [right; left; reflexivity | reflexivity].
  - apply (proj1 (proj2 (proj1 demographic_view_throws_iff
                           [MoreSamples.unmeasuredCampaign])) "Female").
    right. exact Hmissing.
  - intros H.
    apply (proj1 (proj2 (proj1 demographic_view_throws_iff
                           [MoreSamples.unmeasuredCampaign])) "Male") in H.
    destruct H as [(c & [Hc|[]] & E)|(cd & Hcd & E)].
    + subst c. discriminate E.
    + vm_compute in Hcd. destruct Hcd as [Hcd|[]]. subst cd. discriminate E.
Defined.

(** *** Projection and radius of the bubble map *)

Lemma scale_between (t h : Q) :
  (0 <= t)%Q -> (t <= 1)%Q -> (0 <= h)%Q -> (0 <= t * h)%Q /\ (t * h <= h)%Q.
Proof.
  intros H0 H1 Hh. split.
  - now apply Qmult_le_0_compat.
  - setoid_replace h with (1 * h)%Q at 2 by ring. now apply Qmult_le_compat_r.
Qed.

Lemma Qdiv_le_mono (a b c : Q) : (0 <= c)%Q -> (a <= b)%Q -> (a / c <= b / c)%Q.
Proof.
  intros Hc Hab. unfold Qdiv. apply Qmult_le_compat_r; [assumption|].
  now apply Qinv_le_0_compat.
Qed.

Lemma convertCoordinates_Fin (h x y : Q) :
  BubbleMap.convertCoordinates (Fin h) (Fin x) (Fin y)
  = (Fin ((x + 180) / 360 * 1000), Fin ((90 - y) / 180 * h)).
Proof. reflexivity. Qed.

(** X13.  The projection keeps every point of the globe inside the view
    box: a longitude in [-180, 180] and a latitude in [-90, 90] map to a
    position in [0, 1000] x [0, height].  East is to the right and north is
    up. *)
Theorem projection_stays_in_view :
  forall h x y x' y' : Q,
    (0 <= h)%Q ->
    (-180 <= x)%Q -> (x <= x')%Q -> (x' <= 180)%Q ->
    (-90 <= y)%Q -> (y <= y')%Q -> (y' <= 90)%Q ->
    between 0 1000 (fst (BubbleMap.convertCoordinates (Fin h) (Fin x) (Fin y)))
    /\ between 0 h (snd (BubbleMap.convertCoordinates (Fin h) (Fin x) (Fin y)))
    /\ nle (fst (BubbleMap.convertCoordinates (Fin h) (Fin x) (Fin y)))
         (fst (BubbleMap.convertCoordinates (Fin h) (Fin x') (Fin y')))
    /\ nle (snd (BubbleMap.convertCoordinates (Fin h) (Fin x') (Fin y')))
         (snd (BubbleMap.convertCoordinates (Fin h) (Fin x) (Fin y))).
Proof.
  intros h x y x' y' Hh Hx0 Hxx Hx1 Hy0 Hyy Hy1.
  rewrite !convertCoordinates_Fin. cbn [fst snd between]. rewrite !nle_Fin.
  assert (Ht : (0 <= (90 - y) / 180)%Q /\ ((90 - y) / 180 <= 1)%Q).
  { split; [apply Qle_shift_div_l | apply Qle_shift_div_r]; lra. }
  destruct (@scale_between ((90 - y) / 180)%Q h) as [Hs0 Hs1]; try tauto.
  split; [|split; [|split]].
  - split; [apply Qmult_le_0_compat; [apply Qle_shift_div_l|] | ]; try lra.
    setoid_replace 1000%Q with (1 * 1000)%Q at 2 by ring.
    apply Qmult_le_compat_r; [apply Qle_shift_div_r|]; lra.
  - split; assumption.
  - apply Qmult_le_compat_r; [|lra]. apply Qdiv_le_mono; lra.
  - apply Qmult_le_compat_r; [|assumption]. apply Qdiv_le_mono; lra.
Qed.

Lemma projection_stays_in_view_witness :
  map show_num
    [fst (BubbleMap.convertCoordinates (Fin 500) (Fin (-180)) (Fin 90));
     snd (BubbleMap.convertCoordinates (Fin 500) (Fin (-180)) (Fin 90));
     fst (BubbleMap.convertCoordinates (Fin 500) (Fin 180) (Fin (-90)));
     snd (BubbleMap.convertCoordinates (Fin 500) (Fin 180) (Fin (-90)));
     fst (BubbleMap.convertCoordinates (Fin 500) (Fin 0) (Fin 0));
     snd (BubbleMap.convertCoordinates (Fin 500) (Fin 0) (Fin 0))]
  = ["0"; "0"; "1000"; "500"; "500"; "250"]
  /\ between 0 1000
       (fst (BubbleMap.convertCoordinates (Fin 500) (Fin (552708 # 10000))
               (Fin (252048 # 10000))))
  /\ between 0 500
       (snd (BubbleMap.convertCoordinates (Fin 500) (Fin (552708 # 10000))
               (Fin (252048 # 10000)))).
Proof.
  split; [vm_compute; reflexivity|].
  assert (H := @projection_stays_in_view 500 (552708 # 10000) (252048 # 10000)
                 (552708 # 10000) (252048 # 10000)).
  destruct H as (H1 & H2 & _); try (unfold Qle; simpl; lia).
  split; assumption.
Defined.

(** X14.  The radius grows with the value: in a render of a non-empty
    point set with finite values, a point whose value is not below the value
    of another point has a radius that is not below the radius of that
    point. *)
Theorem bubble_radius_is_monotone :
  forall data height,
    data <> [] ->
    finite_values data ->
    forall b1 b2,
      In b1 (BubbleMap.bubblesOf (fst (BubbleMap.BubbleMap data height))) ->
      In b2 (BubbleMap.bubblesOf (fst (BubbleMap.BubbleMap data height))) ->
      nle (BubbleMap.value (BubbleMap.point b1)) (BubbleMap.value (BubbleMap.point b2)) ->
      nle (BubbleMap.radius b1) (BubbleMap.radius b2).
Proof.
  intros data height Hne Hfin b1 b2 H1 H2 Hle.
  rewrite bubbles_of_render in H1, H2 by assumption.
  assert (Hvals : Forall is_finite (map BubbleMap.value data)).
  { apply Forall_map. exact Hfin. }
  destruct (finite_list Hvals) as (qs & Hqs).
  assert (Hqne : qs <> []).
  { intros ->. destruct data; [congruence | discriminate]. }
  destruct (math_max_min_finite Hqne) as (M & m & HM & Hm & HinM & Hinm & Hbound).
  rewrite Hqs, HM, Hm in H1, H2.
  assert (Hval : forall p, In p data -> exists v, BubbleMap.value p = Fin v /\ In v qs).
  { intros p Hp. apply (in_map BubbleMap.value) in Hp. rewrite Hqs in Hp.
    apply in_map_iff in Hp. destruct Hp as (v & Ev & Hv). exists v. auto. }
  apply in_map_iff in H1. destruct H1 as (p1 & E1 & Hp1). subst b1.
  apply in_map_iff in H2. destruct H2 as (p2 & E2 & Hp2). subst b2.
  cbn [BubbleMap.radius BubbleMap.point] in *.
  destruct (Hval p1 Hp1) as (v1 & Ev1 & Hv1). destruct (Hval p2 Hp2) as (v2 & Ev2 & Hv2).
  rewrite Ev1, Ev2 in *. rewrite !getBubbleSize_Fin. apply nle_Fin in Hle.
  destruct (Qeq_bool M m) eqn:E; [apply nle_Fin; lra|].
  apply Qeq_bool_neq in E. apply nle_Fin.
  destruct (Hbound v1 Hv1) as [Hm1 _]. destruct (Hbound M HinM) as [HmM _].
  assert (Hmono : ((v1 - m) / (M - m) <= (v2 - m) / (M - m))%Q).
  { apply Qdiv_le_mono; lra. }
  lra.
Qed.

Lemma bubble_radius_is_monotone_witness :
  Samples.threeBubbles <> []
  /\ finite_values Samples.threeBubbles
  /\ forall b1 b2,
      In b1 (BubbleMap.bubblesOf (fst (BubbleMap.BubbleMap Samples.threeBubbles (Fin 500)))) ->
      In b2 (BubbleMap.bubblesOf (fst (BubbleMap.BubbleMap Samples.threeBubbles (Fin 500)))) ->
      nle (BubbleMap.value (BubbleMap.point b1)) (BubbleMap.value (BubbleMap.point b2)) ->
      nle (BubbleMap.radius b1) (BubbleMap.radius b2).
Proof.
  assert (Hne : Samples.threeBubbles <> []) by discriminate.
  assert (Hfin : finite_values Samples.threeBubbles) by (repeat constructor).
  split; [exact Hne|]. split; [exact Hfin|].
  exact (bubble_radius_is_monotone (Fin 500) Hne Hfin).
Defined.

(** *** Geometry of the line chart *)

Lemma LineChart_nonempty (data : list LineChart.LineChartDataPoint) (height : num) :
  data <> [] ->
  exists g,
    LineChart.LineChart data height = Some g
    /\ LineChart.points g
       = map (fun ip : nat * LineChart.LineChartDataPoint =>
                LineChart.Build_Point
                  (nmul (ndiv (of_nat (fst ip)) (nsub (of_nat (List.length data)) (Fin 1)))
                     LineChart.chartWidth)
                  (nsub (nsub height (Fin 80))
                     (nmul
                        (ndiv (nsub (LineChart.value (snd ip))
                                 (math_min (map LineChart.value data)))
                           (num_or (nsub (math_max (map LineChart.value data))
                                      (math_min (map LineChart.value data))) (Fin 1)))
                        (nsub height (Fin 80))))
                  (snd ip))
           (JsArray.indexed data).
Proof.
  destruct data as [|d data]; [congruence|]. intros _. eexists. split; [reflexivity|].
  cbn [LineChart.points]. apply map_ext. now intros [i p].
Qed.

Lemma nth_error_combine_seq (A : Type) (xs : list A) (s i : nat) :
  nth_error (combine (seq s (List.length xs)) xs) i
  = option_map (pair (s + i)%nat) (nth_error xs i).
Proof.
  revert s i. induction xs as [|x xs IH]; intros s i; cbn [List.length seq combine].
  - now destruct i.
  - destruct i as [|i]; cbn [nth_error option_map].
    + now rewrite Nat.add_0_r.
    + rewrite IH. now rewrite Nat.add_succ_r.
Qed.

Lemma indexed_snd (A : Type) (xs : list A) : map snd (JsArray.indexed xs) = xs.
Proof.
  unfold JsArray.indexed. generalize 0%nat.
  induction xs as [|x xs IH]; intros s; cbn [List.length seq combine map snd];
    [reflexivity | now rewrite IH].
Qed.

Lemma line_y_Fin (H M m v : Q) :
  nsub (nsub (Fin H) (Fin 80))
    (nmul (ndiv (nsub (Fin v) (Fin m)) (num_or (nsub (Fin M) (Fin m)) (Fin 1)))
       (nsub (Fin H) (Fin 80)))
  = Fin (H - 80 - (v - m) / (if Qeq_bool (M - m) 0 then 1 else M - m) * (H - 80)).
Proof.
  cbn [nsub]. unfold num_or, truthy.
  destruct (Qeq_bool (M - m) 0) eqn:E; cbn [negb ndiv].
  - reflexivity.
  - rewrite E. reflexivity.
Qed.

(** X15.  For a non-empty series of finite values none of which is below
    0 (so that [maxValue - minValue] is a finite number) and a height of at
    least 80, the chart has one point per item, in order, and every point
    lies between the top (0) and the base line (height - 80).  When all
    values are equal every point lies on the base line; otherwise an item of
    greatest value lies on the top and an item of least value on the base
    line. *)
Theorem line_points_within_chart :
  forall data (H : Q),
    data <> [] ->
    finite_series data ->
    nonnegative_series data ->
    (80 <= H)%Q ->
    exists g,
      LineChart.LineChart data (Fin H) = Some g
      /\ map LineChart.item (LineChart.points g) = data
      /\ forall p,
          In p (LineChart.points g) ->
          between 0 (H - 80) (LineChart.y p)
          /\ (flat_series data -> num_eqv (LineChart.y p) (Fin (H - 80)))
          /\ (~ flat_series data ->
              (forall q, In q data ->
                         nle (LineChart.value q) (LineChart.value (LineChart.item p))) ->
              num_eqv (LineChart.y p) (Fin 0))
          /\ (~ flat_series data ->
              (forall q, In q data ->
                         nle (LineChart.value (LineChart.item p)) (LineChart.value q)) ->
              num_eqv (LineChart.y p) (Fin (H - 80))).
Proof.
  intros data H Hne Hfin _ HH.
  destruct (LineChart_nonempty (Fin H) Hne) as (g & Eg & Hpoints).
  exists g. split; [exact Eg|]. rewrite Hpoints. split.
  { rewrite map_map. cbn [LineChart.item]. apply indexed_snd. }
  assert (Hvals : Forall is_finite (map LineChart.value data)).
  { apply Forall_map. exact Hfin. }
  destruct (finite_list Hvals) as (qs & Hqs).
  assert (Hqne : qs <> []).
  { intros ->. destruct data; [congruence | discriminate]. }
  destruct (math_max_min_finite Hqne) as (M & m & HM & Hm & HinM & Hinm & Hbound).
  rewrite Hqs, HM, Hm.
  assert (Hval : forall p, In p data -> exists v, LineChart.value p = Fin v /\ In v qs).
  { intros p Hp. apply (in_map LineChart.value) in Hp. rewrite Hqs in Hp.
    apply in_map_iff in Hp. destruct Hp as (v & Ev & Hv). exists v. auto. }
  assert (Hpt : forall v, In v qs -> exists p, In p data /\ LineChart.value p = Fin v).
  { intros v Hv. apply (in_map Fin) in Hv. rewrite <- Hqs in Hv.
    apply in_map_iff in Hv. destruct Hv as (p & Ep & Hp). exists p. auto. }
  assert (Hflat : flat_series data <-> (M == m)%Q).
  { split.
    - intros Heq. destruct (Hpt M HinM) as (pM & HpM & EM).
      destruct (Hpt m Hinm) as (pm & Hpm & Em).
      specialize (Heq pM pm HpM Hpm). rewrite EM, Em in Heq. exact Heq.
    - intros HMm p q Hp Hq.
      destruct (Hval p Hp) as (v & Ev & Hv). destruct (Hval q Hq) as (w & Ew & Hw).
      rewrite Ev, Ew. cbn [num_eqv].
      destruct (Hbound v Hv), (Hbound w Hw). lra. }
  intros p Hp. apply in_map_iff in Hp. destruct Hp as ([i d] & Ep & Hd). subst p.
  cbn [LineChart.y LineChart.item fst snd].
  assert (Hd' : In d data).
  { rewrite <- (indexed_snd data). change d with (snd (i, d)). now apply in_map. }
  destruct (Hval d Hd') as (v & Ev & Hv). rewrite Ev, line_y_Fin.
  destruct (Hbound v Hv) as [Hmv HvM].
  cbn [between num_eqv].
  destruct (Qeq_bool (M - m) 0) eqn:E.
  - apply Qeq_bool_eq in E. assert (EMm : (M == m)%Q) by lra.
    assert (Et : ((v - m) / 1 * (H - 80) == 0)%Q).
    { assert (Ev0 : (v - m == 0)%Q) by lra. rewrite Ev0. field. }
    split; [split; lra|]. split; [intros _; lra|].
    split; intros Hn; exfalso; apply Hn; now apply Hflat.
  - apply Qeq_bool_neq in E. assert (Hpos : (0 < M - m)%Q) by lra.
    assert (H0 : (0 <= (v - m) / (M - m))%Q).
    { apply Qle_shift_div_l; [assumption | lra]. }
    assert (H1 : ((v - m) / (M - m) <= 1)%Q).
    { apply Qle_shift_div_r; [assumption | lra]. }
    destruct (@scale_between ((v - m) / (M - m))%Q (H - 80)%Q) as [Hs0 Hs1]; try lra.
    split; [split; lra|].
    split; [intros Hf; exfalso; apply Hflat in Hf; lra|]. split.
    + intros _ Hmax. destruct (Hpt M HinM) as (pM & HpM & EM).
      specialize (Hmax pM HpM). rewrite EM in Hmax. apply nle_Fin in Hmax.
      assert (EvM : (v == M)%Q) by lra. rewrite EvM. field. lra.
    + intros _ Hmin. destruct (Hpt m Hinm) as (pm & Hpm & Em).
      specialize (Hmin pm Hpm). rewrite Em in Hmin. apply nle_Fin in Hmin.
      assert (Evm : (v - m == 0)%Q) by lra. rewrite Evm. field. lra.
Qed.

Lemma line_points_within_chart_witness :
  MoreSamples.threePoints <> []
  /\ finite_series MoreSamples.threePoints
  /\ nonnegative_series MoreSamples.threePoints
  /\ (80 <= 300)%Q
  /\ option_map (fun g => map (fun p => show_num (LineChart.y p)) (LineChart.points g))
       (LineChart.LineChart MoreSamples.threePoints (Fin 300))
     = Some ["220"; "0"; "110"]
  /\ exists g, LineChart.LineChart MoreSamples.threePoints (Fin 300) = Some g
               /\ map LineChart.item (LineChart.points g) = MoreSamples.threePoints.
Proof.
  assert (Hne : MoreSamples.threePoints <> []) by discriminate.
  assert (Hfin : finite_series MoreSamples.threePoints) by (repeat constructor).
  assert (Hpos : nonnegative_series MoreSamples.threePoints) by (repeat constructor).
  assert (HH : (80 <= 300)%Q) by (unfold Qle; simpl; lia).
  split; [exact Hne|]. split; [exact Hfin|]. split; [exact Hpos|]. split; [exact HH|].
  split; [vm_compute; reflexivity|].
  destruct (line_points_within_chart Hne Hfin Hpos HH) as (g & Eg & Hitems & _).
  exists g. auto.
Defined.

Lemma nth_error_indexed (A : Type) (xs : list A) (i : nat) :
  nth_error (JsArray.indexed xs) i = option_map (pair i) (nth_error xs i).
Proof. unfold JsArray.indexed. now rewrite nth_error_combine_seq. Qed.

Lemma line_x_Fin (i n : nat) :
  (2 <= n)%nat ->
  nmul (ndiv (of_nat i) (nsub (of_nat n) (Fin 1))) LineChart.chartWidth
  = Fin (inject_Z (Z.of_nat i) / (inject_Z (Z.of_nat n) - 1) * 100).
Proof.
  intros Hn. unfold of_nat, of_Z, LineChart.chartWidth. cbn [nsub ndiv].
  assert (E : Qeq_bool (inject_Z (Z.of_nat n) - 1) 0 = false).
  { apply not_true_iff_false. intros H. apply Qeq_bool_eq in H.
    unfold Qeq, Qminus, Qplus, Qopp, inject_Z in H. cbn [Qnum Qden] in H. lia. }
  rewrite E. reflexivity.
Qed.

Lemma inject_Z_nat_le (i j : nat) :
  (i <= j)%nat -> (inject_Z (Z.of_nat i) <= inject_Z (Z.of_nat j))%Q.
Proof. intros H. rewrite <- Zle_Qle. lia. Qed.

Lemma inject_Z_nat_lt (i j : nat) :
  (i < j)%nat -> (inject_Z (Z.of_nat i) < inject_Z (Z.of_nat j))%Q.
Proof. intros H. rewrite <- Zlt_Qlt. lia. Qed.

(** X16.  For a series of at least two items, the chart has one point per
    item and the point of index i stands at i / (n - 1) * 100: the first
    point at 0, the last at 100, every point between them, and the points
    from left to right in the order of the series. *)
Theorem line_points_spread_over_width :
  forall data height,
    (2 <= List.length data)%nat ->
    exists g,
      LineChart.LineChart data height = Some g
      /\ List.length (LineChart.points g) = List.length data
      /\ (forall i p,
             nth_error (LineChart.points g) i = Some p ->
             LineChart.x p
               = Fin (inject_Z (Z.of_nat i)
                      / (inject_Z (Z.of_nat (List.length data)) - 1) * 100)
             /\ between 0 100 (LineChart.x p)
             /\ (i = 0%nat -> num_eqv (LineChart.x p) (Fin 0))
             /\ (S i = List.length data -> num_eqv (LineChart.x p) (Fin 100)))
      /\ (forall i j p q,
             (i < j)%nat ->
             nth_error (LineChart.points g) i = Some p ->
             nth_error (LineChart.points g) j = Some q ->
             nlt (LineChart.x p) (LineChart.x q) = true).
Proof.
  intros data height Hn.
  assert (Hne : data <> []) by (intros ->; cbn in Hn; lia).
  destruct (LineChart_nonempty height Hne) as (g & Eg & Hpoints).
  exists g. split; [exact Eg|]. rewrite Hpoints.
  assert (Hlen : List.length (JsArray.indexed data) = List.length data).
  { rewrite <- (indexed_snd data) at 2. now rewrite length_map. }
  split; [now rewrite length_map|].
  set (n := inject_Z (Z.of_nat (List.length data))).
  assert (Hn2 : (2 <= n)%Q).
  { unfold n. change 2%Q with (inject_Z (Z.of_nat 2)). now apply inject_Z_nat_le. }
  assert (Hx : forall i p,
    nth_error
      (map (fun ip : nat * LineChart.LineChartDataPoint =>
              LineChart.Build_Point
                (nmul (ndiv (of_nat (fst ip)) (nsub (of_nat (List.length data)) (Fin 1)))
                   LineChart.chartWidth)
                (nsub (nsub height (Fin 80))
                   (nmul
                      (ndiv (nsub (LineChart.value (snd ip))
                               (math_min (map LineChart.value data)))
                         (num_or (nsub (math_max (map LineChart.value data))
                                    (math_min (map LineChart.value data))) (Fin 1)))
                      (nsub height (Fin 80))))
                (snd ip))
         (JsArray.indexed data)) i = Some p ->
    (i < List.length data)%nat
    /\ LineChart.x p = Fin (inject_Z (Z.of_nat i) / (n - 1) * 100)).
  { intros i p Hp. rewrite nth_error_map, nth_error_indexed in Hp.
    destruct (nth_error data i) as [d|] eqn:Ed; [|discriminate].
    cbn [option_map] in Hp. inversion Hp; subst p. cbn [LineChart.x fst]. split.
    - apply nth_error_Some. congruence.
    - now apply line_x_Fin. }
  split.
  - intros i p Hp. destruct (Hx i p Hp) as [Hi Ex]. rewrite Ex.
    split; [reflexivity|]. cbn [between num_eqv].
    assert (Hi0 : (0 <= inject_Z (Z.of_nat i))%Q).
    { change 0%Q with (inject_Z (Z.of_nat 0)). apply inject_Z_nat_le. lia. }
    assert (Hi1 : (inject_Z (Z.of_nat i) <= n - 1)%Q).
    { assert (H' := inject_Z_nat_le (i := S i) (j := List.length data) Hi).
      fold n in H'. rewrite Nat2Z.inj_succ in H'. unfold Z.succ in H'.
      rewrite inject_Z_plus in H'. change (inject_Z 1) with 1%Q in H'. lra. }
    assert (H0 : (0 <= inject_Z (Z.of_nat i) / (n - 1))%Q).
    { apply Qle_shift_div_l; lra. }
    assert (H1 : (inject_Z (Z.of_nat i) / (n - 1) <= 1)%Q).
    { apply Qle_shift_div_r; lra. }
    split; [split; lra|]. split.
    + intros ->. cbn [Z.of_nat]. field. lra.
    + intros HS. assert (E : (inject_Z (Z.of_nat i) == n - 1)%Q).
      { unfold n. rewrite <- HS, Nat2Z.inj_succ. unfold Z.succ.
        rewrite inject_Z_plus. change (inject_Z 1) with 1%Q. ring. }
      rewrite E. field. lra.
  - intros i j p q Hij Hp Hq.
    destruct (Hx i p Hp) as [_ Ep]. destruct (Hx j q Hq) as [_ Eq].
    rewrite Ep, Eq. apply nlt_Fin.
    assert (Hlt := inject_Z_nat_lt Hij).
    assert (Hd : (inject_Z (Z.of_nat i) / (n - 1) < inject_Z (Z.of_nat j) / (n - 1))%Q).
    { unfold Qdiv. apply Qmult_lt_compat_r; [apply Qinv_lt_0_compat; lra | assumption]. }
    lra.
Qed.

Lemma line_points_spread_over_width_witness :
  (2 <= List.length MoreSamples.threePoints)%nat
  /\ option_map (fun g => map (fun p => show_num (LineChart.x p)) (LineChart.points g))
       (LineChart.LineChart MoreSamples.threePoints (Fin 300))
     = Some ["0"; "50"; "100"]
  /\ option_map LineChart.pathD (LineChart.LineChart MoreSamples.threePoints (Fin 300))
     = Some "M 0 220 L 50 0 L 100 110"
  /\ exists g,
      LineChart.LineChart MoreSamples.threePoints (Fin 300) = Some g
      /\ List.length (LineChart.points g) = List.length MoreSamples.threePoints.
Proof.
  assert (H : (2 <= List.length MoreSamples.threePoints)%nat) by (cbn; lia).
  split; [exact H|]. split; [vm_compute; reflexivity|]. split; [vm_compute; reflexivity|].
  destruct (line_points_spread_over_width MoreSamples.threePoints (Fin 300) H)
    as (g & Eg & Hlen & _).
  exists g. auto.
Defined.

(** *** Campaigns without records *)

Lemma records_of_listed (C A : Type) (perf : C -> option (list A)) (cs : list C) :
  flat_map (fun c => present (perf c)) (filter (fun c => listed (perf c)) cs)
  = flat_map (fun c => present (perf c)) cs.
Proof.
  induction cs as [|c cs IH]; [reflexivity|]. cbn [filter flat_map].
  destruct (perf c) as [[|r rs]|] eqn:E; cbn [listed present app flat_map];
    rewrite ?E; cbn [present app]; now rewrite IH.
Qed.

(** X17.  In the device, weekly and region aggregations a campaign whose
    breakdown list is absent or empty counts for nothing: the rows are the
    ones obtained from the campaigns that do hold records, and they are
    empty when no campaign holds any. *)
Theorem campaigns_without_records_are_skipped :
  (forall cs,
      DeviceView.aggregatedDeviceData (deviceInput cs)
      = DeviceView.aggregatedDeviceData
          (deviceInput
             (filter (fun c => listed (DeviceView.Campaign.device_performance c)) cs)))
  /\ (forall getTime cs,
      WeeklyView.aggregatedWeeklyData getTime (weekInput cs)
      = WeeklyView.aggregatedWeeklyData getTime
          (weekInput
             (filter (fun c => listed (WeeklyView.Campaign.weekly_performance c)) cs)))
  /\ (forall cs,
      RegionView.aggregatedRegionalData (regionInput cs)
      = RegionView.aggregatedRegionalData
          (regionInput
             (filter (fun c => listed (RegionView.Campaign.regional_performance c)) cs)))
  /\ (forall cs,
      (forall c, In c cs -> listed (RegionView.Campaign.regional_performance c) = false) ->
      RegionView.aggregatedRegionalData (regionInput cs) = []).
Proof.
  split; [|split; [|split]].
  - intros cs. rewrite !device_aggregation. unfold deviceRecords.
    now rewrite records_of_listed.
  - intros getTime cs. rewrite !week_aggregation. unfold weeklyRecords.
    now rewrite records_of_listed.
  - intros cs. rewrite !region_aggregation. unfold regionRecords.
    now rewrite records_of_listed.
  - intros cs Hnone. rewrite region_aggregation. unfold regionRecords.
    rewrite <- records_of_listed.
    replace (filter (fun c => listed (RegionView.Campaign.regional_performance c)) cs)
      with (@nil RegionView.Campaign.t); [reflexivity|].
    symmetry. induction cs as [|c cs IH]; [reflexivity|]. cbn [filter].
    rewrite (Hnone c (or_introl eq_refl)). apply IH. intros c' Hc'. apply Hnone. now right.
Qed.

Lemma campaigns_without_records_are_skipped_witness :
  (forall c,
      In c [RegionView.Campaign.mk "c1" "Spring" None;
            RegionView.Campaign.mk "c2" "Summer" (Some [])] ->
      listed (RegionView.Campaign.regional_performance c) = false)
  /\ RegionView.aggregatedRegionalData
       (regionInput [RegionView.Campaign.mk "c1" "Spring" None;
                     RegionView.Campaign.mk "c2" "Summer" (Some [])]) = [].
Proof.
  assert (H : forall c,
    In c [RegionView.Campaign.mk "c1" "Spring" None;
          RegionView.Campaign.mk "c2" "Summer" (Some [])] ->
    listed (RegionView.Campaign.regional_performance c) = false).
  { intros c [Hc|[Hc|[]]]; subst c; reflexivity. }
  split; [exact H|].
  exact (proj2 (proj2 (proj2 campaigns_without_records_are_skipped)) _ H).
Defined.
